(** * llm-router: a shallow embedding of the router, the adapters and the
      middleware, with the properties of the specification checked against it.

    Conventions of the embedding.
    - Go [string] is [string]; [+] / [+=] on strings is [String.append]
      (written [+:+]).
    - Go [int], [int64], [time.Duration] are [Z]; where the source adds two
      [int64] the wrap-around is written out ([wrap64]).
    - Go [error] is [option error]: [None] is [nil].  Functions returning
      [(T, error)] return [result T].
    - Go maps are [gmap]; the order in which [range] visits a map is not
      specified by the language, so it is an explicit argument.
    - The remote services, the clock and the scheduler are outside the
      program: they are the abstract world [W], threaded through every call. *)

From Stdlib Require Import ZArith Lia.
From stdpp Require Import gmap strings list fin_maps.

Local Open Scope Z_scope.

(* ===================================================================== *)
(** * errors.go *)
(* ===================================================================== *)

Module Errors.

(** The sentinel errors ([errors.New] values).  Go compares them by identity,
    so each is a constructor. *)
Inductive sentinel : Type :=
| ErrUnknownModel
| ErrUnknownProvider
| ErrNoProviders
| ErrRateLimited
| ErrContextCanceled
| ErrStreamClosed
| ErrInvalidRequest
| ErrAuthFailed
| ErrProviderError
| ErrCircuitOpen
| ErrMaxRetriesExceed.

#[global] Instance sentinel_eq_dec : EqDecision sentinel.
Proof. solve_decision. Defined.

Definition sentinelText (s : sentinel) : string :=
  match s with
  | ErrUnknownModel => "unknown model"
  | ErrUnknownProvider => "unknown provider"
  | ErrNoProviders => "no providers registered"
  | ErrRateLimited => "rate limited"
  | ErrContextCanceled => "context canceled"
  | ErrStreamClosed => "stream closed"
  | ErrInvalidRequest => "invalid request"
  | ErrAuthFailed => "authentication failed"
  | ErrProviderError => "provider error"
  | ErrCircuitOpen => "circuit breaker is open"
  | ErrMaxRetriesExceed => "max retries exceeded"
  end.

(** Non-nil error values.
    - [Sentinel s]: one of the package's sentinels.
    - [Wrapped msg w]: the value built by [fmt.Errorf] with one [%w] verb;
      [msg] is the formatted text and [Unwrap] gives [w].
    - [APIError ...]: a [*APIError]; [Unwrap] gives its [Err] field.
    - [Foreign msg]: an error of another package (an SDK error, a context
      error) that does not unwrap to anything of this package. *)
#[warnings="-register-all"]
Inductive error : Type :=
| Sentinel (s : sentinel)
| Wrapped (msg : string) (w : error)
| APIError (Provider : string) (StatusCode : Z) (Message Type_ : string)
           (Err : option error)
| Foreign (msg : string).

(** Induction along the [Unwrap] chain (the generated principle does not go
    through the optional [Err] field). *)
Fixpoint error_chain_ind (P : error -> Prop)
    (HS : forall s, P (Sentinel s))
    (HW : forall msg w, P w -> P (Wrapped msg w))
    (HAS : forall p c m t e, P e -> P (APIError p c m t (Some e)))
    (HAN : forall p c m t, P (APIError p c m t None))
    (HF : forall msg, P (Foreign msg))
    (e : error) {struct e} : P e :=
  match e with
  | Sentinel s => HS s
  | Wrapped msg w => HW msg w (error_chain_ind P HS HW HAS HAN HF w)
  | APIError p c m t (Some x) =>
      HAS p c m t x (error_chain_ind P HS HW HAS HAN HF x)
  | APIError p c m t None => HAN p c m t
  | Foreign msg => HF msg
  end.

(** [Error()] of each error value. *)
Fixpoint errorText (e : error) : string :=
  match e with
  | Sentinel s => sentinelText s
  | Wrapped msg _ => msg
  | APIError p _ m _ (Some c) => p +:+ ": " +:+ m +:+ ": " +:+ errorText c
  | APIError p _ m _ None => p +:+ ": " +:+ m
  | Foreign msg => msg
  end.

(** [Unwrap()]: one step down the chain. *)
Definition Unwrap (e : error) : option error :=
  match e with
  | Sentinel _ => None
  | Wrapped _ w => Some w
  | APIError _ _ _ _ c => c
  | Foreign _ => None
  end.

(** [errors.Is(err, target)] for a sentinel target: walk the [Unwrap] chain
    and compare each link with the target by identity. *)
Fixpoint errorsIs (err : error) (target : sentinel) : bool :=
  match err with
  | Sentinel s => bool_decide (s = target)
  | Wrapped _ w => errorsIs w target
  | APIError _ _ _ _ (Some c) => errorsIs c target
  | APIError _ _ _ _ None => false
  | Foreign _ => false
  end.

(** [errors.As(err, &apiErr)] with [apiErr : *APIError]: the first link of the
    chain that is an [*APIError]; only its [StatusCode] is read afterwards. *)
Fixpoint errorsAsAPIError (err : error) : option Z :=
  match err with
  | Sentinel _ => None
  | Wrapped _ w => errorsAsAPIError w
  | APIError _ code _ _ _ => Some code
  | Foreign _ => None
  end.

(** [fmt.Errorf("%w: %s", w, s)]. *)
Definition Errorf_w_s (w : error) (s : string) : error :=
  Wrapped (errorText w +:+ ": " +:+ s) w.

(** [fmt.Errorf("%w: %v", w, v)] where [v] is an [error] that may be nil. *)
Definition Errorf_w_v (w : error) (v : option error) : error :=
  Wrapped (errorText w +:+ ": " +:+
           match v with Some e => errorText e | None => "<nil>" end) w.

(** The [switch apiErr.StatusCode] of [IsRetryable]: [Some b] when a case
    returns [b], [None] when no case matches and control falls out of the
    switch. *)
Definition statusSwitch (code : Z) : option bool :=
  if code =? 429 then Some true
  else if (code =? 500) || (code =? 502) || (code =? 503) || (code =? 504)
       then Some true
  else if (code =? 401) || (code =? 403) || (code =? 400) then Some false
  else None.

Definition IsRetryable (err : option error) : bool :=
  match err with
  | None => false
  | Some e =>
      if errorsIs e ErrContextCanceled then false
      else if errorsIs e ErrAuthFailed then false
      else if errorsIs e ErrInvalidRequest then false
      else
        match
          match errorsAsAPIError e with
          | Some code => statusSwitch code
          | None => None
          end
        with
        | Some b => b
        | None => if errorsIs e ErrRateLimited then true else true
        end
  end.

(** The function results of the package: [(T, error)] with exactly one of the
    two set. *)
Inductive result (A : Type) : Type :=
| Ok (a : A)
| Fail (e : error).
Arguments Ok {A} a.
Arguments Fail {A} e.

(** "[e] unwraps to [e']": [e'] is reached from [e] by zero or more [Unwrap]
    steps. *)
Inductive UnwrapsTo : error -> error -> Prop :=
| unwraps_here e : UnwrapsTo e e
| unwraps_step e e1 e' : Unwrap e = Some e1 -> UnwrapsTo e1 e' -> UnwrapsTo e e'.

(** An [*APIError] value with the given status code. *)
Definition isAPIErrorWith (code : Z) (e : error) : Prop :=
  exists p m t c, e = APIError p code m t c.

(** [IsRateLimited]; [errors.Is] and [errors.As] on a nil error find
    nothing. *)
Definition IsRateLimited (err : option error) : bool :=
  match err with
  | None => false
  | Some e =>
      if errorsIs e ErrRateLimited then true
      else
        match errorsAsAPIError e with
        | Some code => code =? 429
        | None => false
        end
  end.

End Errors.

(* ===================================================================== *)
(** * types.go *)
(* ===================================================================== *)

Module Types.

(** [type Role string] and its constants. *)
Definition Role := string.
Definition RoleSystem : Role := "system".
Definition RoleUser : Role := "user".
Definition RoleAssistant : Role := "assistant".
Definition RoleTool : Role := "tool".

Record FuncCall : Type := mkFuncCall {
  fcName : string;
  fcArguments : string }.

Record ToolCall : Type := mkToolCall {
  tcID : string;
  tcType : string;
  tcFunction : FuncCall;
  tcIndex : option Z }.

Record Message : Type := mkMessage {
  msgRole : Role;
  msgContent : string;
  msgName : string;
  msgToolCalls : list ToolCall;
  msgToolCallID : string }.

Record Delta : Type := mkDelta {
  dRole : Role;
  dContent : string;
  dToolCalls : list ToolCall }.

Record Usage : Type := mkUsage {
  PromptTokens : Z;
  CompletionTokens : Z;
  TotalTokens : Z }.

Record Choice : Type := mkChoice {
  chIndex : Z;
  chMessage : option Message;
  chDelta : option Delta;
  chFinishReason : string }.

(** [Usage] is a pointer in the source: [None] is [nil]. *)
Record Response : Type := mkResponse {
  rID : string;
  rObject : string;
  rCreated : Z;
  rModel : string;
  rChoices : list Choice;
  rUsage : option Usage;
  rProvider : string }.

Inductive EventType : Type :=
| EventContentDelta
| EventToolCallDelta
| EventDone
| EventError.

#[global] Instance EventType_eq_dec : EqDecision EventType.
Proof. solve_decision. Defined.

(** [Event] is a struct in the source, tagged by [Type]; fields that a
    constructor site leaves out hold their zero value. *)
Record Event : Type := mkEvent {
  evType : EventType;
  evContent : string;
  evDelta : option Delta;
  evResponse : option Response;
  evError : option Errors.error }.

(** [Request]: the fields read by the code modelled here.  The sampling
    knobs, tools and metadata are copied to the backend parameters without
    taking part in any decision; they are carried as the request itself. *)
Record Request : Type := mkRequest {
  reqMessages : list Message;
  reqModel : string;
  reqMaxTokens : option Z;
  reqStop : list string }.

(** Go [int64] addition wraps around. *)
Definition wrap64 (z : Z) : Z := (z + 2 ^ 63) mod 2 ^ 64 - 2 ^ 63.

(** Concatenation of a list of strings, in order. *)
Definition concatAll (l : list string) : string := foldr String.append "" l.

(** A terminal event is a [Done] or an [Error]. *)
Definition isTerminal (e : Event) : bool :=
  match evType e with
  | EventDone | EventError => true
  | _ => false
  end.

End Types.

(* ===================================================================== *)
(** * What lies outside the program *)
(* ===================================================================== *)

Module Runtime.
Import Errors.

(** The Go runtime and standard library, as far as the code uses them.
    [W] is the state of the outside world, [Ctx] is [context.Context].
    - [ctxWithTimeout ctx d]: [context.WithTimeout(ctx, d)] (reads the clock).
    - [selectAfter ctx d]: the statement
      [select { case <-ctx.Done(): ... ; case <-time.After(d): }];
      [Some e] when the [ctx.Done()] case is taken, [e] being [ctx.Err()].
    - [selectDone ctx]: a [select] that has a [<-ctx.Done()] case next to a
      channel operation that can proceed; [Some e] when the [ctx.Done()] case
      is the one taken ([e] is [ctx.Err()]), [None] when the channel
      operation is.
    - [timeNowUnix]: [time.Now().Unix()]. *)
Record Runtime (W Ctx : Type) : Type := mkRuntime {
  ctxWithTimeout : Ctx -> Z -> W -> Ctx * W;
  selectAfter : Ctx -> Z -> W -> option error * W;
  selectDone : Ctx -> W -> option error * W;
  timeNowUnix : W -> Z }.
Arguments ctxWithTimeout {W Ctx} _ _ _ _.
Arguments selectAfter {W Ctx} _ _ _ _.
Arguments selectDone {W Ctx} _ _ _.
Arguments timeNowUnix {W Ctx} _ _.

(** [time.Second], in nanoseconds. *)
Definition Second : Z := 1000000000.

End Runtime.

(* ===================================================================== *)
(** * provider.go, options.go, router.go *)
(* ===================================================================== *)

Module Router.
Import Errors Types.

Section WithWorld.
Context {W Ctx : Type}.

(** The [Provider] interface.  [Stream] returns the events that the channel
    delivers, in order, up to its close. *)
Record Provider : Type := mkProvider {
  Name : string;
  Models : list string;
  SupportsTools : bool;
  Complete : Ctx -> Request -> W -> result Response * W;
  Stream : Ctx -> Request -> W -> result (list Event) * W }.

(** The [Middleware] interface: its one method, [Wrap]. *)
Definition Middleware : Type := Provider -> Provider.

Record Router : Type := mkRouter {
  providers : gmap string Provider;
  modelMap : gmap string string;
  fallbacks : list string;
  middleware : list Middleware }.

(** [New()] without options. *)
Definition New : Router :=
  {| providers := ∅; modelMap := ∅; fallbacks := []; middleware := [] |}.

Definition RegisterProvider (r : Router) (name : string) (p : Provider) : Router :=
  {| providers := <[name := p]> (providers r); modelMap := modelMap r;
     fallbacks := fallbacks r; middleware := middleware r |}.

Definition MapModel (r : Router) (model provider : string) : Router :=
  {| providers := providers r; modelMap := <[model := provider]> (modelMap r);
     fallbacks := fallbacks r; middleware := middleware r |}.

Definition SetFallbacks (r : Router) (ps : list string) : Router :=
  {| providers := providers r; modelMap := modelMap r;
     fallbacks := ps; middleware := middleware r |}.

Definition AddMiddleware (r : Router) (m : Middleware) : Router :=
  {| providers := providers r; modelMap := modelMap r;
     fallbacks := fallbacks r; middleware := middleware r ++ [m] |}.

(** The inner loop of [resolveProvider]: [for _, m := range p.Models()]. *)
Fixpoint declares (ms : list string) (model : string) : bool :=
  match ms with
  | [] => false
  | m :: ms' => if String.eqb m model then true else declares ms' model
  end.

(** The outer loop: [for _, p := range r.providers], visiting the entries in
    the order [visit]. *)
Fixpoint scan (visit : list (string * Provider)) (model : string) : option Provider :=
  match visit with
  | [] => None
  | (_, p) :: rest => if declares (Models p) model then Some p else scan rest model
  end.

(** [resolveProvider].  [visit] is the order in which the [range] over
    [r.providers] visits the map. *)
Definition resolveProvider (r : Router) (visit : list (string * Provider))
    (model : string) : result Provider :=
  if Nat.eqb (size (providers r)) 0 then Fail (Sentinel ErrNoProviders)
  else
    match
      match modelMap r !! model with
      | Some providerName => providers r !! providerName
      | None => None
      end
    with
    | Some p => Ok p
    | None =>
        match providers r !! model with
        | Some p => Ok p
        | None =>
            match scan visit model with
            | Some p => Ok p
            | None => Fail (Errorf_w_s (Sentinel ErrUnknownModel) model)
            end
        end
    end.

(** [buildChain]: the loop runs from the last middleware to the first, so the
    first one ends up outermost. *)
Definition buildChain (r : Router) (provider : Provider) : Provider :=
  foldr (fun (m : Middleware) result => m result) provider (middleware r).

Definition Router_Complete (r : Router) (visit : list (string * Provider))
    (ctx : Ctx) (req : Request) (w : W) : result Response * W :=
  match resolveProvider r visit (reqModel req) with
  | Fail err => (Fail err, w)
  | Ok provider => Complete (buildChain r provider) ctx req w
  end.

Definition Router_Route (r : Router) (visit : list (string * Provider))
    (ctx : Ctx) (req : Request) (w : W) : result (list Event) * W :=
  match resolveProvider r visit (reqModel req) with
  | Fail err => (Fail err, w)
  | Ok provider => Stream (buildChain r provider) ctx req w
  end.

Definition Router_Stream := Router_Route.

(** An admissible visiting order of the registry: every entry exactly once. *)
Definition visits (r : Router) (visit : list (string * Provider)) : Prop :=
  visit ≡ₚ map_to_list (providers r).

(** [GetProvider]: the Go pair [(p, ok)] is [Some p] / [None]. *)
Definition GetProvider (r : Router) (name : string) : option Provider :=
  providers r !! name.

(** [Providers]: the names, in the order in which the [range] visits the
    registry. *)
Definition Providers (r : Router) (visit : list (string * Provider)) : list string :=
  map fst visit.

(** [Option], a function that mutates the router it is given: the update it
    performs. *)
Definition Option : Type := Router -> Router.



Definition WithFallback (ps : list string) : Option := fun r =>
  {| providers := providers r; modelMap := modelMap r;
     fallbacks := ps; middleware := middleware r |}.



End WithWorld.

Arguments Provider : clear implicits.
Arguments Middleware : clear implicits.
Arguments Router : clear implicits.

End Router.

(* ===================================================================== *)
(** * middleware/retry.go, middleware/timeout.go, middleware/circuitbreaker.go *)
(* ===================================================================== *)

Module Middleware.
Import Errors Types Runtime Router.

(** [float64(x)] for an [int64] [x]: the nearest value with a 53-bit
    significand, ties to even.  The result is an integer and is given as one. *)
Definition float64OfInt (x : Z) : Z :=
  let a := Z.abs x in
  if a <? 2 ^ 53 then x
  else
    let s := Z.log2 a - 52 in
    let q := Z.shiftr a s in
    let r := Z.land a (Z.ones s) in
    let half := 2 ^ (s - 1) in
    let q' := if (half <? r) || ((r =? half) && Z.odd q) then q + 1 else q in
    Z.sgn x * (q' * 2 ^ s).

(** [time.Duration(f * math.Pow(2, e))] for an integer-valued [float64] [f]
    and an integer [e].  Multiplying by a power of two is exact.  For [e < 0]
    the conversion truncates toward zero.  When the product does not fit an
    [int64] (this includes [Pow] overflowing to infinity, from [e = 1024] on)
    the Go specification leaves the converted value to the implementation:
    [outOfRange f e] stands for it. *)
Definition durationOfScaled (outOfRange : Z -> Z -> Z) (f e : Z) : Z :=
  if e <? 0 then Z.quot f (2 ^ (- e))
  else if 1023 <? e then outOfRange f e
  else
    let v := f * 2 ^ e in
    if (- 2 ^ 63 <=? v) && (v <? 2 ^ 63) then v else outOfRange f e.

(** What one run of the retry loop did, in order: the sleeps (with the delay
    asked for and, when the context ended the sleep, its error) and the calls
    of the wrapped provider (with the error each returned, if any). *)
Inductive step : Type :=
| Slept (attempt delay : Z) (interrupted : option error)
| Called (attempt : Z) (failure : option error).

Definition isCall (s : step) : bool :=
  match s with Called _ _ => true | Slept _ _ _ => false end.

Definition calls (tr : list step) : nat := length (filter (fun s => isCall s = true) tr).

Section WithWorld.
Context {W Ctx : Type}.
Variable rt : Runtime W Ctx.
Variable outOfRange : Z -> Z -> Z.

Local Abbreviation Provider := (Router.Provider W Ctx).
Local Abbreviation Middleware := (Router.Middleware W Ctx).

(** ** Retry *)

Record RetryMiddleware : Type := mkRetryMiddleware {
  maxAttempts : Z;
  baseDelay : Z;
  maxDelay : Z;
  retryable : option error -> bool }.

Definition NewRetryMiddleware (maxAttempts baseDelay : Z) : RetryMiddleware :=
  {| maxAttempts := maxAttempts;
     baseDelay := baseDelay;
     maxDelay := 30 * Second;
     retryable := IsRetryable |}.

Definition WithMaxDelay (m : RetryMiddleware) (d : Z) : RetryMiddleware :=
  {| maxAttempts := maxAttempts m; baseDelay := baseDelay m;
     maxDelay := d; retryable := retryable m |}.

Definition WithRetryFunc (m : RetryMiddleware) (f : option error -> bool) : RetryMiddleware :=
  {| maxAttempts := maxAttempts m; baseDelay := baseDelay m;
     maxDelay := maxDelay m; retryable := f |}.

(** [retryProvider]: the embedded provider and the fields copied by [Wrap]. *)
Record retryProvider : Type := mkRetryProvider {
  rpProvider : Provider;
  rpConfig : RetryMiddleware }.

Definition calculateBackoff (p : retryProvider) (attempt : Z) : Z :=
  let delay :=
    durationOfScaled outOfRange (float64OfInt (baseDelay (rpConfig p))) (attempt - 1) in
  if maxDelay (rpConfig p) <? delay then maxDelay (rpConfig p) else delay.

(** The loop shared, word for word, by [retryProvider.Complete] and
    [retryProvider.Stream]; [call] is [p.Provider.Complete(ctx, req)] in the
    one and [p.Provider.Stream(ctx, req)] in the other.  [remaining] counts
    the iterations left: [maxAttempts - attempt], or none when that is
    negative.  The steps taken are returned next to the result. *)
Fixpoint retryLoop {A : Type} (p : retryProvider) (ctx : Ctx)
    (call : W -> result A * W)
    (remaining : nat) (attempt : Z) (lastErr : option error) (w : W)
    : (result A * W) * list step :=
  match remaining with
  | O => ((Fail (Errorf_w_v (Sentinel ErrMaxRetriesExceed) lastErr), w), [])
  | S remaining' =>
      let '(interrupted, w1, slept) :=
        if 0 <? attempt then
          let delay := calculateBackoff p attempt in
          let '(i, w1) := selectAfter rt ctx delay w in
          (i, w1, [Slept attempt delay i])
        else (None, w, []) in
      match interrupted with
      | Some ctxErr => ((Fail ctxErr, w1), slept)
      | None =>
          match call w1 with
          | (Ok resp, w2) => ((Ok resp, w2), slept ++ [Called attempt None])
          | (Fail err, w2) =>
              if negb (retryable (rpConfig p) (Some err)) then
                ((Fail err, w2), slept ++ [Called attempt (Some err)])
              else
                let '(res, tr) :=
                  retryLoop p ctx call remaining' (attempt + 1) (Some err) w2 in
                (res, slept ++ Called attempt (Some err) :: tr)
          end
      end
  end.

Definition retryComplete_run (p : retryProvider) (ctx : Ctx) (req : Request) (w : W)
    : (result Response * W) * list step :=
  retryLoop p ctx (Complete (rpProvider p) ctx req)
            (Z.to_nat (maxAttempts (rpConfig p))) 0 None w.

Definition retryStream_run (p : retryProvider) (ctx : Ctx) (req : Request) (w : W)
    : (result (list Event) * W) * list step :=
  retryLoop p ctx (Stream (rpProvider p) ctx req)
            (Z.to_nat (maxAttempts (rpConfig p))) 0 None w.

Definition retryProvider_Complete (p : retryProvider) (ctx : Ctx) (req : Request) (w : W)
    : result Response * W := fst (retryComplete_run p ctx req w).

Definition retryProvider_Stream (p : retryProvider) (ctx : Ctx) (req : Request) (w : W)
    : result (list Event) * W := fst (retryStream_run p ctx req w).

(** [RetryMiddleware.Wrap]; [Name], [Models] and [SupportsTools] come from the
    embedded provider. *)
Definition RetryWrap (m : RetryMiddleware) : Middleware := fun next =>
  let p := {| rpProvider := next; rpConfig := m |} in
  {| Name := Name next; Models := Models next; SupportsTools := SupportsTools next;
     Complete := retryProvider_Complete p;
     Stream := retryProvider_Stream p |}.

(** ** Timeout *)

Record TimeoutMiddleware : Type := mkTimeoutMiddleware {
  timeout : Z }.

Definition NewTimeoutMiddleware (timeout : Z) : TimeoutMiddleware :=
  {| timeout := timeout |}.

Record timeoutProvider : Type := mkTimeoutProvider {
  tpProvider : Provider;
  tpTimeout : Z }.

Definition timeoutProvider_Complete (p : timeoutProvider) (ctx : Ctx) (req : Request) (w : W)
    : result Response * W :=
  let '(ctx', w1) := ctxWithTimeout rt ctx (tpTimeout p) w in
  Complete (tpProvider p) ctx' req w1.

(** The event sent by both [ctx.Done()] branches of the forwarding loop. *)
Definition ctxErrorEvent (ctxErr : error) : Event :=
  {| evType := EventError; evContent := ""; evDelta := None;
     evResponse := None; evError := Some ctxErr |}.

(** The goroutine of [timeoutProvider.Stream]: what it sends on [outCh]
    before closing it, given what the inner channel [ch] delivers.  Each
    iteration runs the outer [select] (context done, or receive from [ch]);
    a received event then goes through the inner [select] (send on [outCh],
    or context done).  An empty [ch] is the closed channel ([!ok]). *)
Fixpoint forward (ctx : Ctx) (ch : list Event) (w : W) {struct ch} : list Event * W :=
  let '(done1, w1) := selectDone rt ctx w in
  match done1 with
  | Some ctxErr => ([ctxErrorEvent ctxErr], w1)
  | None =>
      match ch with
      | [] => ([], w1)
      | event :: ch' =>
          let '(done2, w2) := selectDone rt ctx w1 in
          match done2 with
          | Some ctxErr => ([ctxErrorEvent ctxErr], w2)
          | None =>
              let '(out, w3) := forward ctx ch' w2 in
              (event :: out, w3)
          end
      end
  end.

Definition timeoutProvider_Stream (p : timeoutProvider) (ctx : Ctx) (req : Request) (w : W)
    : result (list Event) * W :=
  let '(ctx', w1) := ctxWithTimeout rt ctx (tpTimeout p) w in
  match Stream (tpProvider p) ctx' req w1 with
  | (Fail err, w2) => (Fail err, w2)
  | (Ok ch, w2) =>
      let '(outCh, w3) := forward ctx' ch w2 in
      (Ok outCh, w3)
  end.

Definition TimeoutWrap (m : TimeoutMiddleware) : Middleware := fun next =>
  let p := {| tpProvider := next; tpTimeout := timeout m |} in
  {| Name := Name next; Models := Models next; SupportsTools := SupportsTools next;
     Complete := timeoutProvider_Complete p;
     Stream := timeoutProvider_Stream p |}.

(** ** Circuit breaker *)

(** The decision of [gobreaker]'s [Execute] before it runs the function it is
    given: run it, or return [ErrOpenState] or [ErrTooManyRequests] without
    running it. *)
Inductive admission : Type :=
| Admit
| RejectOpenState
| RejectTooManyRequests.

(** The [*gobreaker.CircuitBreaker] of the third-party library, through the
    two halves of [Execute]: the decision taken before the call and the
    bookkeeping done after it (told whether the call succeeded). *)
Record CircuitBreaker : Type := mkCircuitBreaker {
  beforeRequest : W -> admission * W;
  afterRequest : bool -> W -> W }.

Record CircuitBreakerMiddleware : Type := mkCircuitBreakerMiddleware {
  cb : CircuitBreaker }.

Record circuitBreakerProvider : Type := mkCircuitBreakerProvider {
  cbProvider : Provider;
  cbBreaker : CircuitBreaker }.

(** [p.cb.Execute(func() { return call })] followed by the error mapping,
    the same in [Complete] and in [Stream]. *)
Definition breakerExecute {A : Type} (p : circuitBreakerProvider)
    (call : W -> result A * W) (w : W) : result A * W :=
  match beforeRequest (cbBreaker p) w with
  | (RejectOpenState, w1) | (RejectTooManyRequests, w1) =>
      (Fail (Sentinel ErrCircuitOpen), w1)
  | (Admit, w1) =>
      match call w1 with
      | (Ok result, w2) => (Ok result, afterRequest (cbBreaker p) true w2)
      | (Fail err, w2) => (Fail err, afterRequest (cbBreaker p) false w2)
      end
  end.

Definition circuitBreakerProvider_Complete (p : circuitBreakerProvider)
    (ctx : Ctx) (req : Request) (w : W) : result Response * W :=
  breakerExecute p (Complete (cbProvider p) ctx req) w.

Definition circuitBreakerProvider_Stream (p : circuitBreakerProvider)
    (ctx : Ctx) (req : Request) (w : W) : result (list Event) * W :=
  breakerExecute p (Stream (cbProvider p) ctx req) w.

Definition CircuitBreakerWrap (m : CircuitBreakerMiddleware) : Middleware := fun next =>
  let p := {| cbProvider := next; cbBreaker := cb m |} in
  {| Name := Name next; Models := Models next; SupportsTools := SupportsTools next;
     Complete := circuitBreakerProvider_Complete p;
     Stream := circuitBreakerProvider_Stream p |}.

(** The middleware of this repository. *)
Inductive repoMiddleware : Middleware -> Prop :=
| repo_retry m : repoMiddleware (RetryWrap m)
| repo_timeout m : repoMiddleware (TimeoutWrap m)
| repo_breaker m : repoMiddleware (CircuitBreakerWrap m).

End WithWorld.
End Middleware.

(* ===================================================================== *)
(** * providers/anthropic *)
(* ===================================================================== *)

Module Anthropic.
Import Errors Types Runtime.

(** ** The SDK's data, as the adapter reads it *)

(** A content block after [AsUnion()].  [Input] of a tool-use block is given
    as the text [json.Marshal(b.Input)] produces. *)
Inductive ContentBlock : Type :=
| TextBlock (Text : string)
| ToolUseBlock (ID Name Input : string)
| OtherBlock.

Record SDKUsage : Type := mkSDKUsage {
  InputTokens : Z;
  OutputTokens : Z }.

Record SDKMessage : Type := mkSDKMessage {
  mID : string;
  mModel : string;
  mContent : list ContentBlock;
  mStopReason : string;
  mUsage : SDKUsage }.

(** A streaming event after [AsUnion()], with the fields the adapter reads:
    the content block of a start event and the delta of a delta event are
    themselves unions. *)
Inductive StartBlock : Type :=
| StartText
| StartToolUse (ID Name : string)
| StartOther.

Inductive BlockDelta : Type :=
| TextDelta (Text : string)
| InputJSONDelta (PartialJSON : string)
| OtherDelta.

Inductive StreamEvent : Type :=
| MessageStartEvent (MessageID : string) (UsageInputTokens : Z)
| ContentBlockStartEvent (ContentBlock : StartBlock)
| ContentBlockDeltaEvent (Delta : BlockDelta)
| ContentBlockStopEvent
| MessageDeltaEvent (DeltaStopReason : string) (UsageOutputTokens : Z)
| OtherEvent.

(** An error returned by the SDK: an [*anthropic.Error] with its status code,
    or anything else; [text] is [err.Error()]. *)
Inductive SDKError : Type :=
| APIStatusError (StatusCode : Z) (text : string)
| OtherError (text : string).

Definition sdkErrorText (err : SDKError) : string :=
  match err with
  | APIStatusError _ t => t
  | OtherError t => t
  end.

(** [anthropic.MessageNewParams]: the model and token limit computed by the
    adapter; the other parameters are translations of the request's fields. *)
Record MessageNewParams : Type := mkParams {
  pModel : string;
  pMaxTokens : Z;
  pRequest : Request }.

(** ** converter.go *)

Definition toolCallOf (id name args : string) : ToolCall :=
  {| tcID := id; tcType := "function";
     tcFunction := {| fcName := name; fcArguments := args |};
     tcIndex := None |}.

(** The loop over [msg.Content] in [convertToOpenAIResponse], from the state
    [(content, toolCalls)]. *)
Fixpoint collectBlocks (blocks : list ContentBlock) (content : string)
    (toolCalls : list ToolCall) : string * list ToolCall :=
  match blocks with
  | [] => (content, toolCalls)
  | TextBlock t :: rest => collectBlocks rest (content +:+ t) toolCalls
  | ToolUseBlock id name input :: rest =>
      collectBlocks rest content (toolCalls ++ [toolCallOf id name input])
  | OtherBlock :: rest => collectBlocks rest content toolCalls
  end.

Definition convertToOpenAIResponse (msg : SDKMessage) (provider : string) : Response :=
  let '(content, toolCalls) := collectBlocks (mContent msg) "" [] in
  let finishReason :=
    if String.eqb (mStopReason msg) "tool_use" then "tool_calls"
    else if String.eqb (mStopReason msg) "max_tokens" then "length"
    else if String.eqb (mStopReason msg) "stop_sequence" then "stop"
    else "stop" in
  {| rID := mID msg;
     rObject := "chat.completion";
     rCreated := 0;
     rModel := mModel msg;
     rProvider := provider;
     rChoices :=
       [ {| chIndex := 0;
            chMessage := Some {| msgRole := RoleAssistant; msgContent := content;
                                 msgName := ""; msgToolCalls := toolCalls;
                                 msgToolCallID := "" |};
            chDelta := None;
            chFinishReason := finishReason |} ];
     rUsage := Some {| PromptTokens := InputTokens (mUsage msg);
                       CompletionTokens := OutputTokens (mUsage msg);
                       TotalTokens := wrap64 (InputTokens (mUsage msg)
                                              + OutputTokens (mUsage msg)) |} |}.

Definition wrapError (err : SDKError) : error :=
  match err with
  | APIStatusError code text =>
      APIError "anthropic" code text ""
        (Some (if (code =? 401) || (code =? 403) then Sentinel ErrAuthFailed
               else if code =? 429 then Sentinel ErrRateLimited
               else if code =? 400 then Sentinel ErrInvalidRequest
               else Foreign text))
  | OtherError text => APIError "anthropic" 0 text "" (Some (Foreign text))
  end.

(** ** anthropic.go *)

Section WithWorld.
Context {W Ctx : Type}.
Variable rt : Runtime W Ctx.

(** [p.client.Messages]: [New] returns a message or an error;
    [NewStreaming] gives the events [stream.Next()] yields before it returns
    false, and then [stream.Err()]. *)
Record Client : Type := mkClient {
  MessagesNew : Ctx -> MessageNewParams -> W -> (SDKMessage + SDKError) * W;
  MessagesNewStreaming :
    Ctx -> MessageNewParams -> W -> (list StreamEvent * option SDKError) * W }.

Record Provider : Type := mkProvider {
  client : Client;
  model : string;
  models : list string }.

Definition Name (p : Provider) : string := "anthropic".
Definition Models (p : Provider) : list string := models p.
Definition SupportsTools (p : Provider) : bool := true.

(** The parameters built at the head of [Complete] and of [Stream] (the two
    build them with the same statements). *)
Definition buildParams (p : Provider) (req : Request) : MessageNewParams :=
  let model0 := reqModel req in
  let model1 :=
    if String.eqb model0 "" || String.eqb model0 "anthropic" then model p else model0 in
  let maxTokens := match reqMaxTokens req with Some n => n | None => 16384 end in
  {| pModel := model1; pMaxTokens := maxTokens; pRequest := req |}.

Definition Complete (p : Provider) (ctx : Ctx) (req : Request) (w : W)
    : result Response * W :=
  let params := buildParams p req in
  match MessagesNew (client p) ctx params w with
  | (inr err, w1) => (Fail (wrapError err), w1)
  | (inl resp, w1) => (Ok (convertToOpenAIResponse resp (Name p)), w1)
  end.

(** The variables the streaming goroutine accumulates into. *)
Record streamState : Type := mkStreamState {
  fullContent : string;
  toolCalls : list ToolCall;
  currentToolID : string;
  currentToolName : string;
  toolArgsBuilder : string;
  inputTokens : Z;
  outputTokens : Z;
  msgID : string;
  stopReason : string }.

Definition initialState : streamState :=
  {| fullContent := ""; toolCalls := []; currentToolID := ""; currentToolName := "";
     toolArgsBuilder := ""; inputTokens := 0; outputTokens := 0;
     msgID := ""; stopReason := "" |}.

Definition contentDeltaEvent (text : string) : Event :=
  {| evType := EventContentDelta; evContent := text; evDelta := None;
     evResponse := None; evError := None |}.

Definition toolCallDeltaEvent (tc : ToolCall) : Event :=
  {| evType := EventToolCallDelta; evContent := "";
     evDelta := Some {| dRole := ""; dContent := ""; dToolCalls := [tc] |};
     evResponse := None; evError := None |}.

Definition errorEvent (err : error) : Event :=
  {| evType := EventError; evContent := ""; evDelta := None;
     evResponse := None; evError := Some err |}.

Definition doneEvent (resp : Response) : Event :=
  {| evType := EventDone; evContent := ""; evDelta := None;
     evResponse := Some resp; evError := None |}.

(** One iteration of [for stream.Next()]: the new state and the events sent
    on the channel. *)
Definition streamStep (st : streamState) (event : StreamEvent) : streamState * list Event :=
  match event with
  | MessageStartEvent id inTok =>
      let st1 :=
        if negb (String.eqb id "") then
          {| fullContent := fullContent st; toolCalls := toolCalls st;
             currentToolID := currentToolID st; currentToolName := currentToolName st;
             toolArgsBuilder := toolArgsBuilder st; inputTokens := inputTokens st;
             outputTokens := outputTokens st; msgID := id; stopReason := stopReason st |}
        else st in
      let st2 :=
        if 0 <? inTok then
          {| fullContent := fullContent st1; toolCalls := toolCalls st1;
             currentToolID := currentToolID st1; currentToolName := currentToolName st1;
             toolArgsBuilder := toolArgsBuilder st1; inputTokens := inTok;
             outputTokens := outputTokens st1; msgID := msgID st1;
             stopReason := stopReason st1 |}
        else st1 in
      (st2, [])
  | ContentBlockStartEvent StartText => (st, [])
  | ContentBlockStartEvent (StartToolUse id name) =>
      ({| fullContent := fullContent st; toolCalls := toolCalls st;
          currentToolID := id; currentToolName := name; toolArgsBuilder := "";
          inputTokens := inputTokens st; outputTokens := outputTokens st;
          msgID := msgID st; stopReason := stopReason st |}, [])
  | ContentBlockStartEvent StartOther => (st, [])
  | ContentBlockDeltaEvent (TextDelta text) =>
      ({| fullContent := fullContent st +:+ text; toolCalls := toolCalls st;
          currentToolID := currentToolID st; currentToolName := currentToolName st;
          toolArgsBuilder := toolArgsBuilder st; inputTokens := inputTokens st;
          outputTokens := outputTokens st; msgID := msgID st;
          stopReason := stopReason st |},
       [contentDeltaEvent text])
  | ContentBlockDeltaEvent (InputJSONDelta partial) =>
      ({| fullContent := fullContent st; toolCalls := toolCalls st;
          currentToolID := currentToolID st; currentToolName := currentToolName st;
          toolArgsBuilder := toolArgsBuilder st +:+ partial;
          inputTokens := inputTokens st; outputTokens := outputTokens st;
          msgID := msgID st; stopReason := stopReason st |},
       [toolCallDeltaEvent (toolCallOf (currentToolID st) (currentToolName st) partial)])
  | ContentBlockDeltaEvent OtherDelta => (st, [])
  | ContentBlockStopEvent =>
      if negb (String.eqb (currentToolID st) "") && negb (String.eqb (currentToolName st) "")
      then
        ({| fullContent := fullContent st;
            toolCalls := toolCalls st ++
              [toolCallOf (currentToolID st) (currentToolName st) (toolArgsBuilder st)];
            currentToolID := ""; currentToolName := ""; toolArgsBuilder := "";
            inputTokens := inputTokens st; outputTokens := outputTokens st;
            msgID := msgID st; stopReason := stopReason st |}, [])
      else (st, [])
  | MessageDeltaEvent reason outTok =>
      let st1 :=
        if negb (String.eqb reason "") then
          {| fullContent := fullContent st; toolCalls := toolCalls st;
             currentToolID := currentToolID st; currentToolName := currentToolName st;
             toolArgsBuilder := toolArgsBuilder st; inputTokens := inputTokens st;
             outputTokens := outputTokens st; msgID := msgID st; stopReason := reason |}
        else st in
      let st2 :=
        if 0 <? outTok then
          {| fullContent := fullContent st1; toolCalls := toolCalls st1;
             currentToolID := currentToolID st1; currentToolName := currentToolName st1;
             toolArgsBuilder := toolArgsBuilder st1; inputTokens := inputTokens st1;
             outputTokens := outTok; msgID := msgID st1; stopReason := stopReason st1 |}
        else st1 in
      (st2, [])
  | OtherEvent => (st, [])
  end.

(** The whole [for stream.Next()] loop. *)
Fixpoint streamLoop (events : list StreamEvent) (st : streamState)
    : streamState * list Event :=
  match events with
  | [] => (st, [])
  | event :: rest =>
      let '(st1, sent) := streamStep st event in
      let '(st2, sent') := streamLoop rest st1 in
      (st2, sent ++ sent')
  end.

(** The response of the [Done] event, built after the loop. *)
Definition finalResponse (p : Provider) (model : string) (created : Z)
    (st : streamState) : Response :=
  let finishReason :=
    if String.eqb (stopReason st) "tool_use" then "tool_calls"
    else if String.eqb (stopReason st) "max_tokens" then "length"
    else "stop" in
  {| rID := msgID st;
     rObject := "chat.completion";
     rModel := model;
     rProvider := Name p;
     rCreated := created;
     rChoices :=
       [ {| chIndex := 0;
            chMessage := Some {| msgRole := RoleAssistant; msgContent := fullContent st;
                                 msgName := ""; msgToolCalls := toolCalls st;
                                 msgToolCallID := "" |};
            chDelta := None;
            chFinishReason := finishReason |} ];
     rUsage := Some {| PromptTokens := inputTokens st;
                       CompletionTokens := outputTokens st;
                       TotalTokens := wrap64 (inputTokens st + outputTokens st) |} |}.

(** Everything the goroutine of [Stream] sends before it closes the channel,
    given what the SDK stream yields. *)
Definition streamEvents (p : Provider) (model : string) (created : Z)
    (events : list StreamEvent) (streamErr : option SDKError) : list Event :=
  let '(st, sent) := streamLoop events initialState in
  match streamErr with
  | Some err => sent ++ [errorEvent (wrapError err)]
  | None => sent ++ [doneEvent (finalResponse p model created st)]
  end.

Definition Stream (p : Provider) (ctx : Ctx) (req : Request) (w : W)
    : result (list Event) * W :=
  let params := buildParams p req in
  let '((events, streamErr), w1) := MessagesNewStreaming (client p) ctx params w in
  (Ok (streamEvents p (pModel params) (timeNowUnix rt w1) events streamErr), w1).

(** The adapter as a value of the [Provider] interface. *)
Definition asProvider (p : Provider) : Router.Provider W Ctx :=
  {| Router.Name := Name p;
     Router.Models := Models p;
     Router.SupportsTools := SupportsTools p;
     Router.Complete := Complete p;
     Router.Stream := Stream p |}.

End WithWorld.
End Anthropic.

(* ===================================================================== *)
(** * providers/gemini *)
(* ===================================================================== *)

Module Gemini.
Import Errors Types Runtime.

(** ** The SDK's data, as the adapter reads it *)

(** A [genai.Part] by dynamic type.  [Args] of a function call is [None] for
    the nil map and otherwise the text [json.Marshal(args)] produces. *)
Inductive Part : Type :=
| Text (s : string)
| FunctionCall (Name : string) (Args : option string)
| OtherPart.

Inductive FinishReason : Type :=
| FinishReasonUnspecified
| FinishReasonStop
| FinishReasonMaxTokens
| FinishReasonSafety
| FinishReasonRecitation
| FinishReasonOther.

(** [Content] is a pointer: [None] is nil; of a content only [Parts] is read. *)
Record Candidate : Type := mkCandidate {
  cContent : option (list Part);
  cFinishReason : FinishReason }.

Record UsageMetadata : Type := mkUsageMetadata {
  PromptTokenCount : Z;
  CandidatesTokenCount : Z;
  TotalTokenCount : Z }.

Record GenerateContentResponse : Type := mkGenerateContentResponse {
  Candidates : list Candidate;
  gUsageMetadata : option UsageMetadata }.

(** ** converter.go *)

Definition convertFunctionCallArgs (args : option string) : string :=
  match args with
  | None => "{}"
  | Some b => b
  end.

Definition toolCallOf (name : string) (args : option string) : ToolCall :=
  {| tcID := name; tcType := "function";
     tcFunction := {| fcName := name; fcArguments := convertFunctionCallArgs args |};
     tcIndex := None |}.

(** The loop over the parts of the first candidate in [convertResponse]. *)
Fixpoint collectParts (parts : list Part) (content : string)
    (toolCalls : list ToolCall) : string * list ToolCall :=
  match parts with
  | [] => (content, toolCalls)
  | Text s :: rest => collectParts rest (content +:+ s) toolCalls
  | FunctionCall name args :: rest =>
      collectParts rest content (toolCalls ++ [toolCallOf name args])
  | OtherPart :: rest => collectParts rest content toolCalls
  end.

Definition convertResponse (resp : GenerateContentResponse) (model provider : string)
    (created : Z) : Response :=
  let '(content, toolCalls) :=
    match Candidates resp with
    | {| cContent := Some parts |} :: _ => collectParts parts "" []
    | _ => ("", [])
    end in
  let finishReason :=
    if (0 <? length toolCalls)%nat then "tool_calls"
    else
      match Candidates resp with
      | c :: _ =>
          match cFinishReason c with
          | FinishReasonMaxTokens => "length"
          | FinishReasonStop => "stop"
          | FinishReasonSafety => "content_filter"
          | _ => "stop"
          end
      | [] => "stop"
      end in
  let usage :=
    match gUsageMetadata resp with
    | Some um => Some {| PromptTokens := PromptTokenCount um;
                         CompletionTokens := CandidatesTokenCount um;
                         TotalTokens := TotalTokenCount um |}
    | None => None
    end in
  {| rID := "";
     rModel := model;
     rProvider := provider;
     rObject := "chat.completion";
     rCreated := created;
     rChoices :=
       [ {| chIndex := 0;
            chMessage := Some {| msgRole := RoleAssistant; msgContent := content;
                                 msgName := ""; msgToolCalls := toolCalls;
                                 msgToolCallID := "" |};
            chDelta := None;
            chFinishReason := finishReason |} ];
     rUsage := usage |}.

(** [wrapError]; [text] is [err.Error()], and the cause kept in [Err] is the
    SDK's own error. *)
Definition wrapError (text : string) : error :=
  APIError "gemini" 0 text "" (Some (Foreign text)).

(** ** gemini.go *)

Section WithWorld.
Context {W Ctx : Type}.
Variable rt : Runtime W Ctx.

(** [p.client], through the two calls the adapter ends with.  Both receive the
    model name given to [GenerativeModel] and the request the chat session is
    configured from.  [SendMessage] returns a response or an error (its text);
    [SendMessageStream] gives the responses [iter.Next()] returns, then the
    error that ends the iteration: [None] for [iterator.Done]. *)
Record Client : Type := mkClient {
  SendMessage : Ctx -> string -> Request -> W -> (GenerateContentResponse + string) * W;
  SendMessageStream :
    Ctx -> string -> Request -> W -> (list GenerateContentResponse * option string) * W }.

Record Provider : Type := mkProvider {
  client : Client;
  model : string;
  models : list string }.

Definition Name (p : Provider) : string := "gemini".
Definition Models (p : Provider) : list string := models p.
Definition SupportsTools (p : Provider) : bool := true.

(** [modelName], computed the same way at the head of [Complete] and of
    [Stream]. *)
Definition modelNameOf (p : Provider) (req : Request) : string :=
  if String.eqb (reqModel req) "" then model p else reqModel req.

Definition Complete (p : Provider) (ctx : Ctx) (req : Request) (w : W)
    : result Response * W :=
  let modelName := modelNameOf p req in
  match SendMessage (client p) ctx modelName req w with
  | (inr err, w1) => (Fail (wrapError err), w1)
  | (inl resp, w1) => (Ok (convertResponse resp modelName (Name p) (timeNowUnix rt w1)), w1)
  end.

Definition contentDeltaEvent (text : string) : Event :=
  {| evType := EventContentDelta; evContent := text; evDelta := None;
     evResponse := None; evError := None |}.

Definition toolCallDeltaEvent (tc : ToolCall) : Event :=
  {| evType := EventToolCallDelta; evContent := "";
     evDelta := Some {| dRole := ""; dContent := ""; dToolCalls := [tc] |};
     evResponse := None; evError := None |}.

Definition errorEvent (err : error) : Event :=
  {| evType := EventError; evContent := ""; evDelta := None;
     evResponse := None; evError := Some err |}.

Definition doneEvent (resp : Response) : Event :=
  {| evType := EventDone; evContent := ""; evDelta := None;
     evResponse := Some resp; evError := None |}.

(** [for _, part := range candidate.Content.Parts], from the state
    [(fullContent, toolCalls)]; the third component is what is sent. *)
Fixpoint streamParts (parts : list Part) (fullContent : string)
    (toolCalls : list ToolCall) : string * list ToolCall * list Event :=
  match parts with
  | [] => (fullContent, toolCalls, [])
  | Text content :: rest =>
      let '(fc, tcs, sent) := streamParts rest (fullContent +:+ content) toolCalls in
      (fc, tcs, contentDeltaEvent content :: sent)
  | FunctionCall name args :: rest =>
      let tc := toolCallOf name args in
      let '(fc, tcs, sent) := streamParts rest fullContent (toolCalls ++ [tc]) in
      (fc, tcs, toolCallDeltaEvent tc :: sent)
  | OtherPart :: rest => streamParts rest fullContent toolCalls
  end.

(** [for _, candidate := range resp.Candidates]. *)
Fixpoint streamCandidates (cands : list Candidate) (fullContent : string)
    (toolCalls : list ToolCall) : string * list ToolCall * list Event :=
  match cands with
  | [] => (fullContent, toolCalls, [])
  | c :: rest =>
      match cContent c with
      | None => streamCandidates rest fullContent toolCalls
      | Some parts =>
          let '(fc1, tcs1, sent1) := streamParts parts fullContent toolCalls in
          let '(fc2, tcs2, sent2) := streamCandidates rest fc1 tcs1 in
          (fc2, tcs2, sent1 ++ sent2)
      end
  end.

(** The iterations of the outer [for] that get a response from [iter.Next()]. *)
Fixpoint streamResponses (resps : list GenerateContentResponse) (fullContent : string)
    (toolCalls : list ToolCall) : string * list ToolCall * list Event :=
  match resps with
  | [] => (fullContent, toolCalls, [])
  | resp :: rest =>
      let '(fc1, tcs1, sent1) := streamCandidates (Candidates resp) fullContent toolCalls in
      let '(fc2, tcs2, sent2) := streamResponses rest fc1 tcs1 in
      (fc2, tcs2, sent1 ++ sent2)
  end.

Definition finalResponse (p : Provider) (modelName : string) (created : Z)
    (fullContent : string) (toolCalls : list ToolCall) : Response :=
  let finishReason := if (0 <? length toolCalls)%nat then "tool_calls" else "stop" in
  {| rID := "";
     rModel := modelName;
     rProvider := Name p;
     rObject := "chat.completion";
     rCreated := created;
     rChoices :=
       [ {| chIndex := 0;
            chMessage := Some {| msgRole := RoleAssistant; msgContent := fullContent;
                                 msgName := ""; msgToolCalls := toolCalls;
                                 msgToolCallID := "" |};
            chDelta := None;
            chFinishReason := finishReason |} ];
     rUsage := None |}.

(** Everything the goroutine of [Stream] sends before it closes the channel. *)
Definition streamEvents (p : Provider) (modelName : string) (created : Z)
    (resps : list GenerateContentResponse) (iterErr : option string) : list Event :=
  let '(fullContent, toolCalls, sent) := streamResponses resps "" [] in
  match iterErr with
  | Some err => sent ++ [errorEvent (wrapError err)]
  | None => sent ++ [doneEvent (finalResponse p modelName created fullContent toolCalls)]
  end.

Definition Stream (p : Provider) (ctx : Ctx) (req : Request) (w : W)
    : result (list Event) * W :=
  let modelName := modelNameOf p req in
  let '((resps, iterErr), w1) := SendMessageStream (client p) ctx modelName req w in
  (Ok (streamEvents p modelName (timeNowUnix rt w1) resps iterErr), w1).

Definition asProvider (p : Provider) : Router.Provider W Ctx :=
  {| Router.Name := Name p;
     Router.Models := Models p;
     Router.SupportsTools := SupportsTools p;
     Router.Complete := Complete p;
     Router.Stream := Stream p |}.

End WithWorld.
End Gemini.

(* ===================================================================== *)
(** * Vocabulary of the specification *)
(* ===================================================================== *)

Module Spec.
Import Errors Types.

(** The error unwraps to one of the three sentinels that are never retried. *)
Definition unwrapsToFatal (e : error) : Prop :=
  UnwrapsTo e (Sentinel ErrContextCanceled) \/
  UnwrapsTo e (Sentinel ErrAuthFailed) \/
  UnwrapsTo e (Sentinel ErrInvalidRequest).

(** The error unwraps to an [*APIError] with status [code]. *)
Definition unwrapsToStatus (e : error) (code : Z) : Prop :=
  exists a, UnwrapsTo e a /\ isAPIErrorWith code a.

(** [code] is the status of the first [*APIError] met along the chain. *)
Inductive FirstAPIError : error -> Z -> Prop :=
| first_here p code m t c : FirstAPIError (APIError p code m t c) code
| first_below msg w code : FirstAPIError w code -> FirstAPIError (Wrapped msg w) code.

Definition retriedStatus (code : Z) : Prop :=
  code = 429 \/ code = 500 \/ code = 502 \/ code = 503 \/ code = 504.

Definition refusedStatus (code : Z) : Prop :=
  code = 400 \/ code = 401 \/ code = 403.

(** The texts of the [ContentDelta] events of a stream, in order. *)
Definition contentDeltas (evs : list Event) : list string :=
  map evContent (filter (fun e => evType e = EventContentDelta) evs).

(** The content of the assistant message of the first choice of the response
    carried by a [Done] event. *)
Definition doneContent (e : Event) : option string :=
  match evType e, evResponse e with
  | EventDone, Some resp =>
      match rChoices resp with
      | {| chMessage := Some m |} :: _ => Some (msgContent m)
      | _ => None
      end
  | _, _ => None
  end.

(** The number of terminal events of a stream. *)
Definition terminals (evs : list Event) : nat :=
  length (filter (fun e => isTerminal e = true) evs).

(** Exactly one terminal event, and it is the last event. *)
Definition wellTerminated (evs : list Event) : Prop :=
  terminals evs = 1%nat /\ exists e, last evs = Some e /\ isTerminal e = true.

(** The assistant message and the finish reason of the first choice. *)
Definition firstChoice (resp : Response) : option (Message * string) :=
  match rChoices resp with
  | {| chMessage := Some m; chFinishReason := fr |} :: _ => Some (m, fr)
  | _ => None
  end.

(** "[modelMap[M]] names a registered provider [p]". *)
Definition mappedTo {W Ctx : Type} (r : Router.Router W Ctx) (M : string)
    (p : Router.Provider W Ctx) : Prop :=
  exists n, Router.modelMap r !! M = Some n /\ Router.providers r !! n = Some p.

(** "[p] is registered and declares [M] in its [Models()] list". *)
Definition declaredBy {W Ctx : Type} (r : Router.Router W Ctx) (M : string)
    (p : Router.Provider W Ctx) : Prop :=
  exists n, Router.providers r !! n = Some p /\ M ∈ Router.Models p.

(** The provider writes its own [Name()] into every response it returns. *)
Definition stampsName {W Ctx : Type} (p : Router.Provider W Ctx) : Prop :=
  forall ctx req w resp w',
    Router.Complete p ctx req w = (Errors.Ok resp, w') -> rProvider resp = Router.Name p.

(** The wrapper keeps the name of the provider it wraps, and a response it
    returns is a response the wrapped provider returned, unchanged. *)
Definition returnsInner {W Ctx : Type} (m : Router.Middleware W Ctx) : Prop :=
  forall next,
    Router.Name (m next) = Router.Name next /\
    forall ctx req w resp w',
      Router.Complete (m next) ctx req w = (Errors.Ok resp, w') ->
      exists ctx0 w0 w1, Router.Complete next ctx0 req w0 = (Errors.Ok resp, w1).

(** ** Runs of the retry loop *)

(** The shape of a run that starts at attempt number [a] (counted from 0, as
    in the source): the very first attempt is called at once; every later
    attempt [a] is called after a sleep of [calculateBackoff a]; a sleep that
    the context interrupts ends the run. *)
Inductive runFrom {W Ctx : Type} (outOfRange : Z -> Z -> Z)
    (p : @Middleware.retryProvider W Ctx) : Z -> list Middleware.step -> Prop :=
| run_end a : runFrom outOfRange p a []
| run_first f tr :
    runFrom outOfRange p 1 tr ->
    runFrom outOfRange p 0 (Middleware.Called 0 f :: tr)
| run_next a f tr :
    0 < a ->
    runFrom outOfRange p (a + 1) tr ->
    runFrom outOfRange p a
      (Middleware.Slept a (Middleware.calculateBackoff outOfRange p a) None
         :: Middleware.Called a f :: tr)
| run_interrupted a ctxErr :
    0 < a ->
    runFrom outOfRange p a
      [Middleware.Slept a (Middleware.calculateBackoff outOfRange p a) (Some ctxErr)].

(** No sleep of the run was interrupted by the context. *)
Definition uninterrupted (tr : list Middleware.step) : Prop :=
  Forall (fun s => match s with
                   | Middleware.Slept _ _ (Some _) => False
                   | _ => True
                   end) tr.

(** Every call of the run failed, with an error the classifier [f] accepts
    for a retry. *)
Definition allFailRetryably (f : option Errors.error -> bool)
    (tr : list Middleware.step) : Prop :=
  Forall (fun s => match s with
                   | Middleware.Called _ (Some e) => f (Some e) = true
                   | Middleware.Called _ None => False
                   | Middleware.Slept _ _ _ => True
                   end) tr.

(** The error of the last failed call of the run; [start] if none failed. *)
Definition lastFailure (start : option Errors.error) (tr : list Middleware.step)
    : option Errors.error :=
  foldl (fun acc s => match s with
                      | Middleware.Called _ (Some e) => Some e
                      | _ => acc
                      end) start tr.

(** The float computation of [calculateBackoff] is exact for attempt [a]:
    the base delay is a non-negative integer below 2^53 and the scaled delay
    fits an [int64]. *)
Definition backoffExact (baseDelay a : Z) : Prop :=
  0 <= baseDelay < 2 ^ 53 /\ 1 <= a <= 1024 /\ baseDelay * 2 ^ (a - 1) < 2 ^ 63.

End Spec.

(* ===================================================================== *)
(** * Reading backend data and streams *)
(* ===================================================================== *)

Module Reading.
Import Errors Types.

(** The texts of the text blocks of an Anthropic message, in order. *)
Definition blockTexts (blocks : list Anthropic.ContentBlock) : list string :=
  flat_map (fun b => match b with
                     | Anthropic.TextBlock t => [t]
                     | _ => []
                     end) blocks.

(** Its tool-use blocks, in order, as tool calls. *)
Definition blockToolCalls (blocks : list Anthropic.ContentBlock) : list ToolCall :=
  flat_map (fun b => match b with
                     | Anthropic.ToolUseBlock id name input =>
                         [Anthropic.toolCallOf id name input]
                     | _ => []
                     end) blocks.

(** The texts of the text parts of a Gemini content, in order. *)
Definition partTexts (parts : list Gemini.Part) : list string :=
  flat_map (fun p => match p with
                     | Gemini.Text s => [s]
                     | _ => []
                     end) parts.

(** Its function-call parts, in order, as tool calls. *)
Definition partToolCalls (parts : list Gemini.Part) : list ToolCall :=
  flat_map (fun p => match p with
                     | Gemini.FunctionCall name args => [Gemini.toolCallOf name args]
                     | _ => []
                     end) parts.

(** The parts of the first candidate of a Gemini response; none when there is
    no candidate or its content is nil. *)
Definition firstParts (resp : Gemini.GenerateContentResponse) : list Gemini.Part :=
  match Gemini.Candidates resp with
  | {| Gemini.cContent := Some parts |} :: _ => parts
  | _ => []
  end.

(** The parts of all candidates of all responses, in order. *)
Definition allParts (resps : list Gemini.GenerateContentResponse) : list Gemini.Part :=
  flat_map (fun resp =>
              flat_map (fun c => match Gemini.cContent c with
                                 | Some parts => parts
                                 | None => []
                                 end) (Gemini.Candidates resp)) resps.

(** The tool calls carried by the ToolCallDelta events of a stream, in
    order. *)
Definition toolCallDeltas (evs : list Event) : list ToolCall :=
  flat_map (fun e => match evType e, evDelta e with
                     | EventToolCallDelta, Some d => dToolCalls d
                     | _, _ => []
                     end) evs.

(** The streaming state with another argument buffer. *)
Definition withToolArgs (st : Anthropic.streamState) (args : string) : Anthropic.streamState :=
  {| Anthropic.fullContent := Anthropic.fullContent st;
     Anthropic.toolCalls := Anthropic.toolCalls st;
     Anthropic.currentToolID := Anthropic.currentToolID st;
     Anthropic.currentToolName := Anthropic.currentToolName st;
     Anthropic.toolArgsBuilder := args;
     Anthropic.inputTokens := Anthropic.inputTokens st;
     Anthropic.outputTokens := Anthropic.outputTokens st;
     Anthropic.msgID := Anthropic.msgID st;
     Anthropic.stopReason := Anthropic.stopReason st |}.

(** The backend events of one tool-use block: its start, one delta for each
    fragment of its arguments, its stop. *)
Definition toolUseEvents (id name : string) (fragments : list string)
    : list Anthropic.StreamEvent :=
  Anthropic.ContentBlockStartEvent (Anthropic.StartToolUse id name)
    :: map (fun f => Anthropic.ContentBlockDeltaEvent (Anthropic.InputJSONDelta f)) fragments
    ++ [Anthropic.ContentBlockStopEvent].

(** The finish reasons of the canonical set. *)
Definition canonicalFinish (fr : string) : Prop :=
  fr = "stop" \/ fr = "length" \/ fr = "tool_calls" \/ fr = "content_filter" \/ fr = "".

End Reading.

(* ===================================================================== *)
(** * Concrete values used by the examples *)
(* ===================================================================== *)

Module Scenarios.
Import Errors Types Runtime.

(** An [*APIError] for an HTTP 401 built without a cause ([Err] is nil). *)
Definition bare401 : error := APIError "custom" 401 "unauthorized" "" None.

(** An [*APIError] for an HTTP 503, as [Anthropic.wrapError] builds it. *)
Definition overloaded503 : error := Anthropic.wrapError (Anthropic.APIStatusError 503 "overloaded").

(** A rate-limit error, as [Anthropic.wrapError] builds it. *)
Definition limited429 : error := Anthropic.wrapError (Anthropic.APIStatusError 429 "slow down").

(** A world with nothing in it, and a runtime in which no context ever ends
    and the clock stands at [1700000000]. *)
Definition quiet : Runtime unit unit :=
  {| ctxWithTimeout := fun ctx _ w => (ctx, w);
     selectAfter := fun _ _ w => (None, w);
     selectDone := fun _ w => (None, w);
     timeNowUnix := fun _ => 1700000000 |}.

Definition helloMessage : Anthropic.SDKMessage :=
  {| Anthropic.mID := "msg_01";
     Anthropic.mModel := "claude-sonnet-4-20250514";
     Anthropic.mContent := [Anthropic.TextBlock "hello"];
     Anthropic.mStopReason := "end_turn";
     Anthropic.mUsage := {| Anthropic.InputTokens := 1; Anthropic.OutputTokens := 1 |} |}.

(** An Anthropic backend that answers every request with [helloMessage]. *)
Definition helloClient : @Anthropic.Client unit unit :=
  {| Anthropic.MessagesNew := fun _ _ w => (inl helloMessage, w);
     Anthropic.MessagesNewStreaming := fun _ _ w =>
       (([Anthropic.ContentBlockDeltaEvent (Anthropic.TextDelta "hello")], None), w) |}.

Definition claudeAdapter : @Anthropic.Provider unit unit :=
  {| Anthropic.client := helloClient;
     Anthropic.model := "claude-sonnet-4-20250514";
     Anthropic.models := ["claude-sonnet-4-20250514"; "claude-3-haiku-20240307"] |}.

(** A router with the Anthropic adapter registered under the name "claude". *)
Definition claudeRouter : Router.Router unit unit :=
  Router.RegisterProvider Router.New "claude" (Anthropic.asProvider quiet claudeAdapter).

Definition userSays (model text : string) : Request :=
  {| reqMessages := [ {| msgRole := RoleUser; msgContent := text; msgName := "";
                         msgToolCalls := []; msgToolCallID := "" |} ];
     reqModel := model; reqMaxTokens := None; reqStop := [] |}.

(** The same router behind a retry and a timeout middleware. *)
Definition guardedClaudeRouter : Router.Router unit unit :=
  Router.AddMiddleware
    (Router.AddMiddleware claudeRouter
       (Middleware.RetryWrap quiet (fun _ _ => 0)
          (Middleware.NewRetryMiddleware 3 Second)))
    (Middleware.TimeoutWrap quiet (Middleware.NewTimeoutMiddleware (60 * Second))).

(** What [helloClient]'s answer converts to. *)
Definition helloResponse : Response :=
  Anthropic.convertToOpenAIResponse helloMessage "anthropic".

(** An Anthropic backend that answers every request with HTTP 429. *)
Definition busyClient : @Anthropic.Client unit unit :=
  {| Anthropic.MessagesNew := fun _ _ w =>
       (inr (Anthropic.APIStatusError 429 "slow down"), w);
     Anthropic.MessagesNewStreaming := fun _ _ w =>
       (([], Some (Anthropic.APIStatusError 429 "slow down")), w) |}.

Definition busyAdapter : @Anthropic.Provider unit unit :=
  {| Anthropic.client := busyClient;
     Anthropic.model := "claude-sonnet-4-20250514";
     Anthropic.models := [] |}.

(** [context.Canceled]. *)
Definition contextCanceled : error := Foreign "context canceled".

(** [context.DeadlineExceeded]. *)
Definition deadlineExceeded : error := Foreign "context deadline exceeded".

(** A runtime in which the caller cancels the context during every sleep of
    the retry loop. *)
Definition cancelling : Runtime unit unit :=
  {| ctxWithTimeout := fun ctx _ w => (ctx, w);
     selectAfter := fun _ _ w => (Some contextCanceled, w);
     selectDone := fun _ w => (None, w);
     timeNowUnix := fun _ => 1700000000 |}.

(** Out-of-range float conversions as amd64 performs them. *)
Definition amd64OutOfRange : Z -> Z -> Z := fun _ _ => - 2 ^ 63.

(** [NewRetryMiddleware(3, time.Second)] around the busy backend, in the
    quiet and in the cancelling runtime. *)
Definition retry3 (rt : Runtime unit unit) : @Middleware.retryProvider unit unit :=
  {| Middleware.rpProvider := Anthropic.asProvider rt busyAdapter;
     Middleware.rpConfig := Middleware.NewRetryMiddleware 3 Second |}.

(** [NewRetryMiddleware(0, time.Second)] around the answering backend. *)
Definition retry0 : @Middleware.retryProvider unit unit :=
  {| Middleware.rpProvider := Anthropic.asProvider quiet claudeAdapter;
     Middleware.rpConfig := Middleware.NewRetryMiddleware 0 Second |}.

(** A retry wrapper with a base delay of 2^53 + 1 ns and a cap of 2^62 ns
    ([WithMaxDelay]). *)
Definition retryLongDelay : @Middleware.retryProvider unit unit :=
  {| Middleware.rpProvider := Anthropic.asProvider quiet busyAdapter;
     Middleware.rpConfig :=
       Middleware.WithMaxDelay (Middleware.NewRetryMiddleware 3 (2 ^ 53 + 1)) (2 ^ 62) |}.

(** ** Streams *)

(** An Anthropic backend that streams the text "he", "llo". *)
Definition spellingClient : @Anthropic.Client unit unit :=
  {| Anthropic.MessagesNew := fun _ _ w => (inl helloMessage, w);
     Anthropic.MessagesNewStreaming := fun _ _ w =>
       (([Anthropic.MessageStartEvent "msg_01" 3;
          Anthropic.ContentBlockStartEvent Anthropic.StartText;
          Anthropic.ContentBlockDeltaEvent (Anthropic.TextDelta "he");
          Anthropic.ContentBlockDeltaEvent (Anthropic.TextDelta "llo");
          Anthropic.ContentBlockStopEvent;
          Anthropic.MessageDeltaEvent "end_turn" 2], None), w) |}.

Definition spellingAdapter : @Anthropic.Provider unit unit :=
  {| Anthropic.client := spellingClient;
     Anthropic.model := "claude-sonnet-4-20250514";
     Anthropic.models := [] |}.

(** What the stream of [spellingAdapter] delivers. *)
Definition spelledStream : list Event :=
  [ Anthropic.contentDeltaEvent "he";
    Anthropic.contentDeltaEvent "llo";
    Anthropic.doneEvent
      {| rID := "msg_01"; rObject := "chat.completion"; rCreated := 1700000000;
         rModel := "claude-sonnet-4-20250514";
         rChoices :=
           [ {| chIndex := 0;
                chMessage := Some {| msgRole := RoleAssistant; msgContent := "hello";
                                     msgName := ""; msgToolCalls := [];
                                     msgToolCallID := "" |};
                chDelta := None; chFinishReason := "stop" |} ];
         rUsage := Some {| PromptTokens := 3; CompletionTokens := 2; TotalTokens := 5 |};
         rProvider := "anthropic" |} ].

(** A world that is a schedule: the outcomes, in order, of the [select]
    statements that watch [ctx.Done()]; [Some e] means the context was done
    and that case was taken. *)
Definition scheduled : Runtime (list (option error)) unit :=
  {| ctxWithTimeout := fun ctx _ w => (ctx, w);
     selectAfter := fun _ _ w => (None, w);
     selectDone := fun _ w =>
       match w with
       | [] => (None, [])
       | choice :: w' => (choice, w')
       end;
     timeNowUnix := fun _ => 1700000000 |}.

Definition hiChunk : Gemini.GenerateContentResponse :=
  {| Gemini.Candidates :=
       [ {| Gemini.cContent := Some [Gemini.Text "hi"];
            Gemini.cFinishReason := Gemini.FinishReasonStop |} ];
     Gemini.gUsageMetadata := None |}.

(** A Gemini backend that streams "hi" and ends normally. *)
Definition hiGemini : @Gemini.Provider (list (option error)) unit :=
  {| Gemini.client :=
       {| Gemini.SendMessage := fun _ _ _ w => (inl hiChunk, w);
          Gemini.SendMessageStream := fun _ _ _ w => (([hiChunk], None), w) |};
     Gemini.model := "gemini-1.5-flash";
     Gemini.models := [] |}.

(** A Gemini backend whose stream is cut by the deadline before any chunk. *)
Definition expiredGemini : @Gemini.Provider (list (option error)) unit :=
  {| Gemini.client :=
       {| Gemini.SendMessage := fun _ _ _ w => (inr "context deadline exceeded", w);
          Gemini.SendMessageStream := fun _ _ _ w =>
            (([], Some "context deadline exceeded"), w) |};
     Gemini.model := "gemini-1.5-flash";
     Gemini.models := [] |}.

(** [NewTimeoutMiddleware(60 * time.Second)] around a Gemini adapter. *)
Definition timed (g : @Gemini.Provider (list (option error)) unit)
    : @Middleware.timeoutProvider (list (option error)) unit :=
  {| Middleware.tpProvider := Gemini.asProvider scheduled g;
     Middleware.tpTimeout := 60 * Second |}.

Definition hiDone : Event :=
  Gemini.doneEvent (Gemini.finalResponse hiGemini "gemini-1.5-flash" 1700000000 "hi" []).

(** ** Conversions *)

(** An Anthropic message that carries a tool-use block and whose stop reason
    is "max_tokens". *)
Definition truncatedToolUse : Anthropic.SDKMessage :=
  {| Anthropic.mID := "msg_02";
     Anthropic.mModel := "claude-sonnet-4-20250514";
     Anthropic.mContent :=
       [Anthropic.ToolUseBlock "t1" "get_weather" "{}"];
     Anthropic.mStopReason := "max_tokens";
     Anthropic.mUsage := {| Anthropic.InputTokens := 20; Anthropic.OutputTokens := 16 |} |}.

(** A Gemini response whose reported total also counts tokens that are
    neither prompt nor candidate tokens. *)
Definition thoughtfulResponse : Gemini.GenerateContentResponse :=
  {| Gemini.Candidates :=
       [ {| Gemini.cContent := Some [Gemini.Text "42"];
            Gemini.cFinishReason := Gemini.FinishReasonStop |} ];
     Gemini.gUsageMetadata :=
       Some {| Gemini.PromptTokenCount := 10;
               Gemini.CandidatesTokenCount := 5;
               Gemini.TotalTokenCount := 40 |} |}.

(** ** The model sent to the backend *)

(** A world that is the list of model names the backend was asked for. *)
Definition logging : Runtime (list string) unit :=
  {| ctxWithTimeout := fun ctx _ w => (ctx, w);
     selectAfter := fun _ _ w => (None, w);
     selectDone := fun _ w => (None, w);
     timeNowUnix := fun _ => 1700000000 |}.

Definition loggingGemini : @Gemini.Provider (list string) unit :=
  {| Gemini.client :=
       {| Gemini.SendMessage := fun _ modelName _ w => (inl hiChunk, w ++ [modelName]);
          Gemini.SendMessageStream := fun _ modelName _ w =>
            (([hiChunk], None), w ++ [modelName]) |};
     Gemini.model := "gemini-1.5-flash";
     Gemini.models := [] |}.

Definition loggingAnthropic : @Anthropic.Provider (list string) unit :=
  {| Anthropic.client :=
       {| Anthropic.MessagesNew := fun _ params w =>
            (inl helloMessage, w ++ [Anthropic.pModel params]);
          Anthropic.MessagesNewStreaming := fun _ params w =>
            (([], None), w ++ [Anthropic.pModel params]) |};
     Anthropic.model := "claude-sonnet-4-20250514";
     Anthropic.models := [] |}.

(** The Gemini adapter registered under its own name. *)
Definition geminiRouter : Router.Router (list string) unit :=
  Router.RegisterProvider Router.New "gemini" (Gemini.asProvider logging loggingGemini).

End Scenarios.

(* ===================================================================== *)
(** * More concrete values *)
(* ===================================================================== *)

Module MoreScenarios.
Import Errors Types Runtime Scenarios.

(** A world that counts the calls the backend has received, with a runtime
    in which no context ever ends. *)
Definition counting : Runtime nat unit :=
  {| ctxWithTimeout := fun ctx _ w => (ctx, w);
     selectAfter := fun _ _ w => (None, w);
     selectDone := fun _ w => (None, w);
     timeNowUnix := fun _ => 1700000000 |}.

(** An Anthropic backend that answers the first call with HTTP 503 and every
    later call with [helloMessage]. *)
Definition flakyAdapter : @Anthropic.Provider nat unit :=
  {| Anthropic.client :=
       {| Anthropic.MessagesNew := fun _ _ n =>
            match n with
            | O => (inr (Anthropic.APIStatusError 503 "overloaded"), S n)
            | S _ => (inl helloMessage, S n)
            end;
          Anthropic.MessagesNewStreaming := fun _ _ n => (([], None), S n) |};
     Anthropic.model := "claude-sonnet-4-20250514";
     Anthropic.models := [] |}.

(** [NewRetryMiddleware(2, 10 * time.Millisecond)] around it. *)
Definition flakyRetry : @Middleware.retryProvider nat unit :=
  {| Middleware.rpProvider := Anthropic.asProvider counting flakyAdapter;
     Middleware.rpConfig := Middleware.NewRetryMiddleware 2 10000000 |}.

(** A circuit breaker that is open and stays open. *)
Definition openBreaker : @Middleware.CircuitBreakerMiddleware unit :=
  {| Middleware.cb :=
       {| Middleware.beforeRequest := fun w => (Middleware.RejectOpenState, w);
          Middleware.afterRequest := fun _ w => w |} |}.

(** [NewRetryMiddleware(3, time.Second)] around the open breaker around the
    answering backend. *)
Definition retryOverOpenBreaker : @Middleware.retryProvider unit unit :=
  {| Middleware.rpProvider :=
       Middleware.CircuitBreakerWrap openBreaker (Anthropic.asProvider quiet claudeAdapter);
     Middleware.rpConfig := Middleware.NewRetryMiddleware 3 Second |}.

End MoreScenarios.

(* ===================================================================== *)
(** * providers/anthropic/converter.go: requests *)
(* ===================================================================== *)

Module AnthropicRequests.
Import Errors Types.

(** The content parts of a user message.  The adapter reads
    [msg.ContentParts] and, of each part, [Type], [Text] and
    [ImageURL.Base64] / [ImageURL.MediaType]; the declaration of these types
    is not among the sources, so they are given here with exactly the fields
    read, and the [ContentParts] of a message is a parameter. *)
Record ImageURL : Type := mkImageURL {
  iuBase64 : string;
  iuMediaType : string }.

Record ContentPart : Type := mkContentPart {
  cpType : string;
  cpText : string;
  cpImageURL : option ImageURL }.

(** [ToolChoice] and [FuncRef] of types.go; [Function] is a pointer. *)
Record ToolChoice : Type := mkToolChoice {
  tchType : string;
  tchFunction : option string }.

(** [anthropic.ToolChoiceUnionParam], as far as the adapter builds it. *)
Inductive ToolChoiceParam : Type :=
| ToolChoiceAuto
| ToolChoiceAny
| ToolChoiceTool (Name : string).

(** [convertToolChoice]; [None] is nil, on either side. *)
Definition convertToolChoice (tc : option ToolChoice) : option ToolChoiceParam :=
  match tc with
  | None => None
  | Some tc =>
      if String.eqb (tchType tc) "auto" then Some ToolChoiceAuto
      else if String.eqb (tchType tc) "none" then Some ToolChoiceAuto
      else if String.eqb (tchType tc) "required" || String.eqb (tchType tc) "any"
           then Some ToolChoiceAny
      else if String.eqb (tchType tc) "function" then
        match tchFunction tc with
        | Some name => Some (ToolChoiceTool name)
        | None => None
        end
      else None
  end.

(** The separator put between system messages: two line feeds. *)
Definition blankLine : string :=
  String (Ascii.ascii_of_nat 10) (String (Ascii.ascii_of_nat 10) EmptyString).

Section WithJSON.
(** [encoding/json]: [Obj] is [map[string]interface{}] and
    [unmarshalObject s] the map that [json.Unmarshal([]byte(s), &m)] leaves
    in a nil [m]; [None] is the nil map (invalid JSON, or not an object). *)
Variable Obj : Type.
Variable unmarshalObject : string -> option Obj.
Variable ContentParts : Message -> list ContentPart.

(** The content blocks the adapter builds with the SDK's constructors. *)
Inductive BlockParam : Type :=
| NewTextBlock (text : string)
| NewImageBlockBase64 (mediaType base64 : string)
| NewToolUseBlockParam (id name : string) (input : option Obj)
| NewToolResultBlock (toolUseID content : string) (isError : bool).

Inductive ParamRole : Type :=
| ParamUser
| ParamAssistant.

Record MessageParam : Type := mkMessageParam {
  mpRole : ParamRole;
  mpContent : list BlockParam }.

Definition NewUserMessage (blocks : list BlockParam) : MessageParam :=
  {| mpRole := ParamUser; mpContent := blocks |}.

Definition NewAssistantMessage (blocks : list BlockParam) : MessageParam :=
  {| mpRole := ParamAssistant; mpContent := blocks |}.

(** The loop over [msg.ContentParts] of a user message. *)
Fixpoint partBlocks (parts : list ContentPart) (blocks : list BlockParam)
    : list BlockParam :=
  match parts with
  | [] => blocks
  | p :: rest =>
      if String.eqb (cpType p) "text" then
        partBlocks rest (blocks ++ [NewTextBlock (cpText p)])
      else if String.eqb (cpType p) "image_url" then
        match cpImageURL p with
        | Some img =>
            if negb (String.eqb (iuBase64 img) "") then
              partBlocks rest (blocks ++ [NewImageBlockBase64 (iuMediaType img) (iuBase64 img)])
            else partBlocks rest blocks
        | None => partBlocks rest blocks
        end
      else partBlocks rest blocks
  end.

(** The loop over [msg.ToolCalls] of an assistant message. *)
Fixpoint toolUseBlocks (tcs : list ToolCall) (blocks : list BlockParam)
    : list BlockParam :=
  match tcs with
  | [] => blocks
  | tc :: rest =>
      let input := unmarshalObject (fcArguments (tcFunction tc)) in
      toolUseBlocks rest
        (blocks ++ [NewToolUseBlockParam (tcID tc) (fcName (tcFunction tc)) input])
  end.

(** The loop of [convertMessages], from the state
    [(systemPrompt, messages)]. *)
Fixpoint convertLoop (msgs : list Message) (systemPrompt : string)
    (messages : list MessageParam) : list MessageParam * string :=
  match msgs with
  | [] => (messages, systemPrompt)
  | msg :: rest =>
      if String.eqb (msgRole msg) RoleSystem then
        let systemPrompt1 :=
          if negb (String.eqb systemPrompt "") then systemPrompt +:+ blankLine
          else systemPrompt in
        convertLoop rest (systemPrompt1 +:+ msgContent msg) messages
      else if String.eqb (msgRole msg) RoleUser then
        if (0 <? length (ContentParts msg))%nat then
          convertLoop rest systemPrompt
            (messages ++ [NewUserMessage (partBlocks (ContentParts msg) [])])
        else
          convertLoop rest systemPrompt
            (messages ++ [NewUserMessage [NewTextBlock (msgContent msg)]])
      else if String.eqb (msgRole msg) RoleAssistant then
        if (0 <? length (msgToolCalls msg))%nat then
          let blocks :=
            if negb (String.eqb (msgContent msg) "") then [NewTextBlock (msgContent msg)]
            else [] in
          convertLoop rest systemPrompt
            (messages ++ [NewAssistantMessage (toolUseBlocks (msgToolCalls msg) blocks)])
        else
          convertLoop rest systemPrompt
            (messages ++ [NewAssistantMessage [NewTextBlock (msgContent msg)]])
      else if String.eqb (msgRole msg) RoleTool then
        convertLoop rest systemPrompt
          (messages ++
             [NewUserMessage [NewToolResultBlock (msgToolCallID msg) (msgContent msg) false]])
      else convertLoop rest systemPrompt messages
  end.

Definition convertMessages (msgs : list Message) : list MessageParam * string :=
  convertLoop msgs "" [].

(** ** What the properties speak about *)

(** The role a message is sent under; [None] for a message that is not sent
    as a message (a system message, or one of an unknown role). *)
Definition sentRole (msg : Message) : option ParamRole :=
  if String.eqb (msgRole msg) RoleSystem then None
  else if String.eqb (msgRole msg) RoleUser then Some ParamUser
  else if String.eqb (msgRole msg) RoleAssistant then Some ParamAssistant
  else if String.eqb (msgRole msg) RoleTool then Some ParamUser
  else None.

(** The contents of the system messages, in order. *)
Definition systemContents (msgs : list Message) : list string :=
  map msgContent (filter (fun m => msgRole m = RoleSystem) msgs).

(** The ids of the tool-use blocks of a message. *)
Definition toolUseIDs (m : MessageParam) : list string :=
  flat_map (fun b => match b with
                     | NewToolUseBlockParam id _ _ => [id]
                     | _ => []
                     end) (mpContent m).

(** The tool-use ids that the tool-result blocks of a message refer to. *)
Definition toolResultIDs (m : MessageParam) : list string :=
  flat_map (fun b => match b with
                     | NewToolResultBlock id _ _ => [id]
                     | _ => []
                     end) (mpContent m).

(** The ids of the tool calls an assistant message carries; none for a
    message of another role. *)
Definition assistantCallIDs (msg : Message) : list string :=
  match sentRole msg with
  | Some ParamAssistant => map tcID (msgToolCalls msg)
  | _ => []
  end.

(** The tool-call id a tool message answers; none for a message of another
    role. *)
Definition answeredCallID (msg : Message) : list string :=
  if String.eqb (msgRole msg) RoleTool then [msgToolCallID msg] else [].

End WithJSON.

(** Strings joined with a separator. *)
Fixpoint joinWith (sep : string) (l : list string) : string :=
  match l with
  | [] => ""
  | [x] => x
  | x :: rest => x +:+ sep +:+ joinWith sep rest
  end.

End AnthropicRequests.

(* ===================================================================== *)
(** * providers/gemini/converter.go: chat history *)
(* ===================================================================== *)

Module GeminiRequests.
Import Errors Types.

Section WithJSON.
(** [encoding/json], as in the Anthropic adapter; [resultObject s] is the map
    literal with the single key "result" bound to [s]. *)
Variable Obj : Type.
Variable unmarshalObject : string -> option Obj.
Variable resultObject : string -> Obj.

(** The [genai.Part]s the adapter puts into the history. *)
Inductive HistoryPart : Type :=
| Text (s : string)
| FunctionCall (Name : string) (Args : option Obj)
| FunctionResponse (Name : string) (Response : Obj).

(** [genai.Content]. *)
Record Content : Type := mkContent {
  cRole : string;
  cParts : list HistoryPart }.

(** The loop over [msg.ToolCalls] of an assistant message. *)
Fixpoint callParts (tcs : list ToolCall) (parts : list HistoryPart) : list HistoryPart :=
  match tcs with
  | [] => parts
  | tc :: rest =>
      let args := unmarshalObject (fcArguments (tcFunction tc)) in
      callParts rest (parts ++ [FunctionCall (fcName (tcFunction tc)) args])
  end.

(** The loop of [convertHistory], from the state [(history, lastUserMsg)].
    The test [i == len(msgs)-1] holds exactly when no message follows. *)
Fixpoint historyLoop (msgs : list Message) (history : list Content)
    (lastUserMsg : string) : list Content * string :=
  match msgs with
  | [] => (history, lastUserMsg)
  | msg :: rest =>
      if String.eqb (msgRole msg) RoleSystem then historyLoop rest history lastUserMsg
      else if String.eqb (msgRole msg) RoleUser then
        match rest with
        | [] => historyLoop rest history (msgContent msg)
        | _ :: _ =>
            historyLoop rest
              (history ++ [ {| cRole := "user"; cParts := [Text (msgContent msg)] |} ])
              lastUserMsg
        end
      else if String.eqb (msgRole msg) RoleAssistant then
        let parts0 :=
          if negb (String.eqb (msgContent msg) "") then [Text (msgContent msg)] else [] in
        let parts := callParts (msgToolCalls msg) parts0 in
        if (0 <? length parts)%nat then
          historyLoop rest (history ++ [ {| cRole := "model"; cParts := parts |} ]) lastUserMsg
        else historyLoop rest history lastUserMsg
      else if String.eqb (msgRole msg) RoleTool then
        let result :=
          match unmarshalObject (msgContent msg) with
          | Some obj => obj
          | None => resultObject (msgContent msg)
          end in
        historyLoop rest
          (history ++ [ {| cRole := "function";
                           cParts := [FunctionResponse (msgName msg) result] |} ])
          lastUserMsg
      else historyLoop rest history lastUserMsg
  end.

Definition convertHistory (msgs : list Message) : list Content * string :=
  historyLoop msgs [] "".

(** ** What the properties speak about *)

(** The function-call parts of a list of tool calls. *)
Definition callsOf (tcs : list ToolCall) : list HistoryPart :=
  map (fun tc => FunctionCall (fcName (tcFunction tc))
                              (unmarshalObject (fcArguments (tcFunction tc)))) tcs.

(** The history entries of a message that is followed by another message. *)
Definition entryOf (msg : Message) : list Content :=
  if String.eqb (msgRole msg) RoleSystem then []
  else if String.eqb (msgRole msg) RoleUser then
    [ {| cRole := "user"; cParts := [Text (msgContent msg)] |} ]
  else if String.eqb (msgRole msg) RoleAssistant then
    match (if negb (String.eqb (msgContent msg) "") then [Text (msgContent msg)] else [])
          ++ callsOf (msgToolCalls msg) with
    | [] => []
    | parts => [ {| cRole := "model"; cParts := parts |} ]
    end
  else if String.eqb (msgRole msg) RoleTool then
    [ {| cRole := "function";
         cParts := [FunctionResponse (msgName msg)
                      (match unmarshalObject (msgContent msg) with
                       | Some obj => obj
                       | None => resultObject (msgContent msg)
                       end)] |} ]
  else [].

End WithJSON.
End GeminiRequests.

(* ===================================================================== *)
(** * providers/openai *)
(* ===================================================================== *)

Module OpenAI.
Import Errors Types Runtime.

(** ** The SDK's data, as the adapter reads it *)

Record SDKToolCall : Type := mkSDKToolCall {
  stID : string;
  stName : string;
  stArguments : string }.

Record SDKMessage : Type := mkSDKMessage {
  smContent : string;
  smToolCalls : list SDKToolCall }.

Record SDKChoice : Type := mkSDKChoice {
  scIndex : Z;
  scMessage : SDKMessage;
  scFinishReason : string }.

Record SDKUsage : Type := mkSDKUsage {
  suPromptTokens : Z;
  suCompletionTokens : Z;
  suTotalTokens : Z }.

Record ChatCompletion : Type := mkChatCompletion {
  ccID : string;
  ccObject : string;
  ccCreated : Z;
  ccModel : string;
  ccChoices : list SDKChoice;
  ccUsage : SDKUsage }.

Record ChunkToolCall : Type := mkChunkToolCall {
  ctIndex : Z;
  ctID : string;
  ctName : string;
  ctArguments : string }.

Record ChunkDelta : Type := mkChunkDelta {
  cdRole : string;
  cdContent : string;
  cdToolCalls : list ChunkToolCall }.

Record ChunkChoice : Type := mkChunkChoice {
  ckIndex : Z;
  ckDelta : ChunkDelta;
  ckFinishReason : string }.

Record ChatCompletionChunk : Type := mkChatCompletionChunk {
  chkID : string;
  chkObject : string;
  chkCreated : Z;
  chkModel : string;
  chkChoices : list ChunkChoice;
  chkUsage : SDKUsage }.

(** An error returned by the SDK: an [*openai.Error] with its status code,
    message and type, or anything else; [text] is [err.Error()]. *)
Inductive SDKError : Type :=
| APIStatusError (StatusCode : Z) (Message Type_ text : string)
| OtherError (text : string).

(** ** converter.go *)

Definition convertToolCall (tc : SDKToolCall) : ToolCall :=
  {| tcID := stID tc; tcType := "function";
     tcFunction := {| fcName := stName tc; fcArguments := stArguments tc |};
     tcIndex := None |}.

Definition convertChunkToolCall (tc : ChunkToolCall) : ToolCall :=
  {| tcID := ctID tc; tcType := "function";
     tcFunction := {| fcName := ctName tc; fcArguments := ctArguments tc |};
     tcIndex := Some (ctIndex tc) |}.

Definition convertUsage (u : SDKUsage) : option Usage :=
  if 0 <? suTotalTokens u then
    Some {| PromptTokens := suPromptTokens u;
            CompletionTokens := suCompletionTokens u;
            TotalTokens := suTotalTokens u |}
  else None.

Definition convertChoice (choice : SDKChoice) : Choice :=
  {| chIndex := scIndex choice;
     chMessage := Some {| msgRole := RoleAssistant;
                          msgContent := smContent (scMessage choice);
                          msgName := "";
                          msgToolCalls := map convertToolCall (smToolCalls (scMessage choice));
                          msgToolCallID := "" |};
     chDelta := None;
     chFinishReason := scFinishReason choice |}.

Definition convertResponse (resp : ChatCompletion) (provider : string) : Response :=
  {| rID := ccID resp;
     rObject := ccObject resp;
     rCreated := ccCreated resp;
     rModel := ccModel resp;
     rChoices := map convertChoice (ccChoices resp);
     rUsage := convertUsage (ccUsage resp);
     rProvider := provider |}.

Definition convertStreamToolCalls (toolCalls : list ChunkToolCall) : list ToolCall :=
  map convertChunkToolCall toolCalls.

Definition convertChunkChoice (choice : ChunkChoice) : Choice :=
  {| chIndex := ckIndex choice;
     chMessage := None;
     chDelta := Some {| dRole := cdRole (ckDelta choice);
                        dContent := cdContent (ckDelta choice);
                        dToolCalls := map convertChunkToolCall (cdToolCalls (ckDelta choice)) |};
     chFinishReason := ckFinishReason choice |}.

Definition convertChunkResponse (chunk : ChatCompletionChunk) (provider : string) : Response :=
  {| rID := chkID chunk;
     rObject := chkObject chunk;
     rCreated := chkCreated chunk;
     rModel := chkModel chunk;
     rChoices := map convertChunkChoice (chkChoices chunk);
     rUsage := convertUsage (chkUsage chunk);
     rProvider := provider |}.

Definition wrapError (provider : string) (err : SDKError) : error :=
  match err with
  | APIStatusError code message type_ text =>
      APIError provider code message type_
        (Some (if (code =? 401) || (code =? 403) then Sentinel ErrAuthFailed
               else if code =? 429 then Sentinel ErrRateLimited
               else if code =? 400 then Sentinel ErrInvalidRequest
               else Foreign text))
  | OtherError text => APIError provider 0 text "" (Some (Foreign text))
  end.

(** ** openai.go *)

Record Preset : Type := mkPreset {
  prBaseURL : string;
  prDefaultModel : string;
  prModels : list string }.

(** The map literal [Presets], as the lookup [Presets[name]]. *)
Definition Presets (name : string) : option Preset :=
  if String.eqb name "openai" then
    Some {| prBaseURL := "https://api.openai.com/v1/";
            prDefaultModel := "gpt-4.1-mini";
            prModels := ["gpt-4.1"; "gpt-4.1-mini"; "gpt-4.1-nano"; "gpt-4o";
                         "gpt-4o-mini"; "o4-mini"] |}
  else if String.eqb name "deepseek" then
    Some {| prBaseURL := "https://api.deepseek.com/";
            prDefaultModel := "deepseek-chat";
            prModels := ["deepseek-chat"; "deepseek-coder"] |}
  else if String.eqb name "groq" then
    Some {| prBaseURL := "https://api.groq.com/openai/v1/";
            prDefaultModel := "llama-3.3-70b-versatile";
            prModels := ["llama-3.3-70b-versatile"; "llama-3.1-8b-instant";
                         "mixtral-8x7b-32768"] |}
  else if String.eqb name "together" then
    Some {| prBaseURL := "https://api.together.xyz/v1/";
            prDefaultModel := "meta-llama/Llama-3.3-70B-Instruct-Turbo";
            prModels := ["meta-llama/Llama-3.3-70B-Instruct-Turbo";
                         "mistralai/Mixtral-8x7B-Instruct-v0.1"] |}
  else if String.eqb name "ollama" then
    Some {| prBaseURL := "http://localhost:11434/v1/";
            prDefaultModel := "llama3.2";
            prModels := [] |}
  else None.

(** [strings.HasSuffix]: some tail of [s] is [suffix]. *)
Fixpoint HasSuffix (s suffix : string) : bool :=
  if String.eqb s suffix then true
  else
    match s with
    | EmptyString => false
    | String _ s' => HasSuffix s' suffix
    end.

(** [llmrouter.ProviderConfig], the fields [New] reads. *)
Record ProviderConfig : Type := mkProviderConfig {
  cfgName : string;
  cfgAPIKey : string;
  cfgBaseURL : string;
  cfgModel : string;
  cfgModels : list string;
  cfgTimeout : Z }.

(** The request options [New] passes to [openai.NewClient]. *)
Inductive RequestOption : Type :=
| WithBaseURL (url : string)
| WithAPIKey (key : string)
| WithRequestTimeout (d : Z).

Section WithWorld.
Context {W Ctx : Type}.
Variable rt : Runtime W Ctx.

(** [openai.ChatCompletionNewParams]: the model computed by the adapter; the
    other parameters are translations of the request's fields. *)
Record ChatCompletionNewParams : Type := mkParams {
  pModel : string;
  pRequest : Request }.

(** [p.client.Chat.Completions]: [New] returns a completion or an error;
    [NewStreaming] gives the chunks [stream.Next()] yields before it returns
    false, and then [stream.Err()]. *)
Record Client : Type := mkClient {
  CompletionsNew : Ctx -> ChatCompletionNewParams -> W -> (ChatCompletion + SDKError) * W;
  CompletionsNewStreaming :
    Ctx -> ChatCompletionNewParams -> W -> (list ChatCompletionChunk * option SDKError) * W }.

Record Provider : Type := mkProvider {
  client : Client;
  name : string;
  model : string;
  models : list string }.

(** [New]; [newClient] is [openai.NewClient]. *)
Definition New (newClient : list RequestOption -> Client) (cfg : ProviderConfig) : Provider :=
  let preset := Presets (cfgName cfg) in
  let baseURL0 :=
    match preset with
    | Some pr => if String.eqb (cfgBaseURL cfg) "" then prBaseURL pr else cfgBaseURL cfg
    | None => cfgBaseURL cfg
    end in
  let baseURL :=
    if negb (String.eqb baseURL0 "") && negb (HasSuffix baseURL0 "/")
    then baseURL0 +:+ "/" else baseURL0 in
  let model :=
    match preset with
    | Some pr => if String.eqb (cfgModel cfg) "" then prDefaultModel pr else cfgModel cfg
    | None => cfgModel cfg
    end in
  let opts :=
    (if negb (String.eqb baseURL "") then [WithBaseURL baseURL] else [])
    ++ (if negb (String.eqb (cfgAPIKey cfg) "") then [WithAPIKey (cfgAPIKey cfg)] else [])
    ++ (if 0 <? cfgTimeout cfg then [WithRequestTimeout (cfgTimeout cfg)] else []) in
  let models :=
    match preset with
    | Some pr => if (length (cfgModels cfg) =? 0)%nat then prModels pr else cfgModels cfg
    | None => cfgModels cfg
    end in
  {| client := newClient opts; name := cfgName cfg; model := model; models := models |}.

Definition Name (p : Provider) : string := name p.
Definition Models (p : Provider) : list string := models p.
Definition SupportsTools (p : Provider) : bool := true.

(** The parameters built at the head of [Complete] and of [Stream]. *)
Definition buildParams (p : Provider) (req : Request) : ChatCompletionNewParams :=
  let model0 := reqModel req in
  let model1 :=
    if String.eqb model0 "" || String.eqb model0 (name p) then model p else model0 in
  {| pModel := model1; pRequest := req |}.

Definition Complete (p : Provider) (ctx : Ctx) (req : Request) (w : W)
    : result Response * W :=
  let params := buildParams p req in
  match CompletionsNew (client p) ctx params w with
  | (inr err, w1) => (Fail (wrapError (name p) err), w1)
  | (inl resp, w1) => (Ok (convertResponse resp (name p)), w1)
  end.

Definition contentDeltaEvent (text : string) : Event :=
  {| evType := EventContentDelta; evContent := text; evDelta := None;
     evResponse := None; evError := None |}.

Definition toolCallsEvent (tcs : list ToolCall) : Event :=
  {| evType := EventToolCallDelta; evContent := "";
     evDelta := Some {| dRole := ""; dContent := ""; dToolCalls := tcs |};
     evResponse := None; evError := None |}.

Definition errorEvent (err : error) : Event :=
  {| evType := EventError; evContent := ""; evDelta := None;
     evResponse := None; evError := Some err |}.

Definition doneEvent (resp : Response) : Event :=
  {| evType := EventDone; evContent := ""; evDelta := None;
     evResponse := Some resp; evError := None |}.

(** What one iteration of [for stream.Next()] sends. *)
Definition chunkEvents (chunk : ChatCompletionChunk) : list Event :=
  match chkChoices chunk with
  | [] => []
  | choice :: _ =>
      let delta := ckDelta choice in
      (if negb (String.eqb (cdContent delta) "")
       then [contentDeltaEvent (cdContent delta)] else [])
      ++ (if (0 <? length (cdToolCalls delta))%nat
          then [toolCallsEvent (convertStreamToolCalls (cdToolCalls delta))] else [])
  end.

(** The loop, from the state [lastChunk]; the second component is what is
    sent. *)
Fixpoint streamLoop (chunks : list ChatCompletionChunk)
    (lastChunk : option ChatCompletionChunk)
    : option ChatCompletionChunk * list Event :=
  match chunks with
  | [] => (lastChunk, [])
  | chunk :: rest =>
      let '(last', sent) := streamLoop rest (Some chunk) in
      (last', chunkEvents chunk ++ sent)
  end.

(** Everything the goroutine of [Stream] sends before it closes the channel. *)
Definition streamEvents (p : Provider) (model : string) (created : Z)
    (chunks : list ChatCompletionChunk) (streamErr : option SDKError) : list Event :=
  let '(lastChunk, sent) := streamLoop chunks None in
  match streamErr with
  | Some err => sent ++ [errorEvent (wrapError (name p) err)]
  | None =>
      match lastChunk with
      | Some chunk => sent ++ [doneEvent (convertChunkResponse chunk (name p))]
      | None =>
          sent ++ [doneEvent {| rID := ""; rObject := "chat.completion";
                                rCreated := created; rModel := model;
                                rChoices := []; rUsage := None;
                                rProvider := name p |}]
      end
  end.

Definition Stream (p : Provider) (ctx : Ctx) (req : Request) (w : W)
    : result (list Event) * W :=
  let params := buildParams p req in
  let '((chunks, streamErr), w1) := CompletionsNewStreaming (client p) ctx params w in
  (Ok (streamEvents p (pModel params) (timeNowUnix rt w1) chunks streamErr), w1).

Definition asProvider (p : Provider) : Router.Provider W Ctx :=
  {| Router.Name := Name p;
     Router.Models := Models p;
     Router.SupportsTools := SupportsTools p;
     Router.Complete := Complete p;
     Router.Stream := Stream p |}.

End WithWorld.

(** ** What the properties speak about *)

(** The non-empty contents of the first-choice deltas of the chunks. *)
Definition chunkTexts (chunks : list ChatCompletionChunk) : list string :=
  flat_map (fun chunk =>
              match chkChoices chunk with
              | choice :: _ =>
                  if String.eqb (cdContent (ckDelta choice)) "" then []
                  else [cdContent (ckDelta choice)]
              | [] => []
              end) chunks.

End OpenAI.

(* ===================================================================== *)
(** * Concrete requests and OpenAI values *)
(* ===================================================================== *)

Module RequestScenarios.
Import Errors Types Runtime Scenarios.

Definition says (role content : string) : Message :=
  {| msgRole := role; msgContent := content; msgName := "";
     msgToolCalls := []; msgToolCallID := "" |}.

(** The assistant's request to call [get_weather], with tool-call id "t1". *)
Definition asksWeather : Message :=
  {| msgRole := RoleAssistant; msgContent := ""; msgName := "";
     msgToolCalls :=
       [ {| tcID := "t1"; tcType := "function";
            tcFunction := {| fcName := "get_weather"; fcArguments := "{}" |};
            tcIndex := None |} ];
     msgToolCallID := "" |}.

(** The tool's answer to the call "t1". *)
Definition weatherAnswer : Message :=
  {| msgRole := RoleTool; msgContent := "68"; msgName := "get_weather";
     msgToolCalls := []; msgToolCallID := "t1" |}.

(** Scenario 2 of the specification, second request, with two system
    messages in front. *)
Definition weatherChat : list Message :=
  [ says RoleSystem "Be brief."; says RoleSystem "Use the tools.";
    says RoleUser "weather in SF?"; asksWeather; weatherAnswer ].

(** A JSON decoder that recognises no object, and messages without content
    parts. *)
Definition noObject : string -> option unit := fun _ => None.
Definition noParts : Message -> list AnthropicRequests.ContentPart := fun _ => [].

Definition twoChoices : OpenAI.ChatCompletion :=
  {| OpenAI.ccID := "chatcmpl-1"; OpenAI.ccObject := "chat.completion";
     OpenAI.ccCreated := 1700000000; OpenAI.ccModel := "gpt-4o-mini";
     OpenAI.ccChoices :=
       [ {| OpenAI.scIndex := 0;
            OpenAI.scMessage := {| OpenAI.smContent := "hello"; OpenAI.smToolCalls := [] |};
            OpenAI.scFinishReason := "stop" |};
         {| OpenAI.scIndex := 1;
            OpenAI.scMessage :=
              {| OpenAI.smContent := "";
                 OpenAI.smToolCalls :=
                   [ {| OpenAI.stID := "c1"; OpenAI.stName := "f";
                        OpenAI.stArguments := "{}" |} ] |};
            OpenAI.scFinishReason := "function_call" |} ];
     OpenAI.ccUsage := {| OpenAI.suPromptTokens := 1; OpenAI.suCompletionTokens := 1;
                          OpenAI.suTotalTokens := 2 |} |}.

(** An OpenAI-compatible backend that answers with [twoChoices]. *)
Definition groqAdapter : @OpenAI.Provider unit unit :=
  {| OpenAI.client :=
       {| OpenAI.CompletionsNew := fun _ _ w => (inl twoChoices, w);
          OpenAI.CompletionsNewStreaming := fun _ _ w => (([], None), w) |};
     OpenAI.name := "groq";
     OpenAI.model := "llama-3.3-70b-versatile";
     OpenAI.models := [] |}.

End RequestScenarios.

(* ===================================================================== *)
(** * Properties of errors.go *)
(* ===================================================================== *)

Section ErrorsProperties.
Import Errors Spec.

Lemma errorsIs_unwrap e e1 s :
  Unwrap e = Some e1 -> errorsIs e s = errorsIs e1 s.
Proof.
  destruct e as [s0|msg w|p c m t [x|]|msg]; simpl; intros H; try discriminate;
    injection H as <-; reflexivity.
Qed.

Lemma errorsIs_sound e s : errorsIs e s = true -> UnwrapsTo e (Sentinel s).
Proof.
  induction e as [s0|msg w IH|p c m t x IH|p c m t|msg] using error_chain_ind;
    simpl; intros H.
  - apply bool_decide_eq_true_1 in H. subst. constructor.
  - eapply unwraps_step; [reflexivity | auto].
  - eapply unwraps_step; [reflexivity | auto].
  - discriminate.
  - discriminate.
Qed.

Lemma errorsIs_complete e s : UnwrapsTo e (Sentinel s) -> errorsIs e s = true.
Proof.
  intros H. remember (Sentinel s) as tgt eqn:Ht.
  induction H as [e|e e1 e' Hu _ IH]; subst.
  - simpl. apply bool_decide_eq_true_2. reflexivity.
  - rewrite (errorsIs_unwrap _ _ _ Hu). auto.
Qed.

Lemma errorsIs_iff e s : errorsIs e s = true <-> UnwrapsTo e (Sentinel s).
Proof. split; [apply errorsIs_sound | apply errorsIs_complete]. Qed.

Lemma errorsIs_false_iff e s : errorsIs e s = false <-> ~ UnwrapsTo e (Sentinel s).
Proof.
  rewrite <- errorsIs_iff. destruct (errorsIs e s); split; intros; congruence.
Qed.

Lemma errorsAs_first e code : errorsAsAPIError e = Some code <-> FirstAPIError e code.
Proof.
  split.
  - induction e as [s0|msg w IH|p c m t x IH|p c m t|msg] using error_chain_ind;
      simpl; intros H; try discriminate.
    + constructor. auto.
    + injection H as <-. constructor.
    + injection H as <-. constructor.
  - induction 1; simpl; auto.
Qed.

Lemma not_fatal_errorsIs e :
  ~ unwrapsToFatal e ->
  errorsIs e ErrContextCanceled = false /\
  errorsIs e ErrAuthFailed = false /\
  errorsIs e ErrInvalidRequest = false.
Proof.
  unfold unwrapsToFatal. intros H. rewrite !errorsIs_false_iff. tauto.
Qed.

Lemma statusSwitch_retried code : retriedStatus code -> statusSwitch code = Some true.
Proof. intros [->|[->|[->|[->| ->]]]]; reflexivity. Qed.

Lemma statusSwitch_refused code : refusedStatus code -> statusSwitch code = Some false.
Proof. intros [->|[->| ->]]; reflexivity. Qed.

Lemma statusSwitch_other code :
  ~ retriedStatus code -> ~ refusedStatus code -> statusSwitch code = None.
Proof.
  unfold retriedStatus, refusedStatus, statusSwitch. intros H1 H2.
  repeat match goal with
         | |- context [?a =? ?b] => destruct (Z.eqb_spec a b); [lia|]
         end.
  reflexivity.
Qed.

(** C7 (as amended).  [IsRetryable] is false for nil and for every error that
    unwraps to ErrContextCanceled, ErrAuthFailed or ErrInvalidRequest.  For
    any other error the first APIError of its chain decides: status 429, 500,
    502, 503 or 504 is retryable, status 400, 401 or 403 is not.  Every
    remaining error, among them those that unwrap to ErrRateLimited, is
    retryable. *)
Theorem IsRetryable_classification (e : error) :
  IsRetryable None = false /\
  (unwrapsToFatal e -> IsRetryable (Some e) = false) /\
  (forall code, ~ unwrapsToFatal e -> FirstAPIError e code -> retriedStatus code ->
     IsRetryable (Some e) = true) /\
  (forall code, ~ unwrapsToFatal e -> FirstAPIError e code -> refusedStatus code ->
     IsRetryable (Some e) = false) /\
  (~ unwrapsToFatal e ->
   (forall code, FirstAPIError e code -> ~ retriedStatus code /\ ~ refusedStatus code) ->
   IsRetryable (Some e) = true).
Proof.
  split; [reflexivity|]. split; [|split; [|split]].
  - intros [H|[H|H]]; apply errorsIs_complete in H; unfold IsRetryable;
      rewrite ?H; repeat (destruct (errorsIs _ _); try reflexivity); congruence.
  - intros code Hn Hf Hs. destruct (not_fatal_errorsIs e Hn) as (H1 & H2 & H3).
    apply errorsAs_first in Hf. unfold IsRetryable.
    rewrite H1, H2, H3, Hf, (statusSwitch_retried code Hs). reflexivity.
  - intros code Hn Hf Hs. destruct (not_fatal_errorsIs e Hn) as (H1 & H2 & H3).
    apply errorsAs_first in Hf. unfold IsRetryable.
    rewrite H1, H2, H3, Hf, (statusSwitch_refused code Hs). reflexivity.
  - intros Hn Hall. destruct (not_fatal_errorsIs e Hn) as (H1 & H2 & H3).
    unfold IsRetryable. rewrite H1, H2, H3.
    destruct (errorsAsAPIError e) as [code|] eqn:Ha.
    + apply errorsAs_first in Ha. destruct (Hall code Ha) as [Hr Hf].
      rewrite (statusSwitch_other code Hr Hf).
      destruct (errorsIs e ErrRateLimited); reflexivity.
    + destruct (errorsIs e ErrRateLimited); reflexivity.
Qed.

Lemma not_fatal_by_evaluation e :
  (errorsIs e ErrContextCanceled || errorsIs e ErrAuthFailed
     || errorsIs e ErrInvalidRequest) = false ->
  ~ unwrapsToFatal e.
Proof.
  intros H [Hc|[Hc|Hc]]; apply errorsIs_complete in Hc; rewrite Hc in H;
    repeat (destruct (errorsIs _ _); simpl in H); discriminate.
Qed.

Lemma unwraps_of_leaf e e' : Unwrap e = None -> UnwrapsTo e e' -> e' = e.
Proof. intros Hn H. destruct H as [|e e1 e' Hu _]; [reflexivity | congruence]. Qed.

(** Witness of [IsRetryable_classification]: an HTTP 503 from the Anthropic
    adapter is retried, a bare 401 is not. *)
Lemma IsRetryable_classification_witness :
  IsRetryable (Some Scenarios.overloaded503) = true /\
  IsRetryable (Some Scenarios.bare401) = false.
Proof.
  split.
  - refine (proj1 (proj2 (proj2 (IsRetryable_classification Scenarios.overloaded503)))
              503 _ _ _).
    + apply not_fatal_by_evaluation. reflexivity.
    + constructor.
    + right. right. right. left. reflexivity.
  - refine (proj1 (proj2 (proj2 (proj2 (IsRetryable_classification Scenarios.bare401))))
              401 _ _ _).
    + apply not_fatal_by_evaluation. reflexivity.
    + constructor.
    + right. left. reflexivity.
Defined.

(** C7 (as stated) fails.  An APIError with status 401 and no cause unwraps to
    none of ErrContextCanceled, ErrAuthFailed, ErrInvalidRequest, to no
    APIError with status 429, 500, 502, 503 or 504, and not to
    ErrRateLimited: it is one of "every other non-nil error", for which the
    claim promises [true]; [IsRetryable] answers [false]. *)
Lemma IsRetryable_bare_401_not_retried :
  ~ unwrapsToFatal Scenarios.bare401 /\
  (forall code, retriedStatus code -> ~ unwrapsToStatus Scenarios.bare401 code) /\
  ~ UnwrapsTo Scenarios.bare401 (Sentinel ErrRateLimited) /\
  IsRetryable (Some Scenarios.bare401) <> true.
Proof.
  split; [|split; [|split]].
  - apply not_fatal_by_evaluation. reflexivity.
  - intros code Hc (a & Hu & (p & m & t & c & Ha)).
    apply unwraps_of_leaf in Hu; [|reflexivity]. subst a.
    unfold Scenarios.bare401 in Ha. injection Ha as _ Hcode _ _ _.
    unfold retriedStatus in Hc. lia.
  - intros Hu. apply unwraps_of_leaf in Hu; [|reflexivity]. discriminate.
  - discriminate.
Qed.

End ErrorsProperties.

(* ===================================================================== *)
(** * Properties of router.go *)
(* ===================================================================== *)

Section RouterProperties.
Import Errors Types Router Spec.
Context {W Ctx : Type}.

Local Abbreviation Provider := (Router.Provider W Ctx).
Local Abbreviation Router := (Router.Router W Ctx).

Lemma declares_iff ms M : declares ms M = true <-> M ∈ ms.
Proof.
  induction ms as [|m ms IH]; simpl.
  - split; [discriminate | intros H; inversion H].
  - destruct (String.eqb_spec m M) as [->|Hne].
    + split; [intros _; left | reflexivity].
    + rewrite IH. split; [intros H; right; exact H|].
      intros H. inversion H; subst; [congruence | assumption].
Qed.

Lemma scan_Some (visit : list (string * Provider)) M p :
  scan visit M = Some p -> exists n, (n, p) ∈ visit /\ M ∈ Models p.
Proof.
  induction visit as [|[n q] rest IH]; simpl; [discriminate|].
  destruct (declares (Models q) M) eqn:Hd.
  - intros [= <-]. exists n. split; [left | apply declares_iff, Hd].
  - intros H. destruct (IH H) as (n' & Hin & Hm). exists n'. split; [right|]; assumption.
Qed.

Lemma scan_None (visit : list (string * Provider)) M :
  scan visit M = None -> forall n p, (n, p) ∈ visit -> M ∉ Models p.
Proof.
  induction visit as [|[n q] rest IH]; simpl; intros H n' p Hin.
  - inversion Hin.
  - destruct (declares (Models q) M) eqn:Hd; [discriminate|].
    inversion Hin; subst.
    + rewrite <- declares_iff, Hd. discriminate.
    + eapply IH; eassumption.
Qed.

Lemma visits_elem (r : Router) visit n p :
  visits r visit -> (n, p) ∈ visit <-> providers r !! n = Some p.
Proof.
  unfold visits. intros Hv. rewrite Hv. apply elem_of_map_to_list.
Qed.

Lemma registry_empty_size (r : Router) :
  Nat.eqb (size (providers r)) 0 = true <-> providers r = ∅.
Proof. rewrite Nat.eqb_eq. apply map_size_empty_iff. Qed.

Lemma resolve_nonempty (r : Router) visit M :
  providers r <> ∅ ->
  resolveProvider r visit M =
    match
      match modelMap r !! M with
      | Some providerName => providers r !! providerName
      | None => None
      end
    with
    | Some p => Ok p
    | None =>
        match providers r !! M with
        | Some p => Ok p
        | None =>
            match scan visit M with
            | Some p => Ok p
            | None => Fail (Errorf_w_s (Sentinel ErrUnknownModel) M)
            end
        end
    end.
Proof.
  intros Hne. unfold resolveProvider.
  destruct (Nat.eqb (size (providers r)) 0) eqn:Hs; [|reflexivity].
  apply registry_empty_size in Hs. contradiction.
Qed.

Lemma not_mapped_lookup (r : Router) M :
  (forall p, ~ mappedTo r M p) ->
  match modelMap r !! M with
  | Some providerName => providers r !! providerName
  | None => None
  end = None.
Proof.
  intros Hn. destruct (modelMap r !! M) as [n|] eqn:Hm; [|reflexivity].
  destruct (providers r !! n) as [p|] eqn:Hp; [|reflexivity].
  exfalso. apply (Hn p). exists n. auto.
Qed.

(** C1.  Resolution of a model string [M], for any order in which the scan
    visits the registry: an empty registry gives ErrNoProviders; otherwise a
    provider named by [modelMap[M]] is returned; otherwise the provider
    registered under the name [M]; otherwise some registered provider that
    declares [M]; otherwise an error that wraps ErrUnknownModel and whose text
    ends with [M]. *)
Theorem resolveProvider_algorithm (r : Router) (visit : list (string * Provider))
    (M : string) :
  visits r visit ->
  (providers r = ∅ -> resolveProvider r visit M = Fail (Sentinel ErrNoProviders)) /\
  (providers r <> ∅ ->
   forall p, mappedTo r M p -> resolveProvider r visit M = Ok p) /\
  (providers r <> ∅ -> (forall p, ~ mappedTo r M p) ->
   forall p, providers r !! M = Some p -> resolveProvider r visit M = Ok p) /\
  (providers r <> ∅ -> (forall p, ~ mappedTo r M p) -> providers r !! M = None ->
   (exists p, declaredBy r M p) ->
   exists p, declaredBy r M p /\ resolveProvider r visit M = Ok p) /\
  (providers r <> ∅ -> (forall p, ~ mappedTo r M p) -> providers r !! M = None ->
   (forall p, ~ declaredBy r M p) ->
   exists err, resolveProvider r visit M = Fail err /\
               UnwrapsTo err (Sentinel ErrUnknownModel) /\
               errorText err = "unknown model: " +:+ M).
Proof.
  intros Hv. split; [|split; [|split; [|split]]].
  - intros He. unfold resolveProvider.
    apply registry_empty_size in He. rewrite He. reflexivity.
  - intros Hne p (n & Hm & Hp). rewrite resolve_nonempty by assumption.
    rewrite Hm, Hp. reflexivity.
  - intros Hne Hnm p Hp. rewrite resolve_nonempty by assumption.
    rewrite (not_mapped_lookup r M Hnm), Hp. reflexivity.
  - intros Hne Hnm Hnn (p & n & Hp & Hin). rewrite resolve_nonempty by assumption.
    rewrite (not_mapped_lookup r M Hnm), Hnn.
    destruct (scan visit M) as [q|] eqn:Hs.
    + destruct (scan_Some _ _ _ Hs) as (n' & Hq & Hmq).
      exists q. split; [|reflexivity].
      exists n'. split; [apply (visits_elem r visit n' q Hv), Hq | exact Hmq].
    + exfalso. apply (scan_None _ _ Hs n p); [|exact Hin].
      apply (visits_elem r visit n p Hv), Hp.
  - intros Hne Hnm Hnn Hnd. rewrite resolve_nonempty by assumption.
    rewrite (not_mapped_lookup r M Hnm), Hnn.
    destruct (scan visit M) as [q|] eqn:Hs.
    + destruct (scan_Some _ _ _ Hs) as (n' & Hq & Hmq).
      exfalso. apply (Hnd q). exists n'.
      split; [apply (visits_elem r visit n' q Hv), Hq | exact Hmq].
    + eexists. split; [reflexivity|]. split; [|reflexivity].
      eapply unwraps_step; [reflexivity | constructor].
Qed.

End RouterProperties.

(* ===================================================================== *)
(** * The response names the provider that produced it *)
(* ===================================================================== *)

Section ProviderNameProperties.
Import Errors Types Runtime Router Middleware Spec.
Context {W Ctx : Type}.
Variable rt : Runtime W Ctx.
Variable outOfRange : Z -> Z -> Z.

Local Abbreviation Provider := (Router.Provider W Ctx).
Local Abbreviation Router := (Router.Router W Ctx).

Lemma Anthropic_stampsName (a : Anthropic.Provider) :
  stampsName (Anthropic.asProvider rt a).
Proof.
  intros ctx req w resp w'. simpl. unfold Anthropic.Complete.
  destruct (Anthropic.MessagesNew _ _ _ _) as [[msg|err] w1]; intros [= <- <-].
  unfold Anthropic.convertToOpenAIResponse.
  destruct (Anthropic.collectBlocks _ _ _). reflexivity.
Qed.

Lemma Gemini_stampsName (g : Gemini.Provider) :
  stampsName (Gemini.asProvider rt g).
Proof.
  intros ctx req w resp w'. simpl. unfold Gemini.Complete.
  destruct (Gemini.SendMessage _ _ _ _ _) as [[msg|err] w1]; intros [= <- <-].
  unfold Gemini.convertResponse.
  destruct (Gemini.Candidates msg) as [|[[parts|] fr] cs]; try reflexivity.
  destruct (Gemini.collectParts parts "" []). reflexivity.
Qed.

(** A result [Ok] of the retry loop is the result of one of its calls. *)
Lemma retryLoop_Ok {A : Type} (p : retryProvider) ctx (call : W -> result A * W) :
  forall remaining attempt lastErr w a w' tr,
    retryLoop rt outOfRange p ctx call remaining attempt lastErr w = ((Ok a, w'), tr) ->
    exists w0, call w0 = (Ok a, w').
Proof.
  induction remaining as [|n IH]; intros attempt lastErr w a w' tr; simpl.
  - intros [=].
  - destruct (0 <? attempt).
    + destruct (selectAfter rt ctx _ w) as [[ctxErr|] w1]; [intros [=]|].
      destruct (call w1) as [[resp|err] w2] eqn:Hc.
      * intros [= <- <- _]. eauto.
      * destruct (negb _); [intros [=]|].
        destruct (retryLoop _ _ _ _ _ _ _ _ _) as [res tr'] eqn:Hl.
        intros [= -> _]. eapply IH. exact Hl.
    + destruct (call w) as [[resp|err] w2] eqn:Hc.
      * intros [= <- <- _]. eauto.
      * destruct (negb _); [intros [=]|].
        destruct (retryLoop _ _ _ _ _ _ _ _ _) as [res tr'] eqn:Hl.
        intros [= -> _]. eapply IH. exact Hl.
Qed.

Lemma breakerExecute_Ok {A : Type} (p : @circuitBreakerProvider W Ctx) (call : W -> result A * W)
    w a w' :
  breakerExecute p call w = (Ok a, w') -> exists w0 w1, call w0 = (Ok a, w1).
Proof.
  unfold breakerExecute.
  destruct (beforeRequest _ w) as [[| |] w1]; [|intros [=]|intros [=]].
  destruct (call w1) as [[x|err] w2] eqn:Hc; intros [= <- _]. eauto.
Qed.

Lemma repoMiddleware_returnsInner m :
  repoMiddleware rt outOfRange m -> returnsInner m.
Proof.
  intros [cfg|cfg|cfg] next; (split; [reflexivity|]); intros ctx req w resp w'; simpl.
  - unfold retryProvider_Complete, retryComplete_run.
    destruct (retryLoop _ _ _ _ _ _ _ _ _) as [res tr] eqn:Hl. simpl. intros ->.
    apply retryLoop_Ok in Hl. destruct Hl as [w0 Hc]. simpl in Hc. eauto.
  - unfold timeoutProvider_Complete. simpl.
    destruct (ctxWithTimeout rt ctx _ w) as [ctx' w1]. eauto.
  - unfold circuitBreakerProvider_Complete. intros H.
    apply breakerExecute_Ok in H. destruct H as (w0 & w1 & Hc). simpl in Hc. eauto.
Qed.

Lemma chain_returnsInner (ms : list (Router.Middleware W Ctx)) (p : Provider) :
  Forall returnsInner ms ->
  Name (foldr (fun (m : Router.Middleware W Ctx) result => m result) p ms) = Name p /\
  forall ctx req w resp w',
    Complete (foldr (fun (m : Router.Middleware W Ctx) result => m result) p ms)
             ctx req w = (Ok resp, w') ->
    exists ctx0 w0 w1, Complete p ctx0 req w0 = (Ok resp, w1).
Proof.
  induction 1 as [|m ms Hm _ IH]; simpl.
  - split; [reflexivity | eauto].
  - destruct IH as [IHn IHc].
    destruct (Hm (foldr (fun (m : Router.Middleware W Ctx) result => m result) p ms))
      as [Hn Hc].
    split; [rewrite Hn; exact IHn|].
    intros ctx req w resp w' H. destruct (Hc _ _ _ _ _ H) as (ctx0 & w0 & w1 & H').
    eapply IHc. exact H'.
Qed.

Lemma resolveProvider_registered (r : Router) visit M p :
  visits r visit -> resolveProvider r visit M = Ok p ->
  exists n, providers r !! n = Some p.
Proof.
  intros Hv. unfold resolveProvider.
  destruct (Nat.eqb _ _); [intros [=]|].
  destruct (modelMap r !! M) as [n|].
  - destruct (providers r !! n) as [q|] eqn:Hq; [intros [= <-]; eauto|].
    destruct (providers r !! M) as [q|] eqn:Hq'; [intros [= <-]; eauto|].
    destruct (scan visit M) as [q|] eqn:Hs; intros [= <-].
    destruct (scan_Some _ _ _ Hs) as (n' & Hin & _).
    exists n'. apply (visits_elem r visit n' q Hv), Hin.
  - destruct (providers r !! M) as [q|] eqn:Hq'; [intros [= <-]; eauto|].
    destruct (scan visit M) as [q|] eqn:Hs; intros [= <-].
    destruct (scan_Some _ _ _ Hs) as (n' & Hin & _).
    exists n'. apply (visits_elem r visit n' q Hv), Hin.
Qed.

(** C2 (as amended).  When the middleware chain is made of this repository's
    retry, timeout and circuit-breaker wrappers and the registered providers
    write their own [Name()] into their responses (the Anthropic and Gemini
    adapters do), the response of a successful [Router.Complete] carries the
    [Name()] of the resolved provider, and the chain built around that
    provider answers to the same name. *)
Theorem Router_Complete_names_provider (r : Router) visit ctx req w resp w' :
  Forall (repoMiddleware rt outOfRange) (middleware r) ->
  (forall n p, providers r !! n = Some p -> stampsName p) ->
  visits r visit ->
  Router_Complete r visit ctx req w = (Ok resp, w') ->
  exists n p,
    providers r !! n = Some p /\
    resolveProvider r visit (reqModel req) = Ok p /\
    Name (buildChain r p) = Name p /\
    rProvider resp = Name p.
Proof.
  intros Hmw Hst Hv. unfold Router_Complete.
  destruct (resolveProvider r visit (reqModel req)) as [p|err] eqn:Hr; [|intros [=]].
  intros Hc. destruct (resolveProvider_registered r visit _ p Hv Hr) as [n Hn].
  exists n, p. split; [exact Hn|]. split; [reflexivity|].
  assert (Hall : Forall returnsInner (middleware r)).
  { eapply Forall_impl; [exact Hmw|]. intros m. apply repoMiddleware_returnsInner. }
  destruct (chain_returnsInner (middleware r) p Hall) as [Hname Hret].
  split; [exact Hname|].
  destruct (Hret _ _ _ _ _ Hc) as (ctx0 & w0 & w1 & Hp).
  eapply (Hst n p Hn). exact Hp.
Qed.

End ProviderNameProperties.

Section RouterExamples.
Import Errors Types Runtime Router Middleware Spec Scenarios.

Lemma claudeRouter_entries n (p : Router.Provider unit unit) :
  providers claudeRouter !! n = Some p ->
  n = "claude" /\ p = Anthropic.asProvider quiet claudeAdapter.
Proof.
  unfold claudeRouter. simpl. intros H.
  apply lookup_insert_Some in H. destruct H as [[<- <-]|[_ H]]; [auto|].
  rewrite lookup_empty in H. discriminate.
Qed.

(** Witness of [resolveProvider_algorithm]: "claude-3-haiku-20240307" is
    neither mapped nor a provider name, and the scan finds the adapter that
    declares it. *)
Lemma resolveProvider_algorithm_witness :
  exists p,
    declaredBy claudeRouter "claude-3-haiku-20240307" p /\
    resolveProvider claudeRouter (map_to_list (providers claudeRouter))
      "claude-3-haiku-20240307" = Ok p.
Proof.
  refine (proj1 (proj2 (proj2 (proj2
            (resolveProvider_algorithm claudeRouter _ "claude-3-haiku-20240307" _))))
            _ _ _ _).
  - unfold visits. reflexivity.
  - apply insert_non_empty.
  - intros p (n & Hm & _). vm_compute in Hm. discriminate.
  - vm_compute. reflexivity.
  - exists (Anthropic.asProvider quiet claudeAdapter), "claude".
    split; [vm_compute; reflexivity|].
    simpl. right. left.
Defined.

(** Witness of [Router_Complete_names_provider]: behind a retry and a timeout
    wrapper the response still carries the adapter's name. *)
Lemma Router_Complete_names_provider_witness :
  exists n p,
    providers guardedClaudeRouter !! n = Some p /\
    resolveProvider guardedClaudeRouter (map_to_list (providers guardedClaudeRouter))
      "claude" = Ok p /\
    Name (buildChain guardedClaudeRouter p) = Name p /\
    rProvider helloResponse = Name p.
Proof.
  apply (Router_Complete_names_provider quiet (fun _ _ => 0) guardedClaudeRouter
           (map_to_list (providers guardedClaudeRouter)) tt (userSays "claude" "hi") tt
           helloResponse tt).
  - simpl. repeat constructor.
  - intros n p H. apply claudeRouter_entries in H. destruct H as [_ ->].
    apply Anthropic_stampsName.
  - unfold visits. reflexivity.
  - vm_compute. reflexivity.
Defined.

(** C2 (as stated) fails.  The Anthropic adapter is registered under the one
    name "claude"; a request for "claude" resolves to it and succeeds, and the
    response says "anthropic", which is not the name it is registered
    under. *)
Lemma Router_Complete_registered_name_differs :
  exists p resp,
    providers claudeRouter !! "claude" = Some p /\
    (forall n q, providers claudeRouter !! n = Some q -> n = "claude") /\
    resolveProvider claudeRouter (map_to_list (providers claudeRouter)) "claude" = Ok p /\
    Router_Complete claudeRouter (map_to_list (providers claudeRouter)) tt
      (userSays "claude" "hi") tt = (Ok resp, tt) /\
    rProvider resp = "anthropic" /\
    rProvider resp <> "claude".
Proof.
  exists (Anthropic.asProvider quiet claudeAdapter), helloResponse.
  split; [vm_compute; reflexivity|].
  split; [intros n q H; apply claudeRouter_entries in H; tauto|].
  split; [vm_compute; reflexivity|].
  split; [vm_compute; reflexivity|].
  split; [reflexivity | discriminate].
Qed.

End RouterExamples.

(* ===================================================================== *)
(** * Properties of middleware/retry.go *)
(* ===================================================================== *)

Section RetryProperties.
Import Errors Types Runtime Router Middleware Spec.
Context {W Ctx : Type}.
Variable rt : Runtime W Ctx.
Variable outOfRange : Z -> Z -> Z.

Lemma float64OfInt_small x : Z.abs x < 2 ^ 53 -> float64OfInt x = x.
Proof.
  intros H. unfold float64OfInt. destruct (Z.ltb_spec (Z.abs x) (2 ^ 53)); [reflexivity | lia].
Qed.

Lemma calculateBackoff_exact (p : @retryProvider W Ctx) a :
  backoffExact (baseDelay (rpConfig p)) a ->
  calculateBackoff outOfRange p a =
    Z.min (baseDelay (rpConfig p) * 2 ^ (a - 1)) (maxDelay (rpConfig p)).
Proof.
  intros ([Hd0 Hd1] & [Ha0 Ha1] & Hfit). unfold calculateBackoff, durationOfScaled.
  rewrite float64OfInt_small by lia.
  destruct (Z.ltb_spec (a - 1) 0); [lia|].
  destruct (Z.ltb_spec 1023 (a - 1)); [lia|].
  assert (0 <= baseDelay (rpConfig p) * 2 ^ (a - 1)) by (apply Z.mul_nonneg_nonneg; lia).
  destruct (Z.leb_spec (- 2 ^ 63) (baseDelay (rpConfig p) * 2 ^ (a - 1))); [|lia].
  destruct (Z.ltb_spec (baseDelay (rpConfig p) * 2 ^ (a - 1)) (2 ^ 63)); [|lia].
  simpl. destruct (Z.ltb_spec (maxDelay (rpConfig p)) (baseDelay (rpConfig p) * 2 ^ (a - 1))); lia.
Qed.

Lemma lastFailure_app start tr1 tr2 :
  lastFailure start (tr1 ++ tr2) = lastFailure (lastFailure start tr1) tr2.
Proof. unfold lastFailure. apply foldl_app. Qed.

Lemma calls_cons_call a f tr : calls (Called a f :: tr) = S (calls tr).
Proof. reflexivity. Qed.

Lemma calls_cons_sleep a d i tr : calls (Slept a d i :: tr) = calls tr.
Proof. reflexivity. Qed.

Lemma calls_nil : calls [] = 0%nat.
Proof. reflexivity. Qed.

Lemma last_cons_Some {X : Type} (x z : X) l : last l = Some z -> last (x :: l) = Some z.
Proof. destruct l; [discriminate | auto]. Qed.

Ltac step_in H :=
  repeat match type of H with
         | _ ∈ _ :: _ => apply elem_of_cons in H; destruct H as [H|H]
         | _ ∈ [] => inversion H
         | _ = _ => try discriminate H
         end.

(** What a run of the loop satisfies, from any attempt number on. *)
Lemma retryLoop_run {A : Type} (p : @retryProvider W Ctx) ctx (call : W -> result A * W) :
  forall remaining attempt lastErr w res w' tr,
    0 <= attempt ->
    retryLoop rt outOfRange p ctx call remaining attempt lastErr w = ((res, w'), tr) ->
    runFrom outOfRange p attempt tr /\
    (calls tr <= remaining)%nat /\
    (uninterrupted tr -> allFailRetryably (retryable (rpConfig p)) tr ->
     calls tr = remaining /\
     res = Fail (Errorf_w_v (Sentinel ErrMaxRetriesExceed) (lastFailure lastErr tr))) /\
    (forall a e, Called a (Some e) ∈ tr -> retryable (rpConfig p) (Some e) = false ->
     res = Fail e /\ last tr = Some (Called a (Some e))) /\
    (forall a d e, Slept a d (Some e) ∈ tr ->
     res = Fail e /\ last tr = Some (Slept a d (Some e))).
Proof.
  induction remaining as [|n IH]; intros attempt lastErr w res w' tr Hatt; simpl.
  - intros [= <- <- <-]. split; [constructor|]. split; [reflexivity|].
    split; [intros _ _; split; reflexivity|].
    split; [intros a e H; inversion H | intros a d e H; inversion H].
  - destruct (Z.ltb_spec 0 attempt) as [Hpos|Hzero].
    + destruct (selectAfter rt ctx _ w) as [[ctxErr|] w1].
      * intros [= <- <- <-].
        split; [constructor; assumption|].
        split; [rewrite calls_cons_sleep, calls_nil; lia|].
        split; [intros Hu; inversion Hu; subst; contradiction|].
        split; [intros a e H; step_in H|].
        intros a d e H. step_in H. injection H as -> -> ->. split; reflexivity.
      * destruct (call w1) as [[resp|err] w2].
        -- intros [= <- <- <-]. simpl.
           split; [constructor; [assumption | constructor]|].
           split; [rewrite calls_cons_sleep, calls_cons_call, calls_nil; lia|].
           split; [intros _ Hf; inversion Hf as [|? ? _ Hf']; inversion Hf'; contradiction|].
           split; [intros a e H; step_in H | intros a d e H; step_in H].
        -- destruct (retryable (rpConfig p) (Some err)) eqn:Hr; simpl.
           ++ destruct (retryLoop _ _ _ _ _ _ _ _ _) as [res' tr'] eqn:Hl.
              intros [= -> <-].
              destruct (IH (attempt + 1) (Some err) w2 res w' tr' ltac:(lia) Hl)
                as (Hrun & Hcalls & Hall & Hnon & Hint).
              split; [constructor; assumption|].
              split; [rewrite calls_cons_sleep, calls_cons_call; lia|].
              split.
              { intros Hu Hf. inversion Hu as [|? ? _ Hu']. inversion Hu' as [|? ? _ Hu''].
                inversion Hf as [|? ? _ Hf']. inversion Hf' as [|? ? _ Hf'']. subst.
                destruct (Hall Hu'' Hf'') as [Hc ->].
                rewrite calls_cons_sleep, calls_cons_call. split; [lia | reflexivity]. }
              split.
              { intros a e H Hne. step_in H.
                - injection H as -> ->. congruence.
                - destruct (Hnon a e H Hne) as [-> Hlast].
                  split; [reflexivity|]. do 2 apply last_cons_Some. exact Hlast. }
              { intros a d e H. step_in H.
                destruct (Hint a d e H) as [-> Hlast].
                split; [reflexivity|]. do 2 apply last_cons_Some. exact Hlast. }
           ++ intros [= <- <- <-].
              split; [constructor; [assumption | constructor]|].
              split; [rewrite calls_cons_sleep, calls_cons_call, calls_nil; lia|].
              split.
              { intros _ Hf. inversion Hf as [|? ? _ Hf']. inversion Hf' as [|? ? Hh _].
                congruence. }
              split.
              { intros a e H _. step_in H. injection H as -> ->. split; reflexivity. }
              { intros a d e H. step_in H. }
    + assert (attempt = 0) by lia. subst attempt.
      destruct (call w) as [[resp|err] w2].
      * intros [= <- <- <-]. simpl.
        split; [constructor; constructor|].
        split; [rewrite calls_cons_call, calls_nil; lia|].
        split; [intros _ Hf; inversion Hf; contradiction|].
        split; [intros a e H; step_in H | intros a d e H; step_in H].
      * destruct (retryable (rpConfig p) (Some err)) eqn:Hr; simpl.
        -- destruct (retryLoop _ _ _ _ _ _ _ _ _) as [res' tr'] eqn:Hl.
           intros [= -> <-].
           destruct (IH (0 + 1) (Some err) w2 res w' tr' ltac:(lia) Hl)
             as (Hrun & Hcalls & Hall & Hnon & Hint).
           split; [constructor; assumption|].
           split; [rewrite calls_cons_call; lia|].
           split.
           { intros Hu Hf. inversion Hu as [|? ? _ Hu'].
             inversion Hf as [|? ? _ Hf']. subst.
             destruct (Hall Hu' Hf') as [Hc ->].
             rewrite calls_cons_call. split; [lia | reflexivity]. }
           split.
           { intros a e H Hne. step_in H.
             - injection H as -> ->. congruence.
             - destruct (Hnon a e H Hne) as [-> Hlast].
               split; [reflexivity|]. apply last_cons_Some. exact Hlast. }
           { intros a d e H. step_in H.
             destruct (Hint a d e H) as [-> Hlast].
             split; [reflexivity|]. apply last_cons_Some. exact Hlast. }
        -- intros [= <- <- <-].
           split; [constructor; constructor|].
           split; [rewrite calls_cons_call, calls_nil; lia|].
           split.
           { intros _ Hf. inversion Hf as [|? ? Hh _]. congruence. }
           split.
           { intros a e H _. step_in H. injection H as -> ->. split; reflexivity. }
           { intros a d e H. step_in H. }
Qed.

(** C6 (as amended).  One [Complete] of the retry wrapper with [N] attempts:
    it calls the wrapped provider at most [max(N, 0)] times; the first
    attempt is made at once and attempt [k >= 2] follows a sleep of
    [calculateBackoff(k - 1)], which is [min(d * 2^(k-2), maxDelay)] as long
    as the float computation is exact; if no sleep is interrupted by the
    context and every call fails with a retryable error, there are exactly
    [N] calls and the result wraps ErrMaxRetriesExceeded with the text of the
    last error; a call that fails with a non-retryable error ends the run
    with that error; a sleep interrupted by the context ends the run with the
    context's error. *)
Theorem retryProvider_Complete_attempts (p : @retryProvider W Ctx) ctx req w res w' tr :
  retryComplete_run rt outOfRange p ctx req w = ((res, w'), tr) ->
  (calls tr <= Z.to_nat (maxAttempts (rpConfig p)))%nat /\
  runFrom outOfRange p 0 tr /\
  (forall k, backoffExact (baseDelay (rpConfig p)) (k - 1) ->
     calculateBackoff outOfRange p (k - 1) =
       Z.min (baseDelay (rpConfig p) * 2 ^ (k - 2)) (maxDelay (rpConfig p))) /\
  (uninterrupted tr -> allFailRetryably (retryable (rpConfig p)) tr ->
     calls tr = Z.to_nat (maxAttempts (rpConfig p)) /\
     res = Fail (Errorf_w_v (Sentinel ErrMaxRetriesExceed) (lastFailure None tr)) /\
     UnwrapsTo (Errorf_w_v (Sentinel ErrMaxRetriesExceed) (lastFailure None tr))
               (Sentinel ErrMaxRetriesExceed)) /\
  (forall a e, Called a (Some e) ∈ tr -> retryable (rpConfig p) (Some e) = false ->
     res = Fail e /\ last tr = Some (Called a (Some e))) /\
  (forall a d e, Slept a d (Some e) ∈ tr ->
     res = Fail e /\ last tr = Some (Slept a d (Some e))).
Proof.
  unfold retryComplete_run. intros H.
  destruct (retryLoop_run p ctx _ _ 0 None w res w' tr ltac:(lia) H)
    as (Hrun & Hcalls & Hall & Hnon & Hint).
  split; [exact Hcalls|]. split; [exact Hrun|].
  split.
  { intros k Hk. rewrite (calculateBackoff_exact p (k - 1) Hk).
    replace (k - 1 - 1) with (k - 2) by lia. reflexivity. }
  split.
  { intros Hu Hf. destruct (Hall Hu Hf) as [Hc Hres].
    split; [exact Hc|]. split; [exact Hres|].
    eapply unwraps_step; [reflexivity | constructor]. }
  split; assumption.
Qed.

(** C10.  With [maxAttempts <= 0] both [Complete] and [Stream] of the retry
    wrapper take no step at all (no call of the wrapped provider, no sleep,
    the world untouched) and return the error that wraps
    ErrMaxRetriesExceeded around a nil last error. *)
Theorem retryProvider_no_attempts (p : @retryProvider W Ctx) ctx req w :
  maxAttempts (rpConfig p) <= 0 ->
  retryComplete_run rt outOfRange p ctx req w =
    ((Fail (Errorf_w_v (Sentinel ErrMaxRetriesExceed) None), w), []) /\
  retryStream_run rt outOfRange p ctx req w =
    ((Fail (Errorf_w_v (Sentinel ErrMaxRetriesExceed) None), w), []) /\
  retryProvider_Complete rt outOfRange p ctx req w =
    (Fail (Errorf_w_v (Sentinel ErrMaxRetriesExceed) None), w) /\
  retryProvider_Stream rt outOfRange p ctx req w =
    (Fail (Errorf_w_v (Sentinel ErrMaxRetriesExceed) None), w) /\
  UnwrapsTo (Errorf_w_v (Sentinel ErrMaxRetriesExceed) None) (Sentinel ErrMaxRetriesExceed) /\
  errorText (Errorf_w_v (Sentinel ErrMaxRetriesExceed) None) = "max retries exceeded: <nil>".
Proof.
  intros Hn.
  assert (Hz : Z.to_nat (maxAttempts (rpConfig p)) = 0%nat) by lia.
  unfold retryProvider_Complete, retryProvider_Stream, retryComplete_run, retryStream_run.
  rewrite Hz. simpl.
  repeat split; try reflexivity.
  eapply unwraps_step; [reflexivity | constructor].
Qed.

End RetryProperties.

Section RetryExamples.
Import Errors Types Runtime Router Middleware Spec Scenarios.

(** [float64] keeps 53 bits: ties go to the even significand. *)
Example float64OfInt_rounds :
  float64OfInt 1000000000 = 1000000000 /\
  float64OfInt (2 ^ 53 + 1) = 2 ^ 53 /\
  float64OfInt (2 ^ 53 + 3) = 2 ^ 53 + 4 /\
  float64OfInt (2 ^ 54 + 6) = 2 ^ 54 + 8 /\
  float64OfInt (- (2 ^ 53 + 1)) = - 2 ^ 53.
Proof. repeat split; vm_compute; reflexivity. Qed.

(** The delays of [NewRetryMiddleware(_, time.Second)]: 1 s, 2 s, 4 s, ...,
    capped at 30 s. *)
Example calculateBackoff_doubles :
  map (calculateBackoff amd64OutOfRange (retry3 quiet)) [1; 2; 3; 4; 5; 6; 7] =
    [1000000000; 2000000000; 4000000000; 8000000000; 16000000000;
     30000000000; 30000000000].
Proof. vm_compute. reflexivity. Qed.

(** B4: three attempts against a backend that always answers 429. *)
Example retry3_always_429 :
  retryComplete_run quiet amd64OutOfRange (retry3 quiet) tt (userSays "" "hi") tt =
    ((Fail (Errorf_w_v (Sentinel ErrMaxRetriesExceed) (Some limited429)), tt),
     [Called 0 (Some limited429);
      Slept 1 1000000000 None; Called 1 (Some limited429);
      Slept 2 2000000000 None; Called 2 (Some limited429)]).
Proof. vm_compute. reflexivity. Qed.

(** Witness of [retryProvider_Complete_attempts]: that same run. *)
Lemma retryProvider_Complete_attempts_witness :
  calls (snd (retryComplete_run quiet amd64OutOfRange (retry3 quiet) tt (userSays "" "hi") tt))
    = 3%nat /\
  fst (fst (retryComplete_run quiet amd64OutOfRange (retry3 quiet) tt (userSays "" "hi") tt))
    = Fail (Errorf_w_v (Sentinel ErrMaxRetriesExceed) (Some limited429)).
Proof.
  destruct (retryProvider_Complete_attempts quiet amd64OutOfRange (retry3 quiet) tt
              (userSays "" "hi") tt _ _ _ retry3_always_429)
    as (_ & _ & _ & Hall & _).
  destruct Hall as (Hc & Hres & _).
  - repeat constructor.
  - repeat constructor.
  - rewrite retry3_always_429. split; [exact Hc | exact Hres].
Defined.

(** Witness of [retryProvider_no_attempts]: [NewRetryMiddleware(0, ...)]. *)
Lemma retryProvider_no_attempts_witness :
  retryProvider_Complete quiet amd64OutOfRange retry0 tt (userSays "" "hi") tt =
    (Fail (Errorf_w_v (Sentinel ErrMaxRetriesExceed) None), tt) /\
  retryProvider_Stream quiet amd64OutOfRange retry0 tt (userSays "" "hi") tt =
    (Fail (Errorf_w_v (Sentinel ErrMaxRetriesExceed) None), tt).
Proof.
  destruct (retryProvider_no_attempts quiet amd64OutOfRange retry0 tt (userSays "" "hi") tt)
    as (_ & _ & Hc & Hs & _).
  - simpl. lia.
  - split; [exact Hc | exact Hs].
Defined.

(** C6 (as stated) fails.  With three attempts configured and a backend that
    always answers 429, a context cancelled during the first sleep ends the
    run after one call: every attempt made has failed with a retryable error,
    yet there are not three attempts and the result is the context's error,
    which does not wrap ErrMaxRetriesExceeded.  And with a base delay of
    2^53 + 1 ns under a cap of 2^62 ns the sleep before the second attempt is
    2^53 ns, not min(d * 2^0, maxDelay). *)
Lemma retryProvider_Complete_cancelled_sleep :
  (exists tr res,
     retryComplete_run cancelling amd64OutOfRange (retry3 cancelling) tt
       (userSays "" "hi") tt = ((res, tt), tr) /\
     allFailRetryably IsRetryable tr /\
     calls tr = 1%nat /\
     calls tr <> Z.to_nat 3 /\
     res = Fail contextCanceled /\
     ~ UnwrapsTo contextCanceled (Sentinel ErrMaxRetriesExceed)) /\
  (calculateBackoff amd64OutOfRange retryLongDelay 1 = 2 ^ 53 /\
   calculateBackoff amd64OutOfRange retryLongDelay 1 <>
     Z.min ((2 ^ 53 + 1) * 2 ^ (2 - 2)) (2 ^ 62)).
Proof.
  split.
  - exists [Called 0 (Some limited429); Slept 1 1000000000 (Some contextCanceled)],
           (Fail contextCanceled).
    split; [vm_compute; reflexivity|].
    split; [repeat constructor|].
    split; [reflexivity|].
    split; [vm_compute; lia|].
    split; [reflexivity|].
    intros H. apply unwraps_of_leaf in H; [discriminate | reflexivity].
  - split; [vm_compute; reflexivity | vm_compute; discriminate].
Qed.

End RetryExamples.

(* ===================================================================== *)
(** * Properties of the streams of the adapters *)
(* ===================================================================== *)

Section StreamProperties.
Import Errors Types Runtime Spec.
Context {W Ctx : Type}.
Variable rt : Runtime W Ctx.

Lemma append_empty_r (s : string) : s +:+ "" = s.
Proof.
  induction s as [|c s IH]; [reflexivity|].
  change (String c s +:+ "") with (String c (s +:+ "")). rewrite IH. reflexivity.
Qed.

Lemma append_assoc (s1 s2 s3 : string) : (s1 +:+ s2) +:+ s3 = s1 +:+ (s2 +:+ s3).
Proof.
  induction s1 as [|c s1 IH]; [reflexivity|].
  change ((String c s1 +:+ s2) +:+ s3) with (String c ((s1 +:+ s2) +:+ s3)).
  rewrite IH. reflexivity.
Qed.

Lemma concatAll_app l1 l2 : concatAll (l1 ++ l2) = concatAll l1 +:+ concatAll l2.
Proof.
  induction l1 as [|s l1 IH]; [reflexivity|].
  change (concatAll ((s :: l1) ++ l2)) with (s +:+ concatAll (l1 ++ l2)).
  change (concatAll (s :: l1)) with (s +:+ concatAll l1).
  rewrite IH, append_assoc. reflexivity.
Qed.

Lemma contentDeltas_app evs1 evs2 :
  contentDeltas (evs1 ++ evs2) = contentDeltas evs1 ++ contentDeltas evs2.
Proof. unfold contentDeltas. rewrite filter_app, map_app. reflexivity. Qed.

Lemma contentDeltas_cons_content e evs :
  evType e = EventContentDelta -> contentDeltas (e :: evs) = evContent e :: contentDeltas evs.
Proof. intros H. unfold contentDeltas. rewrite filter_cons_True by exact H. reflexivity. Qed.

Lemma contentDeltas_cons_other e evs :
  evType e <> EventContentDelta -> contentDeltas (e :: evs) = contentDeltas evs.
Proof. intros H. unfold contentDeltas. rewrite filter_cons_False by exact H. reflexivity. Qed.

Lemma terminals_app evs1 evs2 : terminals (evs1 ++ evs2) = (terminals evs1 + terminals evs2)%nat.
Proof. unfold terminals. rewrite filter_app, length_app. reflexivity. Qed.

Lemma terminals_none evs :
  Forall (fun e => isTerminal e = false) evs -> terminals evs = 0%nat.
Proof.
  induction 1 as [|e evs He _ IH]; [reflexivity|].
  unfold terminals in *. rewrite filter_cons_False by congruence. exact IH.
Qed.

(** A stream made of non-terminal events followed by one terminal event. *)
Lemma wellTerminated_snoc evs e :
  Forall (fun e => isTerminal e = false) evs -> isTerminal e = true ->
  wellTerminated (evs ++ [e]).
Proof.
  intros Hn He. split.
  - rewrite terminals_app, (terminals_none evs Hn). unfold terminals.
    rewrite filter_cons_True by exact He. reflexivity.
  - exists e. split; [apply last_snoc | exact He].
Qed.

(** ** Anthropic *)

Lemma Anthropic_streamStep_content st ev st' sent :
  Anthropic.streamStep st ev = (st', sent) ->
  Anthropic.fullContent st' = Anthropic.fullContent st +:+ concatAll (contentDeltas sent) /\
  Forall (fun e => isTerminal e = false) sent.
Proof.
  destruct ev as [id inTok|[|id name|]|[text|partial|]| |reason outTok|]; simpl.
  - intros [= <- <-]. split; [|constructor].
    destruct (negb _), (0 <? inTok); simpl; rewrite append_empty_r; reflexivity.
  - intros [= <- <-]. split; [rewrite append_empty_r; reflexivity | constructor].
  - intros [= <- <-]. split; [simpl; rewrite append_empty_r; reflexivity | constructor].
  - intros [= <- <-]. split; [rewrite append_empty_r; reflexivity | constructor].
  - intros [= <- <-]. split; [|repeat constructor].
    rewrite contentDeltas_cons_content by reflexivity. simpl.
    change (concatAll [text]) with (text +:+ ""). rewrite append_empty_r. reflexivity.
  - intros [= <- <-]. split; [|repeat constructor].
    rewrite contentDeltas_cons_other by discriminate. simpl.
    rewrite append_empty_r. reflexivity.
  - intros [= <- <-]. split; [rewrite append_empty_r; reflexivity | constructor].
  - destruct (negb _ && negb _); intros [= <- <-]; (split; [|constructor]);
      simpl; rewrite append_empty_r; reflexivity.
  - intros [= <- <-]. split; [|constructor].
    destruct (negb _), (0 <? outTok); simpl; rewrite append_empty_r; reflexivity.
  - intros [= <- <-]. split; [rewrite append_empty_r; reflexivity | constructor].
Qed.

Lemma Anthropic_streamLoop_content events :
  forall st st' sent,
    Anthropic.streamLoop events st = (st', sent) ->
    Anthropic.fullContent st' = Anthropic.fullContent st +:+ concatAll (contentDeltas sent) /\
    Forall (fun e => isTerminal e = false) sent.
Proof.
  induction events as [|ev rest IH]; intros st st' sent; simpl.
  - intros [= <- <-]. split; [rewrite append_empty_r; reflexivity | constructor].
  - destruct (Anthropic.streamStep st ev) as [st1 sent1] eqn:H1.
    destruct (Anthropic.streamLoop rest st1) as [st2 sent2] eqn:H2.
    intros [= <- <-].
    destruct (Anthropic_streamStep_content _ _ _ _ H1) as [Hc1 Hn1].
    destruct (IH _ _ _ H2) as [Hc2 Hn2].
    split; [|apply Forall_app; split; assumption].
    rewrite Hc2, Hc1, contentDeltas_app, concatAll_app, append_assoc. reflexivity.
Qed.

(** ** Gemini *)

Lemma Gemini_streamParts_content parts :
  forall fc tcs fc' tcs' sent,
    Gemini.streamParts parts fc tcs = (fc', tcs', sent) ->
    fc' = fc +:+ concatAll (contentDeltas sent) /\
    Forall (fun e => isTerminal e = false) sent.
Proof.
  induction parts as [|[text|name args|] rest IH]; intros fc tcs fc' tcs' sent; simpl.
  - intros [= <- <- <-]. split; [rewrite append_empty_r; reflexivity | constructor].
  - destruct (Gemini.streamParts rest _ _) as [[fc1 tcs1] sent1] eqn:H1.
    intros [= <- <- <-]. destruct (IH _ _ _ _ _ H1) as [Hc Hn].
    split; [|constructor; [reflexivity | exact Hn]].
    rewrite contentDeltas_cons_content by reflexivity. simpl.
    change (concatAll (text :: contentDeltas sent1))
      with (text +:+ concatAll (contentDeltas sent1)).
    rewrite Hc, append_assoc. reflexivity.
  - destruct (Gemini.streamParts rest _ _) as [[fc1 tcs1] sent1] eqn:H1.
    intros [= <- <- <-]. destruct (IH _ _ _ _ _ H1) as [Hc Hn].
    split; [|constructor; [reflexivity | exact Hn]].
    rewrite contentDeltas_cons_other by discriminate. exact Hc.
  - intros H. exact (IH _ _ _ _ _ H).
Qed.

Lemma Gemini_streamCandidates_content cands :
  forall fc tcs fc' tcs' sent,
    Gemini.streamCandidates cands fc tcs = (fc', tcs', sent) ->
    fc' = fc +:+ concatAll (contentDeltas sent) /\
    Forall (fun e => isTerminal e = false) sent.
Proof.
  induction cands as [|[[parts|] fr] rest IH]; intros fc tcs fc' tcs' sent; simpl.
  - intros [= <- <- <-]. split; [rewrite append_empty_r; reflexivity | constructor].
  - destruct (Gemini.streamParts parts fc tcs) as [[fc1 tcs1] sent1] eqn:H1.
    destruct (Gemini.streamCandidates rest fc1 tcs1) as [[fc2 tcs2] sent2] eqn:H2.
    intros [= <- <- <-].
    destruct (Gemini_streamParts_content _ _ _ _ _ _ H1) as [Hc1 Hn1].
    destruct (IH _ _ _ _ _ H2) as [Hc2 Hn2].
    split; [|apply Forall_app; split; assumption].
    rewrite Hc2, Hc1, contentDeltas_app, concatAll_app, append_assoc. reflexivity.
  - intros H. exact (IH _ _ _ _ _ H).
Qed.

Lemma Gemini_streamResponses_content resps :
  forall fc tcs fc' tcs' sent,
    Gemini.streamResponses resps fc tcs = (fc', tcs', sent) ->
    fc' = fc +:+ concatAll (contentDeltas sent) /\
    Forall (fun e => isTerminal e = false) sent.
Proof.
  induction resps as [|resp rest IH]; intros fc tcs fc' tcs' sent; simpl.
  - intros [= <- <- <-]. split; [rewrite append_empty_r; reflexivity | constructor].
  - destruct (Gemini.streamCandidates _ fc tcs) as [[fc1 tcs1] sent1] eqn:H1.
    destruct (Gemini.streamResponses rest fc1 tcs1) as [[fc2 tcs2] sent2] eqn:H2.
    intros [= <- <- <-].
    destruct (Gemini_streamCandidates_content _ _ _ _ _ _ H1) as [Hc1 Hn1].
    destruct (IH _ _ _ _ _ H2) as [Hc2 Hn2].
    split; [|apply Forall_app; split; assumption].
    rewrite Hc2, Hc1, contentDeltas_app, concatAll_app, append_assoc. reflexivity.
Qed.

(** ** What the goroutines send *)

Lemma Anthropic_streamEvents_done (a : @Anthropic.Provider W Ctx) model created events :
  exists sent st,
    Anthropic.streamEvents a model created events None =
      sent ++ [Anthropic.doneEvent (Anthropic.finalResponse a model created st)] /\
    Anthropic.fullContent st = concatAll (contentDeltas sent) /\
    Forall (fun e => isTerminal e = false) sent.
Proof.
  unfold Anthropic.streamEvents.
  destruct (Anthropic.streamLoop events Anthropic.initialState) as [st sent] eqn:Hl.
  destruct (Anthropic_streamLoop_content _ _ _ _ Hl) as [Hc Hn].
  exists sent, st. split; [reflexivity|]. split; [exact Hc | exact Hn].
Qed.

Lemma Gemini_streamEvents_done (g : @Gemini.Provider W Ctx) modelName created resps :
  exists sent fc tcs,
    Gemini.streamEvents g modelName created resps None =
      sent ++ [Gemini.doneEvent (Gemini.finalResponse g modelName created fc tcs)] /\
    fc = concatAll (contentDeltas sent) /\
    Forall (fun e => isTerminal e = false) sent.
Proof.
  unfold Gemini.streamEvents.
  destruct (Gemini.streamResponses resps "" []) as [[fc tcs] sent] eqn:Hl.
  destruct (Gemini_streamResponses_content _ _ _ _ _ _ Hl) as [Hc Hn].
  exists sent, fc, tcs. split; [reflexivity|]. split; [exact Hc | exact Hn].
Qed.

Lemma contentDeltas_snoc_done sent e :
  evType e = EventDone -> contentDeltas (sent ++ [e]) = contentDeltas sent.
Proof.
  intros H. rewrite contentDeltas_app, contentDeltas_cons_other by congruence.
  apply app_nil_r.
Qed.

(** C3.  A stream of the Anthropic adapter, and one of the Gemini adapter,
    whose backend sequence ends without error: the last event is a Done
    event, and the content of the assistant message it carries is the
    concatenation, in order, of the contents of the ContentDelta events of
    the stream. *)
Theorem Stream_content_concatenation :
  (forall (a : @Anthropic.Provider W Ctx) ctx req w out w',
     Anthropic.Stream rt a ctx req w = (Ok out, w') ->
     snd (fst (Anthropic.MessagesNewStreaming (Anthropic.client a) ctx
                 (Anthropic.buildParams a req) w)) = None ->
     exists done,
       last out = Some done /\ evType done = EventDone /\
       doneContent done = Some (concatAll (contentDeltas out))) /\
  (forall (g : @Gemini.Provider W Ctx) ctx req w out w',
     Gemini.Stream rt g ctx req w = (Ok out, w') ->
     snd (fst (Gemini.SendMessageStream (Gemini.client g) ctx
                 (Gemini.modelNameOf g req) req w)) = None ->
     exists done,
       last out = Some done /\ evType done = EventDone /\
       doneContent done = Some (concatAll (contentDeltas out))).
Proof.
  split.
  - intros a ctx req w out w'. unfold Anthropic.Stream.
    destruct (Anthropic.MessagesNewStreaming _ _ _ _) as [[events streamErr] w1].
    simpl. intros [= <- <-] ->.
    match goal with
    | |- context [Anthropic.streamEvents a ?m ?c events None] =>
        destruct (Anthropic_streamEvents_done a m c events) as (sent & st & -> & Hc & _)
    end.
    eexists. split; [apply last_snoc|]. split; [reflexivity|].
    rewrite contentDeltas_snoc_done by reflexivity. rewrite <- Hc. reflexivity.
  - intros g ctx req w out w'. unfold Gemini.Stream.
    destruct (Gemini.SendMessageStream _ _ _ _ _) as [[resps iterErr] w1].
    simpl. intros [= <- <-] ->.
    match goal with
    | |- context [Gemini.streamEvents g ?m ?c resps None] =>
        destruct (Gemini_streamEvents_done g m c resps) as (sent & fc & tcs & -> & Hc & _)
    end.
    eexists. split; [apply last_snoc|]. split; [reflexivity|].
    rewrite contentDeltas_snoc_done by reflexivity. rewrite <- Hc. reflexivity.
Qed.

(** The adapters on their own keep the terminator discipline: whatever the
    backend yields, the goroutine sends exactly one terminal event, last. *)
Lemma adapter_streams_wellTerminated :
  (forall (a : @Anthropic.Provider W Ctx) model created events streamErr,
     wellTerminated (Anthropic.streamEvents a model created events streamErr)) /\
  (forall (g : @Gemini.Provider W Ctx) modelName created resps iterErr,
     wellTerminated (Gemini.streamEvents g modelName created resps iterErr)).
Proof.
  split.
  - intros a model created events streamErr. unfold Anthropic.streamEvents.
    destruct (Anthropic.streamLoop events Anthropic.initialState) as [st sent] eqn:Hl.
    destruct (Anthropic_streamLoop_content _ _ _ _ Hl) as [_ Hn].
    destruct streamErr; apply wellTerminated_snoc; auto.
  - intros g modelName created resps iterErr. unfold Gemini.streamEvents.
    destruct (Gemini.streamResponses resps "" []) as [[fc tcs] sent] eqn:Hl.
    destruct (Gemini_streamResponses_content _ _ _ _ _ _ Hl) as [_ Hn].
    destruct iterErr; apply wellTerminated_snoc; auto.
Qed.

End StreamProperties.

Section StreamExamples.
Import Errors Types Runtime Router Middleware Spec Scenarios.

(** Scenario 3 of the specification: the deltas "he", "llo", then Done. *)
Example spellingAdapter_stream :
  Anthropic.Stream quiet spellingAdapter tt (userSays "" "hi") tt = (Ok spelledStream, tt).
Proof. vm_compute. reflexivity. Qed.

(** Witness of [Stream_content_concatenation], on that stream. *)
Lemma Stream_content_concatenation_witness :
  exists done,
    last spelledStream = Some done /\ evType done = EventDone /\
    doneContent done = Some (concatAll (contentDeltas spelledStream)).
Proof.
  apply (proj1 (Stream_content_concatenation quiet) spellingAdapter tt (userSays "" "hi") tt
           spelledStream tt).
  - exact spellingAdapter_stream.
  - reflexivity.
Defined.

(** C4, at the timeout wrapper.  (1) The Gemini backend streams "hi" and ends
    normally; the wrapper forwards the ContentDelta and the Done event, and
    the deadline passes before it sees the inner channel closed: its next
    [select] takes [ctx.Done()] and an Error event follows the Done event.
    (2) The deadline cuts the backend stream, the adapter sends its Error
    event, the wrapper forwards it, and its next [select] takes [ctx.Done()]:
    two Error events.  Either stream has two terminal events. *)
Theorem timeoutProvider_Stream_two_terminals :
  (timeoutProvider_Stream scheduled (timed hiGemini) tt (userSays "" "hi")
     [None; None; None; None; Some deadlineExceeded]
   = (Ok [Gemini.contentDeltaEvent "hi"; hiDone; ctxErrorEvent deadlineExceeded], [])) /\
  terminals [Gemini.contentDeltaEvent "hi"; hiDone; ctxErrorEvent deadlineExceeded] = 2%nat /\
  ~ wellTerminated [Gemini.contentDeltaEvent "hi"; hiDone; ctxErrorEvent deadlineExceeded] /\
  (timeoutProvider_Stream scheduled (timed expiredGemini) tt (userSays "" "hi")
     [None; None; Some deadlineExceeded]
   = (Ok [Gemini.errorEvent (Gemini.wrapError "context deadline exceeded");
          ctxErrorEvent deadlineExceeded], [])) /\
  terminals [Gemini.errorEvent (Gemini.wrapError "context deadline exceeded");
             ctxErrorEvent deadlineExceeded] = 2%nat.
Proof.
  split; [vm_compute; reflexivity|].
  split; [vm_compute; reflexivity|].
  split; [intros [H _]; vm_compute in H; discriminate|].
  split; vm_compute; reflexivity.
Qed.

(** Without a deadline in sight the wrapper forwards the inner stream as it
    is. *)
Example timeoutProvider_Stream_in_time :
  timeoutProvider_Stream scheduled (timed hiGemini) tt (userSays "" "hi") []
  = (Ok [Gemini.contentDeltaEvent "hi"; hiDone], []).
Proof. vm_compute. reflexivity. Qed.

End StreamExamples.

(* ===================================================================== *)
(** * Properties of the conversions *)
(* ===================================================================== *)

Section ConversionProperties.
Import Errors Types Runtime Spec.
Context {W Ctx : Type}.

Lemma wrap64_in_range z : - 2 ^ 63 <= z < 2 ^ 63 -> wrap64 z = z.
Proof. intros H. unfold wrap64. rewrite Z.mod_small by lia. lia. Qed.

Lemma nonempty_length {X : Type} (l : list X) : l <> [] -> (0 <? length l)%nat = true.
Proof. destruct l; [congruence | reflexivity]. Qed.

(** C5 (as amended).  In the Gemini adapter, for [convertResponse] and for
    the response of the Done event of a stream, an assistant message with at
    least one tool call has finish reason "tool_calls", whatever the backend
    reported.  In the Anthropic adapter, for [convertToOpenAIResponse] and
    for the response of the Done event, the finish reason follows the native
    stop reason alone: it is "tool_calls" exactly when the stop reason is
    "tool_use". *)
Theorem finish_reason_of_tool_calls :
  (forall resp model provider created m fr,
     firstChoice (Gemini.convertResponse resp model provider created) = Some (m, fr) ->
     msgToolCalls m <> [] -> fr = "tool_calls") /\
  (forall (g : @Gemini.Provider W Ctx) modelName created fullContent toolCalls m fr,
     firstChoice (Gemini.finalResponse g modelName created fullContent toolCalls)
       = Some (m, fr) ->
     msgToolCalls m <> [] -> fr = "tool_calls") /\
  (forall msg provider m fr,
     firstChoice (Anthropic.convertToOpenAIResponse msg provider) = Some (m, fr) ->
     (fr = "tool_calls" <-> Anthropic.mStopReason msg = "tool_use")) /\
  (forall (a : @Anthropic.Provider W Ctx) model created st m fr,
     firstChoice (Anthropic.finalResponse a model created st) = Some (m, fr) ->
     (fr = "tool_calls" <-> Anthropic.stopReason st = "tool_use")).
Proof.
  split; [|split; [|split]].
  - intros resp model provider created m fr. unfold Gemini.convertResponse.
    destruct (match Gemini.Candidates resp with
              | [] => _
              | c :: _ => _
              end) as [content toolCalls].
    simpl. intros [= <- <-]. simpl. intros Hne.
    rewrite (nonempty_length _ Hne). reflexivity.
  - intros g modelName created fullContent toolCalls m fr. simpl.
    intros [= <- <-]. simpl. intros Hne.
    rewrite (nonempty_length _ Hne). reflexivity.
  - intros msg provider m fr. unfold Anthropic.convertToOpenAIResponse.
    destruct (Anthropic.collectBlocks _ _ _) as [content toolCalls].
    simpl. intros [= <- <-].
    destruct (String.eqb_spec (Anthropic.mStopReason msg) "tool_use") as [->|Hne].
    + split; reflexivity.
    + destruct (String.eqb (Anthropic.mStopReason msg) "max_tokens");
        [|destruct (String.eqb (Anthropic.mStopReason msg) "stop_sequence")];
        (split; [discriminate | contradiction]).
  - intros a model created st m fr. simpl. intros [= <- <-].
    destruct (String.eqb_spec (Anthropic.stopReason st) "tool_use") as [->|Hne].
    + split; reflexivity.
    + destruct (String.eqb (Anthropic.stopReason st) "max_tokens");
        (split; [discriminate | contradiction]).
Qed.

(** C9 (as amended).  [convertToOpenAIResponse] (Anthropic) always attaches a
    usage record: prompt and completion tokens are the message's input and
    output tokens and the total is their [int64] sum, which is the exact sum
    when it does not overflow.  [convertResponse] (Gemini) attaches no usage
    when the backend reports none, and otherwise copies the three counts the
    backend reports, the total included. *)
Theorem usage_of_converted_response :
  (forall msg provider,
     exists u,
       rUsage (Anthropic.convertToOpenAIResponse msg provider) = Some u /\
       PromptTokens u = Anthropic.InputTokens (Anthropic.mUsage msg) /\
       CompletionTokens u = Anthropic.OutputTokens (Anthropic.mUsage msg) /\
       TotalTokens u = wrap64 (PromptTokens u + CompletionTokens u) /\
       (- 2 ^ 63 <= PromptTokens u + CompletionTokens u < 2 ^ 63 ->
        TotalTokens u = PromptTokens u + CompletionTokens u)) /\
  (forall resp model provider created,
     (Gemini.gUsageMetadata resp = None ->
      rUsage (Gemini.convertResponse resp model provider created) = None) /\
     (forall um, Gemini.gUsageMetadata resp = Some um ->
      rUsage (Gemini.convertResponse resp model provider created) =
        Some {| PromptTokens := Gemini.PromptTokenCount um;
                CompletionTokens := Gemini.CandidatesTokenCount um;
                TotalTokens := Gemini.TotalTokenCount um |})).
Proof.
  split.
  - intros msg provider. unfold Anthropic.convertToOpenAIResponse.
    destruct (Anthropic.collectBlocks _ _ _) as [content toolCalls]. simpl.
    eexists. split; [reflexivity|]. simpl.
    split; [reflexivity|]. split; [reflexivity|]. split; [reflexivity|].
    apply wrap64_in_range.
  - intros resp model provider created. unfold Gemini.convertResponse.
    destruct (match Gemini.Candidates resp with
              | [] => _
              | c :: _ => _
              end) as [content toolCalls].
    simpl. split.
    + intros ->. reflexivity.
    + intros um ->. reflexivity.
Qed.

(** Where the adapters put their default model: the Anthropic adapter for an
    empty model and for its own name, the Gemini adapter for an empty model. *)
Lemma default_model_substitution :
  (forall (a : @Anthropic.Provider W Ctx) req,
     reqModel req = "" \/ reqModel req = Anthropic.Name a ->
     Anthropic.pModel (Anthropic.buildParams a req) = Anthropic.model a) /\
  (forall (g : @Gemini.Provider W Ctx) req,
     reqModel req = "" -> Gemini.modelNameOf g req = Gemini.model g).
Proof.
  split.
  - intros a req [H|H]; unfold Anthropic.buildParams; simpl; rewrite H; reflexivity.
  - intros g req H. unfold Gemini.modelNameOf. rewrite H. reflexivity.
Qed.

End ConversionProperties.

Section ConversionExamples.
Import Errors Types Runtime Router Spec Scenarios.

(** Witness of [finish_reason_of_tool_calls]: a Gemini response with a
    function call and native finish reason STOP. *)
Lemma finish_reason_of_tool_calls_witness :
  exists m fr,
    firstChoice
      (Gemini.convertResponse
         {| Gemini.Candidates :=
              [ {| Gemini.cContent := Some [Gemini.FunctionCall "get_weather" None];
                   Gemini.cFinishReason := Gemini.FinishReasonStop |} ];
            Gemini.gUsageMetadata := None |}
         "gemini-1.5-flash" "gemini" 1700000000) = Some (m, fr) /\
    length (msgToolCalls m) = 1%nat /\
    fr = "tool_calls".
Proof.
  eexists. eexists. split; [vm_compute; reflexivity|]. split; [reflexivity|].
  eapply (proj1 (@finish_reason_of_tool_calls unit unit)
            {| Gemini.Candidates :=
                 [ {| Gemini.cContent := Some [Gemini.FunctionCall "get_weather" None];
                      Gemini.cFinishReason := Gemini.FinishReasonStop |} ];
               Gemini.gUsageMetadata := None |}
            "gemini-1.5-flash" "gemini" 1700000000).
  - vm_compute. reflexivity.
  - discriminate.
Defined.

(** C5 (as stated) fails.  An Anthropic message with a tool-use block and
    stop reason "max_tokens" converts to an assistant message with one tool
    call and finish reason "length"; the same backend answer, streamed, ends
    in a Done event with one tool call and finish reason "length". *)
Lemma Anthropic_tool_call_with_length :
  (exists m,
     firstChoice (Anthropic.convertToOpenAIResponse truncatedToolUse "anthropic")
       = Some (m, "length") /\
     length (msgToolCalls m) = 1%nat) /\
  (exists resp m,
     last (Anthropic.streamEvents spellingAdapter "claude-sonnet-4-20250514" 1700000000
             [Anthropic.ContentBlockStartEvent (Anthropic.StartToolUse "t1" "get_weather");
              Anthropic.ContentBlockDeltaEvent (Anthropic.InputJSONDelta "{}");
              Anthropic.ContentBlockStopEvent;
              Anthropic.MessageDeltaEvent "max_tokens" 16] None)
       = Some (Anthropic.doneEvent resp) /\
     firstChoice resp = Some (m, "length") /\
     length (msgToolCalls m) = 1%nat) /\
  "length" <> "tool_calls".
Proof.
  split; [|split].
  - eexists. split; vm_compute; reflexivity.
  - eexists. eexists. split; [vm_compute; reflexivity|]. split; vm_compute; reflexivity.
  - discriminate.
Qed.

(** Witness of [usage_of_converted_response]: the usage of [helloMessage]. *)
Lemma usage_of_converted_response_witness :
  exists u,
    rUsage (Anthropic.convertToOpenAIResponse helloMessage "anthropic") = Some u /\
    TotalTokens u = PromptTokens u + CompletionTokens u.
Proof.
  destruct (proj1 usage_of_converted_response helloMessage "anthropic")
    as (u & Hu & Hp & Hc & _ & Hsum).
  exists u. split; [exact Hu|]. apply Hsum. rewrite Hp, Hc. simpl. lia.
Defined.

(** C9 (as stated) fails.  The Gemini backend reports 10 prompt tokens, 5
    candidate tokens and a total of 40; the converted response has a usage
    record whose total is 40, not 10 + 5. *)
Lemma Gemini_total_is_copied :
  exists u,
    rUsage (Gemini.convertResponse thoughtfulResponse "gemini-1.5-flash" "gemini" 1700000000)
      = Some u /\
    PromptTokens u = 10 /\ CompletionTokens u = 5 /\ TotalTokens u = 40 /\
    TotalTokens u <> PromptTokens u + CompletionTokens u.
Proof.
  eexists. split; [vm_compute; reflexivity|]. simpl.
  repeat split; try reflexivity. discriminate.
Qed.

(** C8, at the Gemini adapter.  A request whose model is the provider's name
    "gemini" is resolved by the router to the Gemini adapter, and the backend
    is asked for the model "gemini", not for the default "gemini-1.5-flash",
    by [Complete] and by [Stream] alike.  The Anthropic adapter, given its
    own name, asks for its default model. *)
Theorem Gemini_sends_its_name_as_model :
  snd (Router_Complete geminiRouter (map_to_list (providers geminiRouter)) tt
         (userSays "gemini" "hi") []) = ["gemini"] /\
  snd (Gemini.Complete logging loggingGemini tt (userSays "gemini" "hi") []) = ["gemini"] /\
  snd (Gemini.Stream logging loggingGemini tt (userSays "gemini" "hi") []) = ["gemini"] /\
  Gemini.model loggingGemini = "gemini-1.5-flash" /\
  snd (Anthropic.Complete loggingAnthropic tt (userSays "anthropic" "hi") [])
    = ["claude-sonnet-4-20250514"].
Proof. repeat split; vm_compute; reflexivity. Qed.

End ConversionExamples.

(* ===================================================================== *)
(** * Properties of middleware/timeout.go *)
(* ===================================================================== *)

Section TimeoutProperties.
Import Errors Types Runtime Router Middleware Spec.
Context {W Ctx : Type}.
Variable rt : Runtime W Ctx.

(** What the forwarding goroutine sends is a prefix of the inner stream,
    followed by at most one Error event of its own. *)
Lemma forward_prefix ctx (ch : list Event) :
  forall w, exists n,
    fst (forward rt ctx ch w) = take n ch \/
    exists ctxErr, fst (forward rt ctx ch w) = take n ch ++ [ctxErrorEvent ctxErr].
Proof.
  induction ch as [|event ch IH]; intros w; simpl.
  - destruct (selectDone rt ctx w) as [[ctxErr|] w1]; exists 0%nat; simpl; eauto.
  - destruct (selectDone rt ctx w) as [[ctxErr|] w1]; [exists 0%nat; simpl; eauto|].
    destruct (selectDone rt ctx w1) as [[ctxErr|] w2]; [exists 0%nat; simpl; eauto|].
    destruct (IH w2) as [n Hn].
    destruct (forward rt ctx ch w2) as [out w3]. simpl in *.
    exists (S n). simpl. destruct Hn as [->|[ctxErr ->]]; eauto.
Qed.

(** While no [select] takes the [ctx.Done()] case, the inner stream passes
    through unchanged. *)
Lemma forward_undisturbed ctx (ch : list Event) :
  (forall w, fst (selectDone rt ctx w) = None) ->
  forall w, fst (forward rt ctx ch w) = ch.
Proof.
  intros Hq. induction ch as [|event ch IH]; intros w; simpl.
  - specialize (Hq w). destruct (selectDone rt ctx w) as [d w1]. simpl in Hq. subst d.
    reflexivity.
  - pose proof (Hq w) as H1. destruct (selectDone rt ctx w) as [d1 w1].
    simpl in H1. subst d1.
    pose proof (Hq w1) as H2. destruct (selectDone rt ctx w1) as [d2 w2].
    simpl in H2. subst d2.
    specialize (IH w2). destruct (forward rt ctx ch w2) as [out w3]. simpl in *.
    congruence.
Qed.

End TimeoutProperties.

(* ===================================================================== *)
(** * Further properties of errors.go and of the adapters' error wrapping *)
(* ===================================================================== *)

Section ClassifierProperties.
Import Errors Types Runtime Spec.
Context {W Ctx : Type}.
Variable rt : Runtime W Ctx.

(** X1.  [IsRateLimited] is false for nil; for a non-nil error it is true
    exactly when the error unwraps to ErrRateLimited or the first APIError of
    its chain has status 429. *)
Theorem IsRateLimited_iff (e : error) :
  IsRateLimited None = false /\
  (IsRateLimited (Some e) = true <->
   UnwrapsTo e (Sentinel ErrRateLimited) \/ FirstAPIError e 429).
Proof.
  split; [reflexivity|]. unfold IsRateLimited.
  destruct (errorsIs e ErrRateLimited) eqn:Hr.
  - split; [intros _; left; apply errorsIs_sound, Hr | reflexivity].
  - apply errorsIs_false_iff in Hr.
    destruct (errorsAsAPIError e) as [code|] eqn:Ha.
    + apply errorsAs_first in Ha. split.
      * intros H. apply Z.eqb_eq in H. subst. right. exact Ha.
      * intros [H|H]; [contradiction|]. apply errorsAs_first in H.
        apply errorsAs_first in Ha. rewrite Ha in H. injection H as ->. reflexivity.
    + split; [discriminate|]. intros [H|H]; [contradiction|].
      apply errorsAs_first in H. congruence.
Qed.

(** X2.  The error returned when the attempts are exhausted keeps only the
    text of the last error: it unwraps to ErrMaxRetriesExceeded and to no
    other sentinel, no APIError can be extracted from it, and the default
    classifier takes it for retryable and not rate-limited, whatever the
    last error was. *)
Theorem exhaustion_error_hides_last_error (lastErr : option error) (s : sentinel) :
  (errorsIs (Errorf_w_v (Sentinel ErrMaxRetriesExceed) lastErr) s = true <->
   s = ErrMaxRetriesExceed) /\
  errorsAsAPIError (Errorf_w_v (Sentinel ErrMaxRetriesExceed) lastErr) = None /\
  IsRetryable (Some (Errorf_w_v (Sentinel ErrMaxRetriesExceed) lastErr)) = true /\
  IsRateLimited (Some (Errorf_w_v (Sentinel ErrMaxRetriesExceed) lastErr)) = false.
Proof.
  split; [|repeat split].
  simpl. split.
  - intros H. apply bool_decide_eq_true_1 in H. congruence.
  - intros ->. apply bool_decide_eq_true_2. reflexivity.
Qed.

(** [wrapError] always builds an APIError of provider "anthropic" whose cause
    is the end of the chain. *)
Lemma Anthropic_wrapError_shape err :
  exists code cause,
    Anthropic.wrapError err =
      APIError "anthropic" code (Anthropic.sdkErrorText err) "" (Some cause) /\
    code = match err with
           | Anthropic.APIStatusError c _ => c
           | Anthropic.OtherError _ => 0
           end /\
    Unwrap cause = None.
Proof.
  destruct err as [c t|t]; simpl.
  - eexists. eexists. split; [reflexivity|]. split; [reflexivity|].
    destruct ((c =? 401) || (c =? 403)); [reflexivity|].
    destruct (c =? 429); [reflexivity|]. destruct (c =? 400); reflexivity.
  - eexists. eexists. split; [reflexivity|]. split; reflexivity.
Qed.

(** X3.  [wrapError] of the Anthropic adapter, seen through the package's
    classifiers.  With [c] the HTTP status of the SDK error (0 when it is not
    an API error): the result is an APIError of provider "anthropic" with
    status [c]; it unwraps to ErrAuthFailed exactly for 401 and 403, to
    ErrRateLimited exactly for 429, to ErrInvalidRequest exactly for 400; it
    is rate-limited exactly for 429 and not retryable exactly for 400, 401
    and 403. *)
Theorem Anthropic_wrapError_classified (err : Anthropic.SDKError) :
  let c := match err with
           | Anthropic.APIStatusError c _ => c
           | Anthropic.OtherError _ => 0
           end in
  FirstAPIError (Anthropic.wrapError err) c /\
  (errorsIs (Anthropic.wrapError err) ErrAuthFailed = true <-> c = 401 \/ c = 403) /\
  (errorsIs (Anthropic.wrapError err) ErrRateLimited = true <-> c = 429) /\
  (errorsIs (Anthropic.wrapError err) ErrInvalidRequest = true <-> c = 400) /\
  (IsRateLimited (Some (Anthropic.wrapError err)) = true <-> c = 429) /\
  (IsRetryable (Some (Anthropic.wrapError err)) = false <-> c = 400 \/ c = 401 \/ c = 403).
Proof.
  destruct err as [c t|t]; simpl.
  - split; [constructor|].
    unfold IsRateLimited, IsRetryable, statusSwitch. simpl.
    destruct (Z.eqb_spec c 401) as [->|H401]; simpl.
    { repeat split; intros; try lia; try discriminate; auto. }
    destruct (Z.eqb_spec c 403) as [->|H403]; simpl.
    { repeat split; intros; try lia; try discriminate; auto. }
    destruct (Z.eqb_spec c 429) as [->|H429]; simpl.
    { repeat split; intros; try lia; try discriminate; auto. }
    destruct (Z.eqb_spec c 400) as [->|H400]; simpl.
    { repeat split; intros; try lia; try discriminate; auto. }
    destruct (Z.eqb_spec c 500), (Z.eqb_spec c 502), (Z.eqb_spec c 503),
      (Z.eqb_spec c 504); simpl;
      repeat split; intros; try lia; try discriminate; auto.
  - split; [constructor|].
    repeat split; intros; try lia; try discriminate; auto.
Qed.


End ClassifierProperties.

Section ClassifierExamples.
Import Errors Types Runtime Spec Scenarios.


End ClassifierExamples.

(* ===================================================================== *)
(** * Further properties of router.go and options.go *)
(* ===================================================================== *)

Section RegistryProperties.
Import Errors Types Router Spec.
Context {W Ctx : Type}.

Local Abbreviation Provider := (Router.Provider W Ctx).
Local Abbreviation Router := (Router.Router W Ctx).
Local Abbreviation Middleware := (Router.Middleware W Ctx).

(** X5.  How the chain is composed.  Without middleware the resolved
    provider is used as it is; the first registered middleware is the
    outermost wrapper; a middleware added later wraps the provider before all
    the earlier ones do. *)
Theorem buildChain_composition (r : Router) (p : Provider) :
  (middleware r = [] -> buildChain r p = p) /\
  (forall m ms, middleware r = m :: ms ->
     buildChain r p = m (foldr (fun (m : Middleware) result => m result) p ms)) /\
  (forall m, buildChain (AddMiddleware r m) p = buildChain r (m p)).
Proof.
  unfold buildChain. split; [|split].
  - intros ->. reflexivity.
  - intros m ms ->. reflexivity.
  - intros m. simpl. rewrite foldr_app. reflexivity.
Qed.

(** X6.  Resolution fails in two ways only, with ErrNoProviders or with the
    error that wraps ErrUnknownModel around the model string; [Complete] and
    [Route] then return that error and leave the world as it was: neither a
    provider nor a middleware has run. *)
Theorem resolution_failure (r : Router) visit ctx req w err :
  resolveProvider r visit (reqModel req) = Fail err ->
  (err = Sentinel ErrNoProviders /\ providers r = ∅ \/
   err = Errorf_w_s (Sentinel ErrUnknownModel) (reqModel req) /\ providers r <> ∅) /\
  Router_Complete r visit ctx req w = (Fail err, w) /\
  Router_Route r visit ctx req w = (Fail err, w).
Proof.
  intros H. split.
  - unfold resolveProvider in H.
    destruct (Nat.eqb (size (providers r)) 0) eqn:Hs.
    + injection H as <-. left. split; [reflexivity | apply registry_empty_size, Hs].
    + right. assert (Hne : providers r <> ∅).
      { intros He. apply registry_empty_size in He. congruence. }
      split; [|exact Hne].
      destruct (match modelMap r !! reqModel req with
                | Some n => providers r !! n
                | None => None
                end); [discriminate|].
      destruct (providers r !! reqModel req); [discriminate|].
      destruct (scan visit (reqModel req)); [discriminate|].
      injection H as <-. reflexivity.
  - unfold Router_Complete, Router_Route. rewrite H. split; reflexivity.
Qed.

(** X7.  A model mapping wins over everything else: once [M] is mapped to a
    registered provider name, [M] resolves to that provider, even if [M] is
    also a provider name or declared by other providers.  A mapping to a name
    that is not registered is ignored without an error, and a mapping never
    changes how other models resolve. *)
Theorem MapModel_resolution (r : Router) visit (M n : string) :
  (forall p, providers r !! n = Some p ->
     resolveProvider (MapModel r M n) visit M = Ok p) /\
  (providers r !! n = None -> modelMap r !! M = None ->
     resolveProvider (MapModel r M n) visit M = resolveProvider r visit M) /\
  (forall M', M' <> M ->
     resolveProvider (MapModel r M n) visit M' = resolveProvider r visit M').
Proof.
  split; [|split].
  - intros p Hp. unfold resolveProvider. simpl.
    destruct (Nat.eqb (size (providers r)) 0) eqn:Hs.
    + apply registry_empty_size in Hs. rewrite Hs, lookup_empty in Hp. discriminate.
    + rewrite lookup_insert_eq, Hp. reflexivity.
  - intros Hn Hm. unfold resolveProvider. simpl.
    rewrite lookup_insert_eq, Hn, Hm. reflexivity.
  - intros M' Hne. unfold resolveProvider. simpl.
    rewrite lookup_insert_ne by congruence. reflexivity.
Qed.

(** X8.  Registration and lookup.  [GetProvider] returns what the last
    [RegisterProvider] under that name stored and is unchanged for other
    names; and a provider can from then on be addressed by the name it was
    registered under, unless a model mapping sends that name to a registered
    provider. *)
Theorem RegisterProvider_lookup (r : Router) visit (name : string) (p : Provider) :
  GetProvider (RegisterProvider r name p) name = Some p /\
  (forall q, GetProvider (RegisterProvider (RegisterProvider r name q) name p) name
             = Some p) /\
  (forall name', name' <> name ->
     GetProvider (RegisterProvider r name p) name' = GetProvider r name') /\
  ((forall q, ~ mappedTo (RegisterProvider r name p) name q) ->
     resolveProvider (RegisterProvider r name p) visit name = Ok p).
Proof.
  unfold GetProvider. simpl. split; [apply lookup_insert_eq|].
  split; [intros q; apply lookup_insert_eq|].
  split; [intros name' Hne; apply lookup_insert_ne; congruence|].
  intros Hnm. rewrite resolve_nonempty by (simpl; apply insert_non_empty).
  rewrite (not_mapped_lookup _ _ Hnm). simpl. rewrite lookup_insert_eq. reflexivity.
Qed.

(** X9.  [Providers] lists the registered names: each name once, as many as
    the registry has entries, and a name is listed exactly when
    [GetProvider] finds it. *)
Theorem Providers_lists_registry (r : Router) (visit : list (string * Provider)) :
  visits r visit ->
  NoDup (Providers r visit) /\
  length (Providers r visit) = size (providers r) /\
  (forall name, name ∈ Providers r visit <-> is_Some (GetProvider r name)).
Proof.
  unfold visits, Providers, GetProvider. intros Hv. split; [|split].
  - rewrite Hv. apply NoDup_fst_map_to_list.
  - rewrite length_map, Hv. apply length_map_to_list.
  - intros name. rewrite Hv, list_elem_of_fmap. split.
    + intros ([n q] & -> & Hin). apply elem_of_map_to_list in Hin. simpl. eauto.
    + intros [q Hq]. exists (name, q). split; [reflexivity|].
      apply elem_of_map_to_list. exact Hq.
Qed.

(** X10.  Resolution never invents a provider: the provider returned for [M]
    is registered under some name [n], and [n] is the name [M] is mapped to,
    or [M] itself, or the provider declares [M] in its model list. *)
Theorem resolveProvider_sound (r : Router) visit (M : string) (p : Provider) :
  visits r visit ->
  resolveProvider r visit M = Ok p ->
  exists n,
    GetProvider r n = Some p /\
    (modelMap r !! M = Some n \/ n = M \/ M ∈ Models p).
Proof.
  intros Hv. unfold resolveProvider, GetProvider.
  destruct (Nat.eqb _ _); [intros [=]|].
  destruct (modelMap r !! M) as [n|] eqn:Hm.
  - destruct (providers r !! n) as [q|] eqn:Hq; [intros [= <-]; eauto|].
    destruct (providers r !! M) as [q|] eqn:Hq'; [intros [= <-]; eauto|].
    destruct (scan visit M) as [q|] eqn:Hs; intros [= <-].
    destruct (scan_Some _ _ _ Hs) as (n' & Hin & Hd).
    exists n'. split; [apply (visits_elem r visit n' q Hv), Hin | auto].
  - destruct (providers r !! M) as [q|] eqn:Hq'; [intros [= <-]; eauto|].
    destruct (scan visit M) as [q|] eqn:Hs; intros [= <-].
    destruct (scan_Some _ _ _ Hs) as (n' & Hin & Hd).
    exists n'. split; [apply (visits_elem r visit n' q Hv), Hin | auto].
Qed.



End RegistryProperties.

Section RegistryExamples.
Import Errors Types Runtime Router Spec Scenarios.

(** Witness of [resolution_failure]: a router without providers. *)
Lemma resolution_failure_witness :
  Router_Complete (Router.New (W:=unit) (Ctx:=unit)) [] tt (userSays "gpt-4o" "hi") tt
    = (Fail (Sentinel ErrNoProviders), tt) /\
  Router_Route (Router.New (W:=unit) (Ctx:=unit)) [] tt (userSays "gpt-4o" "hi") tt
    = (Fail (Sentinel ErrNoProviders), tt).
Proof.
  apply (resolution_failure (Router.New (W:=unit) (Ctx:=unit)) [] tt
           (userSays "gpt-4o" "hi") tt (Sentinel ErrNoProviders)).
  reflexivity.
Defined.

(** Witness of [Providers_lists_registry]: the one-provider router. *)
Lemma Providers_lists_registry_witness :
  length (Providers claudeRouter (map_to_list (providers claudeRouter)))
    = size (providers claudeRouter) /\
  "claude" ∈ Providers claudeRouter (map_to_list (providers claudeRouter)).
Proof.
  destruct (Providers_lists_registry claudeRouter (map_to_list (providers claudeRouter)))
    as (_ & Hl & Hin).
  - unfold visits. reflexivity.
  - split; [exact Hl|]. apply Hin. vm_compute. eauto.
Defined.

(** Witness of [resolveProvider_sound]: a declared model. *)
Lemma resolveProvider_sound_witness :
  exists n,
    GetProvider claudeRouter n = Some (Anthropic.asProvider quiet claudeAdapter) /\
    (modelMap claudeRouter !! "claude-3-haiku-20240307" = Some n \/
     n = "claude-3-haiku-20240307" \/
     "claude-3-haiku-20240307" ∈ Models (Anthropic.asProvider quiet claudeAdapter)).
Proof.
  apply (resolveProvider_sound claudeRouter (map_to_list (providers claudeRouter))).
  - unfold visits. reflexivity.
  - vm_compute. reflexivity.
Defined.

End RegistryExamples.

(* ===================================================================== *)
(** * Further properties of middleware/retry.go *)
(* ===================================================================== *)

Section RetryRunProperties.
Import Errors Types Runtime Router Middleware Spec.
Context {W Ctx : Type}.
Variable rt : Runtime W Ctx.
Variable outOfRange : Z -> Z -> Z.

Ltac in_steps H :=
  repeat match type of H with
         | _ ∈ _ :: _ => apply elem_of_cons in H; destruct H as [H|H]
         | _ ∈ [] => inversion H
         | _ = _ => try discriminate H
         end.

(** The last call of a run, counted from its first attempt. *)
Lemma runFrom_last_call (p : @retryProvider W Ctx) a0 tr :
  runFrom outOfRange p a0 tr ->
  forall a f, last tr = Some (Called a f) -> a = a0 + Z.of_nat (calls tr) - 1.
Proof.
  induction 1 as [a0|f tr Hr IH|a0 f tr Hpos Hr IH|a0 e Hpos]; intros a f' Hl.
  - discriminate.
  - rewrite calls_cons_call. destruct tr as [|s tr'].
    + injection Hl as <- _. rewrite calls_nil. lia.
    + specialize (IH a f' Hl). lia.
  - rewrite calls_cons_sleep, calls_cons_call. destruct tr as [|s tr'].
    + injection Hl as <- _. rewrite calls_nil. lia.
    + specialize (IH a f' Hl). lia.
  - discriminate.
Qed.

Lemma runFrom_sleeps (p : @retryProvider W Ctx) a0 tr :
  runFrom outOfRange p a0 tr ->
  forall a d i, Slept a d i ∈ tr ->
    0 < a /\ a0 <= a /\ d = calculateBackoff outOfRange p a.
Proof.
  induction 1 as [a0|f tr Hr IH|a0 f tr Hpos Hr IH|a0 e Hpos]; intros a d i Hin.
  - inversion Hin.
  - in_steps Hin. destruct (IH a d i Hin) as (? & ? & ?). repeat split; auto; lia.
  - in_steps Hin.
    + injection Hin as -> -> ->. repeat split; auto; lia.
    + destruct (IH a d i Hin) as (? & ? & ?). repeat split; auto; lia.
  - in_steps Hin. injection Hin as -> -> ->. repeat split; auto; lia.
Qed.

Lemma calculateBackoff_capped (p : @retryProvider W Ctx) a :
  calculateBackoff outOfRange p a <= maxDelay (rpConfig p).
Proof.
  unfold calculateBackoff.
  destruct (Z.ltb_spec (maxDelay (rpConfig p))
              (durationOfScaled outOfRange (float64OfInt (baseDelay (rpConfig p))) (a - 1)));
    lia.
Qed.

(** Every step of a run belongs to an attempt the loop can reach. *)
Lemma retryLoop_attempts_in_range {A : Type} (p : @retryProvider W Ctx) ctx
    (call : W -> result A * W) :
  forall remaining attempt lastErr w res w' tr,
    retryLoop rt outOfRange p ctx call remaining attempt lastErr w = ((res, w'), tr) ->
    Forall (fun s => match s with
                     | Slept a _ _ | Called a _ =>
                         attempt <= a < attempt + Z.of_nat remaining
                     end) tr.
Proof.
  induction remaining as [|n IH]; intros attempt lastErr w res w' tr; simpl.
  - intros [= <- <- <-]. constructor.
  - destruct (0 <? attempt).
    + destruct (selectAfter rt ctx _ w) as [[ctxErr|] w1].
      * intros [= <- <- <-]. repeat constructor; lia.
      * destruct (call w1) as [[resp|err] w2].
        -- intros [= <- <- <-]. simpl. repeat constructor; lia.
        -- destruct (negb _).
           ++ intros [= <- <- <-]. simpl. repeat constructor; lia.
           ++ destruct (retryLoop _ _ _ _ _ _ _ _ _) as [res' tr'] eqn:Hl.
              intros [= -> <-]. simpl.
              constructor; [lia|]. constructor; [lia|].
              eapply Forall_impl; [exact (IH _ _ _ _ _ _ Hl)|].
              intros [a d i|a f]; simpl; lia.
    + destruct (call w) as [[resp|err] w2].
      * intros [= <- <- <-]. simpl. repeat constructor; lia.
      * destruct (negb _).
        -- intros [= <- <- <-]. simpl. repeat constructor; lia.
        -- destruct (retryLoop _ _ _ _ _ _ _ _ _) as [res' tr'] eqn:Hl.
           intros [= -> <-]. simpl.
           constructor; [lia|].
           eapply Forall_impl; [exact (IH _ _ _ _ _ _ Hl)|].
           intros [a d i|a f]; simpl; lia.
Qed.

(** A run that returns a response ends on the successful call. *)
Lemma retryLoop_Ok_last {A : Type} (p : @retryProvider W Ctx) ctx
    (call : W -> result A * W) :
  forall remaining attempt lastErr w a w' tr,
    retryLoop rt outOfRange p ctx call remaining attempt lastErr w = ((Ok a, w'), tr) ->
    exists k, last tr = Some (Called k None).
Proof.
  induction remaining as [|n IH]; intros attempt lastErr w a w' tr; simpl.
  - intros [=].
  - destruct (0 <? attempt).
    + destruct (selectAfter rt ctx _ w) as [[ctxErr|] w1]; [intros [=]|].
      destruct (call w1) as [[resp|err] w2].
      * intros [= <- <- <-]. simpl. eauto.
      * destruct (negb _); [intros [=]|].
        destruct (retryLoop _ _ _ _ _ _ _ _ _) as [res' tr'] eqn:Hl.
        intros [= -> <-]. destruct (IH _ _ _ _ _ _ Hl) as [k Hk].
        exists k. cbn [app]. do 2 apply last_cons_Some. exact Hk.
    + destruct (call w) as [[resp|err] w2].
      * intros [= <- <- <-]. simpl. eauto.
      * destruct (negb _); [intros [=]|].
        destruct (retryLoop _ _ _ _ _ _ _ _ _) as [res' tr'] eqn:Hl.
        intros [= -> <-]. destruct (IH _ _ _ _ _ _ Hl) as [k Hk].
        exists k. cbn [app]. apply last_cons_Some. exact Hk.
Qed.

(** X12.  A [Complete] of the retry wrapper that returns a response: the
    response is the one the wrapped provider returned on the last call, which
    is call number [k + 1] for some attempt [k] below [maxAttempts]; no sleep
    was interrupted, and every earlier call failed with an error the
    classifier accepts for a retry. *)
Theorem retryProvider_Complete_success (p : @retryProvider W Ctx) ctx req w resp w' tr :
  retryComplete_run rt outOfRange p ctx req w = ((Ok resp, w'), tr) ->
  (exists w0, Complete (rpProvider p) ctx req w0 = (Ok resp, w')) /\
  (exists k, last tr = Some (Called k None) /\
             Z.of_nat (calls tr) = k + 1 /\
             0 <= k < maxAttempts (rpConfig p)) /\
  uninterrupted tr /\
  (forall a e, Called a (Some e) ∈ tr -> retryable (rpConfig p) (Some e) = true).
Proof.
  unfold retryComplete_run. intros H.
  destruct (retryLoop_run rt outOfRange p ctx _ _ 0 None w _ w' tr ltac:(lia) H)
    as (Hrun & _ & _ & Hnon & Hint).
  split; [exact (retryLoop_Ok rt outOfRange p ctx _ _ _ _ _ _ _ _ H)|].
  split.
  { destruct (retryLoop_Ok_last p ctx _ _ _ _ _ _ _ _ H) as [k Hk].
    exists k. split; [exact Hk|].
    pose proof (runFrom_last_call p 0 tr Hrun k None Hk) as Hcount.
    split; [lia|].
    pose proof (retryLoop_attempts_in_range p ctx _ _ _ _ _ _ _ _ H) as Hall.
    rewrite Forall_forall in Hall.
    assert (Hin : Called k None ∈ tr).
    { apply list_elem_of_lookup. rewrite last_lookup in Hk. eauto. }
    specialize (Hall _ Hin). simpl in Hall.
    destruct (Z.le_gt_cases 0 (maxAttempts (rpConfig p))); lia. }
  split.
  { apply Forall_forall. intros [a d [e|]|a f] Hin; try exact I.
    destruct (Hint a d e Hin) as [Hres _]. discriminate. }
  intros a e Hin. destruct (retryable (rpConfig p) (Some e)) eqn:Hr; [reflexivity|].
  destruct (Hnon a e Hin Hr) as [Hres _]. discriminate.
Qed.

(** X13.  The sleeps of a run.  Every sleep precedes an attempt numbered
    from 1 to [maxAttempts - 1], asks for the delay [calculateBackoff] gives
    for that attempt, and never asks for more than [maxDelay], whatever the
    float conversion does. *)
Theorem retry_sleeps_bounded (p : @retryProvider W Ctx) ctx req w res w' tr a d i :
  retryComplete_run rt outOfRange p ctx req w = ((res, w'), tr) ->
  Slept a d i ∈ tr ->
  1 <= a < maxAttempts (rpConfig p) /\
  d = calculateBackoff outOfRange p a /\
  d <= maxDelay (rpConfig p).
Proof.
  unfold retryComplete_run. intros H Hin.
  destruct (retryLoop_run rt outOfRange p ctx _ _ 0 None w _ w' tr ltac:(lia) H)
    as (Hrun & _).
  destruct (runFrom_sleeps p 0 tr Hrun a d i Hin) as (Hpos & _ & Hd).
  pose proof (retryLoop_attempts_in_range p ctx _ _ _ _ _ _ _ _ H) as Hall.
  rewrite Forall_forall in Hall. specialize (Hall _ Hin). simpl in Hall.
  split; [lia|]. split; [exact Hd|]. subst d. apply calculateBackoff_capped.
Qed.

End RetryRunProperties.

Section RetryCompositionProperties.
Import Errors Types Runtime Router Middleware Spec.
Context {W Ctx : Type}.
Variable rt : Runtime W Ctx.
Variable outOfRange : Z -> Z -> Z.

(** When the first call succeeds the run is that one call. *)
Lemma retryLoop_first_call_succeeds {A : Type} (p : @retryProvider W Ctx) ctx
    (call : W -> result A * W) n lastErr w a w' :
  call w = (Ok a, w') ->
  retryLoop rt outOfRange p ctx call (S n) 0 lastErr w = ((Ok a, w'), [Called 0 None]).
Proof. intros H. simpl. rewrite H. reflexivity. Qed.

(** X14.  Streaming through the retry wrapper, with at least one attempt
    configured, around the Anthropic or the Gemini adapter: [Stream] of these
    adapters always returns a channel, so the wrapper calls it exactly once,
    never sleeps, and hands that channel on; a backend failure reaches the
    caller as an event of the stream and is not retried. *)
Theorem retry_Stream_of_adapters_single_call (cfg : RetryMiddleware) ctx req w :
  1 <= maxAttempts cfg ->
  (forall a : @Anthropic.Provider W Ctx,
     retryStream_run rt outOfRange
       {| rpProvider := Anthropic.asProvider rt a; rpConfig := cfg |} ctx req w
     = (Anthropic.Stream rt a ctx req w, [Called 0 None]) /\
     exists ch, fst (Anthropic.Stream rt a ctx req w) = Ok ch) /\
  (forall g : @Gemini.Provider W Ctx,
     retryStream_run rt outOfRange
       {| rpProvider := Gemini.asProvider rt g; rpConfig := cfg |} ctx req w
     = (Gemini.Stream rt g ctx req w, [Called 0 None]) /\
     exists ch, fst (Gemini.Stream rt g ctx req w) = Ok ch).
Proof.
  intros Hn. destruct (Z.to_nat (maxAttempts cfg)) as [|n] eqn:Hz; [lia|].
  split.
  - intros a. unfold retryStream_run. cbn [rpProvider rpConfig]. rewrite Hz.
    assert (Hok : exists ch w1, Anthropic.Stream rt a ctx req w = (Ok ch, w1)).
    { unfold Anthropic.Stream.
      destruct (Anthropic.MessagesNewStreaming _ _ _ _) as [[events e] w1]. eauto. }
    destruct Hok as (ch & w1 & Hs). split; [|rewrite Hs; eauto].
    rewrite Hs. apply retryLoop_first_call_succeeds. exact Hs.
  - intros g. unfold retryStream_run. cbn [rpProvider rpConfig]. rewrite Hz.
    assert (Hok : exists ch w1, Gemini.Stream rt g ctx req w = (Ok ch, w1)).
    { unfold Gemini.Stream.
      destruct (Gemini.SendMessageStream _ _ _ _ _) as [[resps e] w1]. eauto. }
    destruct Hok as (ch & w1 & Hs). split; [|rewrite Hs; eauto].
    rewrite Hs. apply retryLoop_first_call_succeeds. exact Hs.
Qed.

(** When every call fails with the same error, every call of the run is
    recorded with that error. *)
Lemma retryLoop_constant_failure {A : Type} (p : @retryProvider W Ctx) ctx
    (call : W -> result A * W) e0 :
  (forall w0, exists w1, call w0 = (Fail e0, w1)) ->
  forall remaining attempt lastErr w res w' tr,
    retryLoop rt outOfRange p ctx call remaining attempt lastErr w = ((res, w'), tr) ->
    Forall (fun s => match s with
                     | Called _ f => f = Some e0
                     | Slept _ _ _ => True
                     end) tr.
Proof.
  intros Hcall. induction remaining as [|n IH]; intros attempt lastErr w res w' tr; simpl.
  - intros [= <- <- <-]. constructor.
  - destruct (0 <? attempt).
    + destruct (selectAfter rt ctx _ w) as [[ctxErr|] w1].
      * intros [= <- <- <-]. repeat constructor.
      * destruct (Hcall w1) as [w2 ->].
        destruct (negb _).
        -- intros [= <- <- <-]. simpl. repeat constructor.
        -- destruct (retryLoop _ _ _ _ _ _ _ _ _) as [res' tr'] eqn:Hl.
           intros [= -> <-]. simpl. constructor; [exact I|].
           constructor; [reflexivity|]. exact (IH _ _ _ _ _ _ Hl).
    + destruct (Hcall w) as [w2 ->].
      destruct (negb _).
      * intros [= <- <- <-]. simpl. repeat constructor.
      * destruct (retryLoop _ _ _ _ _ _ _ _ _) as [res' tr'] eqn:Hl.
        intros [= -> <-]. simpl. constructor; [reflexivity|]. exact (IH _ _ _ _ _ _ Hl).
Qed.

(** X15.  A retry wrapper with the default classifier placed outside a
    circuit breaker that is rejecting: ErrCircuitOpen counts as retryable, so
    unless the context interrupts a sleep the wrapper makes all its attempts,
    each rejected with ErrCircuitOpen by the breaker, and then returns the
    exhaustion error. *)
Theorem retry_over_rejecting_breaker (cfg : RetryMiddleware)
    (cbm : @CircuitBreakerMiddleware W) (next : Router.Provider W Ctx)
    ctx req w res w' tr :
  retryable cfg = IsRetryable ->
  (forall w0, fst (beforeRequest (cb cbm) w0) <> Admit) ->
  retryComplete_run rt outOfRange
    {| rpProvider := CircuitBreakerWrap cbm next; rpConfig := cfg |} ctx req w
    = ((res, w'), tr) ->
  uninterrupted tr ->
  calls tr = Z.to_nat (maxAttempts cfg) /\
  (forall a f, Called a f ∈ tr -> f = Some (Sentinel ErrCircuitOpen)) /\
  res = Fail (Errorf_w_v (Sentinel ErrMaxRetriesExceed) (lastFailure None tr)).
Proof.
  intros Hcls Hrej Hrun Hun.
  assert (Hcall : forall w0, exists w1,
            Complete (CircuitBreakerWrap cbm next) ctx req w0
            = (Fail (Sentinel ErrCircuitOpen), w1)).
  { intros w0. simpl. unfold circuitBreakerProvider_Complete, breakerExecute. simpl.
    specialize (Hrej w0). destruct (beforeRequest (cb cbm) w0) as [[| |] w1];
      simpl in Hrej; [congruence | eauto | eauto]. }
  unfold retryComplete_run in Hrun. cbn [rpProvider rpConfig] in Hrun.
  pose proof (retryLoop_constant_failure _ ctx _ _ Hcall _ _ _ _ _ _ _ Hrun) as Hall.
  assert (Hcalls : forall a f, Called a f ∈ tr -> f = Some (Sentinel ErrCircuitOpen)).
  { intros a f Hin. rewrite Forall_forall in Hall. exact (Hall _ Hin). }
  destruct (retryLoop_run rt outOfRange _ ctx _ _ 0 None w res w' tr ltac:(lia) Hrun)
    as (_ & _ & Hex & _).
  cbn [rpConfig] in Hex.
  assert (Hfail : allFailRetryably (retryable cfg) tr).
  { apply Forall_forall. intros [a d i|a f] Hin; [exact I|].
    rewrite (Hcalls a f Hin), Hcls. reflexivity. }
  destruct (Hex Hun Hfail) as [Hc Hres].
  split; [exact Hc|]. split; [exact Hcalls | exact Hres].
Qed.

End RetryCompositionProperties.

(* ===================================================================== *)
(** * Further properties of middleware/timeout.go *)
(* ===================================================================== *)

Section TimeoutStreamProperties.
Import Errors Types Runtime Router Middleware Spec.
Context {W Ctx : Type}.
Variable rt : Runtime W Ctx.

(** X16.  What the caller of [timeoutProvider.Stream] receives is a prefix of
    the wrapped provider's stream, opened under the derived context, followed
    by at most one Error event of the wrapper's own: events are never
    reordered, altered or invented, apart from that one Error. *)
Theorem timeoutProvider_Stream_prefix (p : @timeoutProvider W Ctx) ctx req w out w' :
  timeoutProvider_Stream rt p ctx req w = (Ok out, w') ->
  exists inner w2 n,
    Stream (tpProvider p) (fst (ctxWithTimeout rt ctx (tpTimeout p) w)) req
           (snd (ctxWithTimeout rt ctx (tpTimeout p) w)) = (Ok inner, w2) /\
    (out = take n inner \/
     exists ctxErr, out = take n inner ++ [ctxErrorEvent ctxErr]).
Proof.
  unfold timeoutProvider_Stream.
  destruct (ctxWithTimeout rt ctx (tpTimeout p) w) as [ctx' w1]. simpl.
  destruct (Stream (tpProvider p) ctx' req w1) as [[inner|err] w2]; [|intros [=]].
  destruct (forward_prefix rt ctx' inner w2) as [n Hn].
  destruct (forward rt ctx' inner w2) as [o w3]. simpl in Hn.
  intros [= <- <-]. exists inner, w2, n. split; [reflexivity | exact Hn].
Qed.

(** X17.  The two undisturbed paths of [timeoutProvider.Stream]: an error of
    the wrapped [Stream] is returned as it is, with no channel; and when no
    [select] of the forwarding loop takes the [ctx.Done()] case, the caller
    receives exactly the wrapped provider's stream. *)
Theorem timeoutProvider_Stream_transparent (p : @timeoutProvider W Ctx) ctx req w :
  (forall err w2,
     Stream (tpProvider p) (fst (ctxWithTimeout rt ctx (tpTimeout p) w)) req
            (snd (ctxWithTimeout rt ctx (tpTimeout p) w)) = (Fail err, w2) ->
     timeoutProvider_Stream rt p ctx req w = (Fail err, w2)) /\
  (forall inner w2,
     (forall c w0, fst (selectDone rt c w0) = None) ->
     Stream (tpProvider p) (fst (ctxWithTimeout rt ctx (tpTimeout p) w)) req
            (snd (ctxWithTimeout rt ctx (tpTimeout p) w)) = (Ok inner, w2) ->
     fst (timeoutProvider_Stream rt p ctx req w) = Ok inner).
Proof.
  unfold timeoutProvider_Stream.
  destruct (ctxWithTimeout rt ctx (tpTimeout p) w) as [ctx' w1]. simpl. split.
  - intros err w2 ->. reflexivity.
  - intros inner w2 Hq ->.
    pose proof (forward_undisturbed rt ctx' inner (Hq ctx') w2) as Hf.
    destruct (forward rt ctx' inner w2) as [o w3]. simpl in *. congruence.
Qed.

End TimeoutStreamProperties.

(* ===================================================================== *)
(** * Further properties of the Anthropic adapter *)
(* ===================================================================== *)

Section AnthropicProperties.
Import Errors Types Runtime Spec Reading.
Context {W Ctx : Type}.
Variable rt : Runtime W Ctx.

Lemma collectBlocks_reads blocks :
  forall content toolCalls,
    Anthropic.collectBlocks blocks content toolCalls =
      (content +:+ concatAll (blockTexts blocks), toolCalls ++ blockToolCalls blocks).
Proof.
  induction blocks as [|[t|id name input|] blocks IH]; intros content toolCalls; simpl.
  - rewrite append_empty_r, app_nil_r. reflexivity.
  - rewrite IH. change (concatAll (t :: blockTexts blocks))
      with (t +:+ concatAll (blockTexts blocks)).
    rewrite append_assoc. reflexivity.
  - rewrite IH, <- app_assoc. reflexivity.
  - apply IH.
Qed.

(** X18.  What [convertToOpenAIResponse] builds: a response with the
    message's id and model and the given provider name, whose creation time
    is left at zero, with exactly one choice, of index 0, whose assistant
    message has as content the texts of the text blocks concatenated in order
    and as tool calls the tool-use blocks in order (id, name and arguments
    kept); blocks of other kinds are skipped. *)
Theorem convertToOpenAIResponse_reads_blocks (msg : Anthropic.SDKMessage) (provider : string) :
  let resp := Anthropic.convertToOpenAIResponse msg provider in
  rID resp = Anthropic.mID msg /\
  rModel resp = Anthropic.mModel msg /\
  rProvider resp = provider /\
  rCreated resp = 0 /\
  exists c m,
    rChoices resp = [c] /\ chIndex c = 0 /\ chDelta c = None /\
    chMessage c = Some m /\
    msgRole m = RoleAssistant /\
    msgContent m = concatAll (blockTexts (Anthropic.mContent msg)) /\
    msgToolCalls m = blockToolCalls (Anthropic.mContent msg).
Proof.
  unfold Anthropic.convertToOpenAIResponse.
  rewrite collectBlocks_reads. simpl.
  repeat split. eexists. eexists. repeat split.
Qed.

Lemma streamLoop_app events1 events2 st :
  Anthropic.streamLoop (events1 ++ events2) st =
    let '(st1, sent1) := Anthropic.streamLoop events1 st in
    let '(st2, sent2) := Anthropic.streamLoop events2 st1 in
    (st2, sent1 ++ sent2).
Proof.
  revert st. induction events1 as [|ev events1 IH]; intros st; simpl.
  - destruct (Anthropic.streamLoop events2 st). reflexivity.
  - destruct (Anthropic.streamStep st ev) as [st0 sent0]. rewrite IH.
    destruct (Anthropic.streamLoop events1 st0) as [st1 sent1].
    destruct (Anthropic.streamLoop events2 st1) as [st2 sent2].
    rewrite app_assoc. reflexivity.
Qed.

Lemma withToolArgs_same st : withToolArgs st (Anthropic.toolArgsBuilder st) = st.
Proof. destruct st. reflexivity. Qed.

(** The argument fragments of the block being built: each is sent on as one
    ToolCallDelta and appended to the buffer. *)
Lemma streamLoop_fragments fragments :
  forall st,
    Anthropic.streamLoop
      (map (fun f => Anthropic.ContentBlockDeltaEvent (Anthropic.InputJSONDelta f))
           fragments) st =
      (withToolArgs st (Anthropic.toolArgsBuilder st +:+ concatAll fragments),
       map (fun f => Anthropic.toolCallDeltaEvent
                       (Anthropic.toolCallOf (Anthropic.currentToolID st)
                                             (Anthropic.currentToolName st) f))
           fragments).
Proof.
  induction fragments as [|f fragments IH]; intros st; simpl.
  - rewrite append_empty_r, withToolArgs_same. reflexivity.
  - rewrite IH. simpl.
    change (concatAll (f :: fragments)) with (f +:+ concatAll fragments).
    rewrite append_assoc. reflexivity.
Qed.

(** X19.  One tool-use block of an Anthropic stream, from any state of the
    goroutine: every fragment of the arguments is sent as one ToolCallDelta
    carrying the block's id and name, nothing else is sent, and the text
    gathered so far is untouched.  If id and name are both non-empty, the
    stop event appends one tool call whose arguments are the fragments
    concatenated in order; if either is empty, no tool call is recorded
    although the deltas were sent. *)
Theorem Anthropic_stream_tool_use_block (st : Anthropic.streamState)
    (id name : string) (fragments : list string) :
  let run := Anthropic.streamLoop (toolUseEvents id name fragments) st in
  snd run = map (fun f => Anthropic.toolCallDeltaEvent (Anthropic.toolCallOf id name f))
                fragments /\
  Anthropic.fullContent (fst run) = Anthropic.fullContent st /\
  (id <> "" -> name <> "" ->
   Anthropic.toolCalls (fst run) =
     Anthropic.toolCalls st ++ [Anthropic.toolCallOf id name (concatAll fragments)] /\
   Anthropic.currentToolID (fst run) = "") /\
  (id = "" \/ name = "" -> Anthropic.toolCalls (fst run) = Anthropic.toolCalls st).
Proof.
  unfold toolUseEvents. cbn [Anthropic.streamLoop Anthropic.streamStep].
  rewrite streamLoop_app, streamLoop_fragments.
  cbn [Anthropic.streamLoop Anthropic.streamStep withToolArgs
       Anthropic.currentToolID Anthropic.currentToolName Anthropic.toolArgsBuilder
       Anthropic.toolCalls Anthropic.fullContent].
  destruct (String.eqb_spec id "") as [->|Hid]; simpl.
  - rewrite !app_nil_r. split; [reflexivity|]. split; [reflexivity|].
    split; [congruence | reflexivity].
  - destruct (String.eqb_spec name "") as [->|Hname]; simpl.
    + rewrite !app_nil_r. split; [reflexivity|]. split; [reflexivity|].
      split; [congruence | reflexivity].
    + rewrite !app_nil_r. split; [reflexivity|]. split; [reflexivity|].
      split; [intros _ _; split; reflexivity|]. intros [H|H]; congruence.
Qed.

(** X20.  How a stream of the Anthropic or Gemini adapter ends does not
    change what comes before the end: with the same backend sequence, the
    stream that ends in an error sends the very events the successful stream
    sends before its Done event, none of them terminal, and then one Error
    event carrying the wrapped backend error. *)
Theorem stream_error_after_same_events :
  (forall (a : @Anthropic.Provider W Ctx) model created events err,
     exists sent resp,
       Anthropic.streamEvents a model created events None
         = sent ++ [Anthropic.doneEvent resp] /\
       Anthropic.streamEvents a model created events (Some err)
         = sent ++ [Anthropic.errorEvent (Anthropic.wrapError err)] /\
       Forall (fun e => isTerminal e = false) sent) /\
  (forall (g : @Gemini.Provider W Ctx) modelName created resps err,
     exists sent resp,
       Gemini.streamEvents g modelName created resps None
         = sent ++ [Gemini.doneEvent resp] /\
       Gemini.streamEvents g modelName created resps (Some err)
         = sent ++ [Gemini.errorEvent (Gemini.wrapError err)] /\
       Forall (fun e => isTerminal e = false) sent).
Proof.
  split.
  - intros a model created events err. unfold Anthropic.streamEvents.
    destruct (Anthropic.streamLoop events Anthropic.initialState) as [st sent] eqn:Hl.
    destruct (Anthropic_streamLoop_content _ _ _ _ Hl) as [_ Hn].
    eexists. eexists. split; [reflexivity|]. split; [reflexivity | exact Hn].
  - intros g modelName created resps err. unfold Gemini.streamEvents.
    destruct (Gemini.streamResponses resps "" []) as [[fc tcs] sent] eqn:Hl.
    destruct (Gemini_streamResponses_content _ _ _ _ _ _ Hl) as [_ Hn].
    eexists. eexists. split; [reflexivity|]. split; [reflexivity | exact Hn].
Qed.

End AnthropicProperties.

(* ===================================================================== *)
(** * Further properties of the Gemini adapter *)
(* ===================================================================== *)

Section GeminiProperties.
Import Errors Types Runtime Spec Reading.
Context {W Ctx : Type}.
Variable rt : Runtime W Ctx.

Lemma collectParts_reads parts :
  forall content toolCalls,
    Gemini.collectParts parts content toolCalls =
      (content +:+ concatAll (partTexts parts), toolCalls ++ partToolCalls parts).
Proof.
  induction parts as [|[t|name args|] parts IH]; intros content toolCalls; simpl.
  - rewrite append_empty_r, app_nil_r. reflexivity.
  - rewrite IH. change (concatAll (t :: partTexts parts))
      with (t +:+ concatAll (partTexts parts)).
    rewrite append_assoc. reflexivity.
  - rewrite IH, <- app_assoc. reflexivity.
  - apply IH.
Qed.

Lemma partToolCalls_ids parts :
  Forall (fun tc => tcID tc = fcName (tcFunction tc)) (partToolCalls parts).
Proof.
  induction parts as [|[t|name args|] parts IH]; simpl; auto.
Qed.

Lemma convertResponse_collects resp :
  match Gemini.Candidates resp with
  | {| Gemini.cContent := Some parts |} :: _ => Gemini.collectParts parts "" []
  | _ => ("", [])
  end = (concatAll (partTexts (firstParts resp)), partToolCalls (firstParts resp)).
Proof.
  unfold firstParts. destruct (Gemini.Candidates resp) as [|[[parts|] fr] cs]; try reflexivity.
  rewrite collectParts_reads. reflexivity.
Qed.

(** X21.  What [convertResponse] of the Gemini adapter reads: only the first
    candidate.  The assistant message has as content the text parts of that
    candidate concatenated in order and as tool calls its function-call parts
    in order, each with the function name as its id; the finish reason is one
    of "stop", "length", "tool_calls", "content_filter"; and the candidates
    after the first have no influence on the result. *)
Theorem Gemini_convertResponse_reads_first_candidate
    (resp : Gemini.GenerateContentResponse) (model provider : string) (created : Z) :
  (exists m fr,
     firstChoice (Gemini.convertResponse resp model provider created) = Some (m, fr) /\
     msgContent m = concatAll (partTexts (firstParts resp)) /\
     msgToolCalls m = partToolCalls (firstParts resp) /\
     Forall (fun tc => tcID tc = fcName (tcFunction tc)) (msgToolCalls m) /\
     canonicalFinish fr /\ fr <> "") /\
  (forall c cs cs' um,
     Gemini.convertResponse
       {| Gemini.Candidates := c :: cs; Gemini.gUsageMetadata := um |} model provider created
     = Gemini.convertResponse
       {| Gemini.Candidates := c :: cs'; Gemini.gUsageMetadata := um |} model provider created).
Proof.
  split.
  - unfold Gemini.convertResponse. rewrite convertResponse_collects. simpl.
    eexists. eexists. split; [reflexivity|]. simpl.
    split; [reflexivity|]. split; [reflexivity|]. split; [apply partToolCalls_ids|].
    unfold canonicalFinish.
    destruct (0 <? length (partToolCalls (firstParts resp)))%nat; [split; [auto|discriminate]|].
    destruct (Gemini.Candidates resp) as [|[parts []] cs]; split; auto; discriminate.
  - intros [parts fr] cs cs' um. unfold Gemini.convertResponse. simpl.
    destruct parts; reflexivity.
Qed.

Lemma toolCallDeltas_app evs1 evs2 :
  toolCallDeltas (evs1 ++ evs2) = toolCallDeltas evs1 ++ toolCallDeltas evs2.
Proof. unfold toolCallDeltas. apply flat_map_app. Qed.

Lemma contentDeltas_cons_tool tc evs :
  contentDeltas (Gemini.toolCallDeltaEvent tc :: evs) = contentDeltas evs.
Proof. apply contentDeltas_cons_other. discriminate. Qed.

(** What the part loop of the stream accumulates and sends. *)
Lemma Gemini_streamParts_reads parts :
  forall fc tcs,
    exists sent,
      Gemini.streamParts parts fc tcs =
        (fc +:+ concatAll (partTexts parts), tcs ++ partToolCalls parts, sent) /\
      toolCallDeltas sent = partToolCalls parts /\
      contentDeltas sent = partTexts parts.
Proof.
  induction parts as [|[t|name args|] parts IH]; intros fc tcs; simpl.
  - exists []. rewrite append_empty_r, app_nil_r. repeat split.
  - destruct (IH (fc +:+ t) tcs) as (sent & -> & Ht & Hc).
    eexists. split; [|split].
    + change (concatAll (t :: partTexts parts)) with (t +:+ concatAll (partTexts parts)).
      rewrite append_assoc. reflexivity.
    + exact Ht.
    + rewrite contentDeltas_cons_content by reflexivity. simpl. rewrite Hc. reflexivity.
  - destruct (IH fc (tcs ++ [Gemini.toolCallOf name args])) as (sent & -> & Ht & Hc).
    eexists. split; [|split].
    + rewrite <- app_assoc. reflexivity.
    + simpl. rewrite Ht. reflexivity.
    + rewrite contentDeltas_cons_tool. exact Hc.
  - apply IH.
Qed.

Lemma Gemini_streamCandidates_reads cands :
  forall fc tcs,
    exists sent,
      Gemini.streamCandidates cands fc tcs =
        (fc +:+ concatAll (partTexts
                  (flat_map (fun c => match Gemini.cContent c with
                                      | Some parts => parts
                                      | None => []
                                      end) cands)),
         tcs ++ partToolCalls
                  (flat_map (fun c => match Gemini.cContent c with
                                      | Some parts => parts
                                      | None => []
                                      end) cands),
         sent) /\
      toolCallDeltas sent =
        partToolCalls (flat_map (fun c => match Gemini.cContent c with
                                          | Some parts => parts
                                          | None => []
                                          end) cands) /\
      contentDeltas sent =
        partTexts (flat_map (fun c => match Gemini.cContent c with
                                      | Some parts => parts
                                      | None => []
                                      end) cands).
Proof.
  induction cands as [|[[parts|] fr] cands IH]; intros fc tcs; simpl.
  - exists []. rewrite append_empty_r, app_nil_r. repeat split.
  - destruct (Gemini_streamParts_reads parts fc tcs) as (sent1 & -> & Ht1 & Hc1).
    destruct (IH (fc +:+ concatAll (partTexts parts)) (tcs ++ partToolCalls parts))
      as (sent2 & -> & Ht2 & Hc2).
    exists (sent1 ++ sent2). unfold partTexts, partToolCalls in *.
    rewrite !flat_map_app, concatAll_app, append_assoc, <- app_assoc.
    split; [reflexivity|].
    rewrite toolCallDeltas_app, contentDeltas_app, Ht1, Ht2, Hc1, Hc2. split; reflexivity.
  - apply IH.
Qed.

Lemma Gemini_streamResponses_reads resps :
  forall fc tcs,
    exists sent,
      Gemini.streamResponses resps fc tcs =
        (fc +:+ concatAll (partTexts (allParts resps)),
         tcs ++ partToolCalls (allParts resps), sent) /\
      toolCallDeltas sent = partToolCalls (allParts resps) /\
      contentDeltas sent = partTexts (allParts resps).
Proof.
  induction resps as [|resp resps IH]; intros fc tcs; simpl.
  - exists []. rewrite append_empty_r, app_nil_r. repeat split.
  - destruct (Gemini_streamCandidates_reads (Gemini.Candidates resp) fc tcs)
      as (sent1 & -> & Ht1 & Hc1).
    match goal with
    | |- context [Gemini.streamResponses resps ?f ?t] =>
        destruct (IH f t) as (sent2 & -> & Ht2 & Hc2)
    end.
    exists (sent1 ++ sent2). unfold allParts, partTexts, partToolCalls in *. simpl.
    rewrite !flat_map_app, concatAll_app, append_assoc, <- app_assoc.
    split; [reflexivity|].
    rewrite toolCallDeltas_app, contentDeltas_app, Ht1, Ht2, Hc1, Hc2. split; reflexivity.
Qed.

(** X22.  A Gemini stream that ends without error: the tool calls of the
    assistant message in the Done event are exactly the tool calls carried by
    the ToolCallDelta events, in order, one per function-call part of the
    backend sequence, each with its function name as id and its complete
    arguments; the finish reason is "tool_calls" if there is any and "stop"
    otherwise, whatever the backend reported; and the Done response carries no
    usage. *)
Theorem Gemini_stream_tool_calls (g : @Gemini.Provider W Ctx) (modelName : string)
    (created : Z) (resps : list Gemini.GenerateContentResponse) :
  exists sent resp m fr,
    Gemini.streamEvents g modelName created resps None = sent ++ [Gemini.doneEvent resp] /\
    firstChoice resp = Some (m, fr) /\
    msgToolCalls m = toolCallDeltas sent /\
    msgToolCalls m = partToolCalls (allParts resps) /\
    Forall (fun tc => tcID tc = fcName (tcFunction tc)) (msgToolCalls m) /\
    (msgToolCalls m <> [] -> fr = "tool_calls") /\
    (msgToolCalls m = [] -> fr = "stop") /\
    rUsage resp = None.
Proof.
  unfold Gemini.streamEvents.
  destruct (Gemini_streamResponses_reads resps "" []) as (sent & -> & Ht & Hc).
  eexists. eexists. eexists. eexists. split; [reflexivity|].
  split; [reflexivity|]. simpl.
  split; [symmetry; exact Ht|]. split; [reflexivity|].
  split; [apply partToolCalls_ids|].
  split; [intros Hne; rewrite (nonempty_length _ Hne); reflexivity|].
  split; [intros ->; reflexivity | reflexivity].
Qed.

(** X23.  [Complete] and [Stream] of the Gemini adapter read a backend
    response differently: the Done event of a stream carries the text and the
    function calls of every candidate of every response, [convertResponse]
    those of the first candidate only.  On a response with a single candidate
    the two agree on the content and the tool calls of the assistant
    message. *)
Theorem Gemini_Complete_Stream_agreement (g : @Gemini.Provider W Ctx)
    (modelName provider : string) (created : Z) :
  (forall resps, exists sent resp m fr,
     Gemini.streamEvents g modelName created resps None = sent ++ [Gemini.doneEvent resp] /\
     firstChoice resp = Some (m, fr) /\
     msgContent m = concatAll (partTexts (allParts resps)) /\
     msgToolCalls m = partToolCalls (allParts resps)) /\
  (forall c um, exists sent resp m fr m' fr',
     Gemini.streamEvents g modelName created
       [ {| Gemini.Candidates := [c]; Gemini.gUsageMetadata := um |} ] None
       = sent ++ [Gemini.doneEvent resp] /\
     firstChoice resp = Some (m, fr) /\
     firstChoice (Gemini.convertResponse
                    {| Gemini.Candidates := [c]; Gemini.gUsageMetadata := um |}
                    modelName provider created) = Some (m', fr') /\
     msgContent m = msgContent m' /\
     msgToolCalls m = msgToolCalls m').
Proof.
  split.
  - intros resps. unfold Gemini.streamEvents.
    destruct (Gemini_streamResponses_reads resps "" []) as (sent & -> & Ht & Hc).
    eexists. eexists. eexists. eexists. split; [reflexivity|].
    split; [reflexivity|]. split; reflexivity.
  - intros c um. unfold Gemini.streamEvents.
    destruct (Gemini_streamResponses_reads
                [ {| Gemini.Candidates := [c]; Gemini.gUsageMetadata := um |} ] "" [])
      as (sent & -> & Ht & Hc).
    unfold Gemini.convertResponse. rewrite convertResponse_collects.
    eexists. eexists. eexists. eexists. eexists. eexists.
    split; [reflexivity|]. split; [reflexivity|]. split; [reflexivity|]. simpl.
    unfold allParts, firstParts. simpl. destruct c as [[parts|] fr]; simpl;
      rewrite ?app_nil_r; split; reflexivity.
Qed.

End GeminiProperties.

Section MiddlewareExamples.
Import Errors Types Runtime Router Middleware Spec Scenarios MoreScenarios.

(** Scenario 5 of the specification: the first call fails with 503, the
    second succeeds after a sleep of 10 ms. *)
Example flakyRetry_run :
  retryComplete_run counting amd64OutOfRange flakyRetry tt (userSays "" "hi") 0%nat =
    ((Ok helloResponse, 2%nat),
     [Called 0 (Some overloaded503); Slept 1 10000000 None; Called 1 None]).
Proof. vm_compute. reflexivity. Qed.

(** Witness of [retryProvider_Complete_success], on that run. *)
Lemma retryProvider_Complete_success_witness :
  exists k,
    last [Called 0 (Some overloaded503); Slept 1 10000000 None; Called 1 None]
      = Some (Called k None) /\
    Z.of_nat (calls [Called 0 (Some overloaded503); Slept 1 10000000 None; Called 1 None])
      = k + 1 /\
    0 <= k < 2.
Proof.
  exact (proj1 (proj2 (retryProvider_Complete_success counting amd64OutOfRange flakyRetry tt
                         (userSays "" "hi") 0%nat helloResponse 2%nat _ flakyRetry_run))).
Defined.

(** Witness of [retry_sleeps_bounded]: the one sleep of that run. *)
Lemma retry_sleeps_bounded_witness :
  1 <= 1 < 2 /\
  10000000 = calculateBackoff amd64OutOfRange flakyRetry 1 /\
  10000000 <= 30 * Second.
Proof.
  apply (retry_sleeps_bounded counting amd64OutOfRange flakyRetry tt (userSays "" "hi")
           0%nat _ _ _ 1 10000000 None flakyRetry_run).
  right. left.
Defined.

(** Witness of [retry_Stream_of_adapters_single_call]: three attempts
    configured, a backend that answers 429 at once. *)
Lemma retry_Stream_of_adapters_single_call_witness :
  retryStream_run quiet amd64OutOfRange (retry3 quiet) tt (userSays "" "hi") tt
    = (Anthropic.Stream quiet busyAdapter tt (userSays "" "hi") tt, [Called 0 None]).
Proof.
  apply (proj1 (retry_Stream_of_adapters_single_call quiet amd64OutOfRange
                  (NewRetryMiddleware 3 Second) tt (userSays "" "hi") tt ltac:(simpl; lia))
           busyAdapter).
Defined.

Example retryOverOpenBreaker_run :
  retryComplete_run quiet amd64OutOfRange retryOverOpenBreaker tt (userSays "" "hi") tt =
    ((Fail (Errorf_w_v (Sentinel ErrMaxRetriesExceed) (Some (Sentinel ErrCircuitOpen))), tt),
     [Called 0 (Some (Sentinel ErrCircuitOpen));
      Slept 1 1000000000 None; Called 1 (Some (Sentinel ErrCircuitOpen));
      Slept 2 2000000000 None; Called 2 (Some (Sentinel ErrCircuitOpen))]).
Proof. vm_compute. reflexivity. Qed.

(** Witness of [retry_over_rejecting_breaker]: three attempts against an open
    breaker. *)
Lemma retry_over_rejecting_breaker_witness :
  calls [Called 0 (Some (Sentinel ErrCircuitOpen));
         Slept 1 1000000000 None; Called 1 (Some (Sentinel ErrCircuitOpen));
         Slept 2 2000000000 None; Called 2 (Some (Sentinel ErrCircuitOpen))]
    = Z.to_nat 3.
Proof.
  refine (proj1 (retry_over_rejecting_breaker quiet amd64OutOfRange
                   (NewRetryMiddleware 3 Second) openBreaker
                   (Anthropic.asProvider quiet claudeAdapter) tt (userSays "" "hi") tt
                   _ tt _ _ _ retryOverOpenBreaker_run _)).
  - reflexivity.
  - intros w0. simpl. discriminate.
  - repeat constructor.
Defined.

(** Witness of [timeoutProvider_Stream_prefix]: the deadline passes after the
    first event was forwarded. *)
Lemma timeoutProvider_Stream_prefix_witness :
  exists inner w2 n,
    Stream (tpProvider (timed hiGemini)) tt (userSays "" "hi") [None; None; Some deadlineExceeded]
      = (Ok inner, w2) /\
    ([Gemini.contentDeltaEvent "hi"; ctxErrorEvent deadlineExceeded] = take n inner \/
     exists ctxErr,
       [Gemini.contentDeltaEvent "hi"; ctxErrorEvent deadlineExceeded]
         = take n inner ++ [ctxErrorEvent ctxErr]).
Proof.
  apply (timeoutProvider_Stream_prefix scheduled (timed hiGemini) tt (userSays "" "hi")
           [None; None; Some deadlineExceeded]
           [Gemini.contentDeltaEvent "hi"; ctxErrorEvent deadlineExceeded] []).
  vm_compute. reflexivity.
Defined.

End MiddlewareExamples.

(* ===================================================================== *)
(** * Properties of the request conversions *)
(* ===================================================================== *)

Section AnthropicRequestProperties.
Import Errors Types AnthropicRequests.
Variable Obj : Type.
Variable unmarshalObject : string -> option Obj.
Variable ContentParts : Message -> list ContentPart.

Local Abbreviation MessageParam := (AnthropicRequests.MessageParam Obj).
Local Abbreviation BlockParam := (AnthropicRequests.BlockParam Obj).

Lemma partBlocks_ids parts :
  forall blocks : list BlockParam,
    toolUseIDs Obj (NewUserMessage Obj (partBlocks Obj parts blocks))
      = toolUseIDs Obj (NewUserMessage Obj blocks) /\
    toolResultIDs Obj (NewUserMessage Obj (partBlocks Obj parts blocks))
      = toolResultIDs Obj (NewUserMessage Obj blocks).
Proof.
  unfold toolUseIDs, toolResultIDs. simpl.
  induction parts as [|p parts IH]; intros blocks; simpl; [split; reflexivity|].
  destruct (String.eqb (cpType p) "text").
  - destruct (IH (blocks ++ [NewTextBlock Obj (cpText p)])) as [-> ->].
    rewrite !flat_map_app. simpl. rewrite !app_nil_r. split; reflexivity.
  - destruct (String.eqb (cpType p) "image_url"); [|apply IH].
    destruct (cpImageURL p) as [img|]; [|apply IH].
    destruct (negb _); [|apply IH].
    destruct (IH (blocks ++ [NewImageBlockBase64 Obj (iuMediaType img) (iuBase64 img)]))
      as [-> ->].
    rewrite !flat_map_app. simpl. rewrite !app_nil_r. split; reflexivity.
Qed.

Lemma toolUseBlocks_ids tcs :
  forall blocks : list BlockParam,
    toolUseIDs Obj (NewAssistantMessage Obj (toolUseBlocks Obj unmarshalObject tcs blocks))
      = toolUseIDs Obj (NewAssistantMessage Obj blocks) ++ map tcID tcs /\
    toolResultIDs Obj (NewAssistantMessage Obj (toolUseBlocks Obj unmarshalObject tcs blocks))
      = toolResultIDs Obj (NewAssistantMessage Obj blocks).
Proof.
  unfold toolUseIDs, toolResultIDs. simpl.
  induction tcs as [|tc tcs IH]; intros blocks; simpl.
  - rewrite app_nil_r. split; reflexivity.
  - destruct (IH (blocks ++ [NewToolUseBlockParam Obj (tcID tc) (fcName (tcFunction tc))
                               (unmarshalObject (fcArguments (tcFunction tc)))]))
      as [-> ->].
    rewrite !flat_map_app. simpl. rewrite app_nil_r, <- app_assoc. split; reflexivity.
Qed.

Lemma convertLoop_messages msgs :
  forall systemPrompt (messages : list MessageParam),
    let out := fst (convertLoop Obj unmarshalObject ContentParts msgs systemPrompt messages) in
    map (mpRole Obj) out = map (mpRole Obj) messages ++ omap sentRole msgs /\
    flat_map (toolUseIDs Obj) out
      = flat_map (toolUseIDs Obj) messages ++ flat_map assistantCallIDs msgs /\
    flat_map (toolResultIDs Obj) out
      = flat_map (toolResultIDs Obj) messages ++ flat_map answeredCallID msgs.
Proof.
  induction msgs as [|msg msgs IH]; intros sp messages; simpl.
  - rewrite !app_nil_r. repeat split.
  - unfold assistantCallIDs, answeredCallID, sentRole.
    destruct (String.eqb_spec (msgRole msg) RoleSystem) as [Hs|Hs].
    { rewrite Hs. simpl. apply IH. }
    destruct (String.eqb_spec (msgRole msg) RoleUser) as [Hu|Hu].
    { rewrite Hu. simpl.
      destruct (0 <? length (ContentParts msg))%nat;
        match goal with
        | |- context [convertLoop _ _ _ msgs sp ?acc] =>
            destruct (IH sp acc) as (H1 & H2 & H3)
        end; cbv zeta in *; rewrite H1, H2, H3;
        rewrite !map_app, !flat_map_app, <- !app_assoc; simpl;
        rewrite ?app_nil_r;
        try (destruct (partBlocks_ids (ContentParts msg) []) as [-> ->]);
        repeat split. }
    destruct (String.eqb_spec (msgRole msg) RoleAssistant) as [Ha|Ha].
    { rewrite Ha. simpl.
      destruct (0 <? length (msgToolCalls msg))%nat eqn:Hlen;
        match goal with
        | |- context [convertLoop _ _ _ msgs sp ?acc] =>
            destruct (IH sp acc) as (H1 & H2 & H3)
        end; cbv zeta in *; rewrite H1, H2, H3;
        rewrite !map_app, !flat_map_app, <- !app_assoc; simpl;
        rewrite ?app_nil_r.
      - match goal with
        | |- context [toolUseBlocks _ _ _ ?b] =>
            destruct (toolUseBlocks_ids (msgToolCalls msg) b) as [-> ->]
        end.
        destruct (negb _); simpl; repeat split.
      - destruct (msgToolCalls msg); [|discriminate]. repeat split. }
    destruct (String.eqb_spec (msgRole msg) RoleTool) as [Ht|Ht].
    { rewrite ?Ht. simpl.
      match goal with
      | |- context [convertLoop _ _ _ msgs sp ?acc] =>
          destruct (IH sp acc) as (H1 & H2 & H3)
      end; cbv zeta in *; rewrite H1, H2, H3;
      rewrite !map_app, !flat_map_app, <- !app_assoc; simpl. repeat split. }
    apply IH.
Qed.

(** X24.  The message list [convertMessages] builds for the Anthropic
    backend.  Messages keep their order; user and tool messages are sent
    under the user role and assistant messages under the assistant role,
    system messages and messages of any other role are not sent as messages.
    The tool-use blocks carry the ids of the tool calls of the assistant
    messages, in order, and the tool-result blocks the tool-call ids of the
    tool messages, in order. *)
Theorem convertMessages_roles_and_ids (msgs : list Message) :
  let out := fst (convertMessages Obj unmarshalObject ContentParts msgs) in
  map (mpRole Obj) out = omap sentRole msgs /\
  flat_map (toolUseIDs Obj) out = flat_map assistantCallIDs msgs /\
  flat_map (toolResultIDs Obj) out = flat_map answeredCallID msgs.
Proof.
  unfold convertMessages. exact (convertLoop_messages msgs "" []).
Qed.

End AnthropicRequestProperties.

Section SystemPromptProperties.
Import Errors Types AnthropicRequests.
Variable Obj : Type.
Variable unmarshalObject : string -> option Obj.
Variable ContentParts : Message -> list ContentPart.

Lemma append_nonempty_l (s t : string) : s <> "" -> s +:+ t <> "".
Proof. destruct s; [congruence | discriminate]. Qed.

Lemma joinWith_cons sep x rest :
  joinWith sep (x :: rest) = x +:+ concatAll (map (fun y => sep +:+ y) rest).
Proof.
  revert x. induction rest as [|y rest IH]; intros x.
  - simpl. rewrite append_empty_r. reflexivity.
  - change (joinWith sep (x :: y :: rest)) with (x +:+ sep +:+ joinWith sep (y :: rest)).
    rewrite IH. simpl.
    change (concatAll ((sep +:+ y) :: map (fun y0 => sep +:+ y0) rest))
      with ((sep +:+ y) +:+ concatAll (map (fun y0 => sep +:+ y0) rest)).
    rewrite append_assoc. reflexivity.
Qed.

Lemma systemContents_cons_system msg msgs :
  msgRole msg = RoleSystem ->
  systemContents (msg :: msgs) = msgContent msg :: systemContents msgs.
Proof. intros H. unfold systemContents. rewrite filter_cons_True by exact H. reflexivity. Qed.

Lemma systemContents_cons_other msg msgs :
  msgRole msg <> RoleSystem -> systemContents (msg :: msgs) = systemContents msgs.
Proof. intros H. unfold systemContents. rewrite filter_cons_False by exact H. reflexivity. Qed.

(** Messages that are not system messages leave the prompt alone. *)
Lemma convertLoop_skip msg msgs systemPrompt (messages : list (MessageParam Obj)) :
  msgRole msg <> RoleSystem ->
  exists messages',
    convertLoop Obj unmarshalObject ContentParts (msg :: msgs) systemPrompt messages
    = convertLoop Obj unmarshalObject ContentParts msgs systemPrompt messages'.
Proof.
  intros Hs. simpl. destruct (String.eqb_spec (msgRole msg) RoleSystem); [contradiction|].
  destruct (String.eqb (msgRole msg) RoleUser).
  { destruct (0 <? length (ContentParts msg))%nat; eauto. }
  destruct (String.eqb (msgRole msg) RoleAssistant).
  { destruct (0 <? length (msgToolCalls msg))%nat; eauto. }
  destruct (String.eqb (msgRole msg) RoleTool); eauto.
Qed.

Lemma convertLoop_prompt_from msgs :
  forall systemPrompt (messages : list (MessageParam Obj)),
    systemPrompt <> "" ->
    Forall (fun c => c <> "") (systemContents msgs) ->
    snd (convertLoop Obj unmarshalObject ContentParts msgs systemPrompt messages)
      = systemPrompt +:+ concatAll (map (fun c => blankLine +:+ c) (systemContents msgs)).
Proof.
  induction msgs as [|msg msgs IH]; intros sp messages Hsp Hall.
  - simpl. rewrite append_empty_r. reflexivity.
  - destruct (String.eqb_spec (msgRole msg) RoleSystem) as [Hs|Hs].
    + rewrite (systemContents_cons_system _ _ Hs) in *.
      inversion Hall as [|? ? Hc Hrest]; subst.
      simpl. rewrite Hs. simpl.
      destruct (String.eqb_spec sp "") as [|_]; [contradiction|]. simpl.
      rewrite IH; [|apply append_nonempty_l, append_nonempty_l, Hsp | exact Hrest].
      change (concatAll ((blankLine +:+ msgContent msg)
                           :: map (fun c => blankLine +:+ c) (systemContents msgs)))
        with ((blankLine +:+ msgContent msg)
                +:+ concatAll (map (fun c => blankLine +:+ c) (systemContents msgs))).
      rewrite !append_assoc. reflexivity.
    + rewrite (systemContents_cons_other _ _ Hs) in *.
      destruct (convertLoop_skip msg msgs sp messages Hs) as [messages' ->].
      apply IH; assumption.
Qed.

Lemma convertLoop_prompt_start msgs :
  forall messages : list (MessageParam Obj),
    Forall (fun c => c <> "") (systemContents msgs) ->
    snd (convertLoop Obj unmarshalObject ContentParts msgs "" messages)
      = joinWith blankLine (systemContents msgs).
Proof.
  induction msgs as [|msg msgs IH]; intros messages Hall; [reflexivity|].
  destruct (String.eqb_spec (msgRole msg) RoleSystem) as [Hs|Hs].
  - rewrite (systemContents_cons_system _ _ Hs) in *.
    inversion Hall as [|? ? Hc Hrest]; subst.
    rewrite joinWith_cons. simpl. rewrite Hs. simpl.
    apply convertLoop_prompt_from; assumption.
  - rewrite (systemContents_cons_other _ _ Hs) in *.
    destruct (convertLoop_skip msg msgs "" messages Hs) as [messages' ->].
    apply IH. assumption.
Qed.

(** X25.  The system prompt [convertMessages] extracts.  When no system
    message has an empty content, it is the contents of the system messages,
    in order, joined by a blank line (two line feeds); in particular it is
    empty without system messages and the content itself with a single one.
    Messages of other roles have no part in it. *)
Theorem convertMessages_system_prompt (msgs : list Message) :
  Forall (fun c => c <> "") (systemContents msgs) ->
  snd (convertMessages Obj unmarshalObject ContentParts msgs)
    = joinWith blankLine (systemContents msgs).
Proof. apply convertLoop_prompt_start. Qed.

(** X26.  [convertToolChoice] of the Anthropic adapter.  "auto" and "none"
    both become the automatic choice (the adapter cannot ask for no tool),
    "required" and "any" become the any-tool choice, "function" with a
    function reference becomes the named-tool choice; the result is nil
    exactly for a nil directive, a "function" directive without a reference,
    or an unknown type. *)
Theorem convertToolChoice_mapping (tc : ToolChoice) :
  convertToolChoice None = None /\
  (tchType tc = "auto" \/ tchType tc = "none" ->
   convertToolChoice (Some tc) = Some ToolChoiceAuto) /\
  (tchType tc = "required" \/ tchType tc = "any" ->
   convertToolChoice (Some tc) = Some ToolChoiceAny) /\
  (forall f, tchType tc = "function" -> tchFunction tc = Some f ->
   convertToolChoice (Some tc) = Some (ToolChoiceTool f)) /\
  (convertToolChoice (Some tc) = None <->
   (tchType tc = "function" /\ tchFunction tc = None) \/
   (tchType tc <> "auto" /\ tchType tc <> "none" /\ tchType tc <> "required" /\
    tchType tc <> "any" /\ tchType tc <> "function")).
Proof.
  split; [reflexivity|]. unfold convertToolChoice.
  destruct (String.eqb_spec (tchType tc) "auto") as [->|H1].
  { repeat split; try (intros; discriminate); try reflexivity;
      try (intros [H|H]; discriminate).
    - intros [[H _]|[H _]]; [discriminate | congruence]. }
  destruct (String.eqb_spec (tchType tc) "none") as [->|H2].
  { repeat split; try (intros; discriminate); try reflexivity;
      try (intros [H|H]; discriminate).
    - intros [[H _]|(_ & H & _)]; [discriminate | congruence]. }
  destruct (String.eqb_spec (tchType tc) "required") as [->|H3].
  { simpl. repeat split; try (intros; discriminate); try reflexivity;
      try (intros [H|H]; discriminate).
    - intros [[H _]|(_ & _ & H & _)]; [discriminate | congruence]. }
  destruct (String.eqb_spec (tchType tc) "any") as [->|H4].
  { simpl. repeat split; try (intros; discriminate); try reflexivity;
      try (intros [H|H]; discriminate).
    - intros [[H _]|(_ & _ & _ & H & _)]; [discriminate | congruence]. }
  simpl. destruct (String.eqb_spec (tchType tc) "function") as [Hf|H5].
  { rewrite Hf in *. split; [intros [H|H]; discriminate|].
    split; [intros [H|H]; discriminate|].
    split; [intros f _ ->; reflexivity|].
    destruct (tchFunction tc) as [f|]; split.
    - discriminate.
    - intros [[_ H]|(_ & _ & _ & _ & H)]; [discriminate | congruence].
    - intros _. left. split; reflexivity.
    - reflexivity. }
  split; [intros [H|H]; congruence|].
  split; [intros [H|H]; congruence|].
  split; [intros f H; congruence|].
  split; [intros _; right; repeat split; assumption | reflexivity].
Qed.

End SystemPromptProperties.

Section GeminiHistoryProperties.
Import Errors Types GeminiRequests.
Variable Obj : Type.
Variable unmarshalObject : string -> option Obj.
Variable resultObject : string -> Obj.

Lemma callParts_reads tcs :
  forall parts : list (HistoryPart Obj),
    callParts Obj unmarshalObject tcs parts = parts ++ callsOf Obj unmarshalObject tcs.
Proof.
  induction tcs as [|tc tcs IH]; intros parts; simpl.
  - rewrite app_nil_r. reflexivity.
  - rewrite IH, <- app_assoc. reflexivity.
Qed.

(** One step of the loop for a message that another message follows. *)
Lemma historyLoop_followed msg next rest (history : list (Content Obj)) lastUserMsg :
  historyLoop Obj unmarshalObject resultObject (msg :: next :: rest) history lastUserMsg
  = historyLoop Obj unmarshalObject resultObject (next :: rest)
      (history ++ entryOf Obj unmarshalObject resultObject msg) lastUserMsg.
Proof.
  unfold entryOf. cbn [historyLoop].
  destruct (String.eqb (msgRole msg) RoleSystem); [rewrite app_nil_r; reflexivity|].
  destruct (String.eqb (msgRole msg) RoleUser); [reflexivity|].
  destruct (String.eqb (msgRole msg) RoleAssistant).
  { rewrite callParts_reads.
    destruct ((if negb (String.eqb (msgContent msg) "") then [Text Obj (msgContent msg)] else [])
              ++ callsOf Obj unmarshalObject (msgToolCalls msg)) as [|part parts];
      simpl; rewrite ?app_nil_r; reflexivity. }
  destruct (String.eqb (msgRole msg) RoleTool); [reflexivity|].
  rewrite app_nil_r. reflexivity.
Qed.

(** The last step of the loop. *)
Lemma historyLoop_last msg (history : list (Content Obj)) lastUserMsg :
  historyLoop Obj unmarshalObject resultObject [msg] history lastUserMsg
  = if String.eqb (msgRole msg) RoleSystem then (history, lastUserMsg)
    else if String.eqb (msgRole msg) RoleUser then (history, msgContent msg)
    else (history ++ entryOf Obj unmarshalObject resultObject msg, lastUserMsg).
Proof.
  unfold entryOf. cbn [historyLoop].
  destruct (String.eqb (msgRole msg) RoleSystem); [reflexivity|].
  destruct (String.eqb (msgRole msg) RoleUser); [reflexivity|].
  destruct (String.eqb (msgRole msg) RoleAssistant).
  { rewrite callParts_reads.
    destruct ((if negb (String.eqb (msgContent msg) "") then [Text Obj (msgContent msg)] else [])
              ++ callsOf Obj unmarshalObject (msgToolCalls msg)) as [|part parts];
      simpl; rewrite ?app_nil_r; reflexivity. }
  destruct (String.eqb (msgRole msg) RoleTool); [reflexivity|].
  rewrite app_nil_r. reflexivity.
Qed.

Lemma historyLoop_snoc earlier :
  forall final (history : list (Content Obj)) lastUserMsg,
    historyLoop Obj unmarshalObject resultObject (earlier ++ [final]) history lastUserMsg
    = historyLoop Obj unmarshalObject resultObject [final]
        (history ++ flat_map (entryOf Obj unmarshalObject resultObject) earlier) lastUserMsg.
Proof.
  induction earlier as [|msg earlier IH]; intros final history lastUserMsg.
  - simpl app. rewrite app_nil_r. reflexivity.
  - cbn [app flat_map]. destruct earlier as [|next earlier'].
    + cbn [app flat_map]. rewrite historyLoop_followed, app_nil_r. reflexivity.
    + change ((next :: earlier') ++ [final]) with (next :: (earlier' ++ [final])).
      rewrite historyLoop_followed.
      change (next :: (earlier' ++ [final])) with ((next :: earlier') ++ [final]).
      rewrite IH, <- app_assoc. reflexivity.
Qed.

(** X27.  What [convertHistory] of the Gemini adapter does with a
    conversation.  Every message but the last contributes its history
    entries in order: nothing for a system message or an assistant message
    without text and tool calls, one entry for any other.  A final user
    message is kept out of the history and becomes the text of the turn to
    send; after any other final message the turn to send is the empty
    text. *)
Theorem convertHistory_splits_last (earlier : list Message) (final : Message) :
  convertHistory Obj unmarshalObject resultObject [] = ([], "") /\
  (msgRole final = RoleUser ->
   convertHistory Obj unmarshalObject resultObject (earlier ++ [final])
   = (flat_map (entryOf Obj unmarshalObject resultObject) earlier, msgContent final)) /\
  (msgRole final <> RoleUser ->
   convertHistory Obj unmarshalObject resultObject (earlier ++ [final])
   = (flat_map (entryOf Obj unmarshalObject resultObject) (earlier ++ [final]), "")).
Proof.
  split; [reflexivity|]. unfold convertHistory.
  rewrite historyLoop_snoc, historyLoop_last. simpl app. split.
  - intros ->. reflexivity.
  - intros Hne. rewrite flat_map_app. simpl. rewrite app_nil_r.
    destruct (String.eqb_spec (msgRole final) RoleSystem) as [Hs|Hs].
    + unfold entryOf. rewrite Hs. simpl. rewrite app_nil_r. reflexivity.
    + destruct (String.eqb_spec (msgRole final) RoleUser); [contradiction | reflexivity].
Qed.

End GeminiHistoryProperties.

(* ===================================================================== *)
(** * Properties of the OpenAI adapter *)
(* ===================================================================== *)

Section OpenAIProperties.
Import Errors Types Runtime Spec.
Context {W Ctx : Type}.
Variable rt : Runtime W Ctx.

(** How a converted choice relates to the backend's choice. *)
Lemma convertChoice_keeps (sc : OpenAI.SDKChoice) :
  chIndex (OpenAI.convertChoice sc) = OpenAI.scIndex sc /\
  chFinishReason (OpenAI.convertChoice sc) = OpenAI.scFinishReason sc /\
  exists m,
    chMessage (OpenAI.convertChoice sc) = Some m /\
    msgRole m = RoleAssistant /\
    msgContent m = OpenAI.smContent (OpenAI.scMessage sc) /\
    map tcID (msgToolCalls m) = map OpenAI.stID (OpenAI.smToolCalls (OpenAI.scMessage sc)) /\
    map (fun tc => fcName (tcFunction tc)) (msgToolCalls m)
      = map OpenAI.stName (OpenAI.smToolCalls (OpenAI.scMessage sc)) /\
    map (fun tc => fcArguments (tcFunction tc)) (msgToolCalls m)
      = map OpenAI.stArguments (OpenAI.smToolCalls (OpenAI.scMessage sc)).
Proof.
  split; [reflexivity|]. split; [reflexivity|].
  eexists. split; [reflexivity|]. simpl. rewrite !map_map. repeat split.
Qed.

(** X28.  A successful [Complete] of the OpenAI adapter.  The response
    carries the adapter's configured name; it has one choice for each choice
    of the backend, in order, with the backend's index and its finish reason
    taken over verbatim (it is not mapped to the canonical set), the content
    unchanged, and the tool calls in order with their ids, names and argument
    strings; and it has a usage record exactly when the backend's total token
    count is positive, the three counts being then the backend's. *)
Theorem OpenAI_Complete_response (p : @OpenAI.Provider W Ctx) ctx req w resp w' :
  OpenAI.Complete p ctx req w = (Ok resp, w') ->
  exists cc,
    fst (OpenAI.CompletionsNew (OpenAI.client p) ctx (OpenAI.buildParams p req) w) = inl cc /\
    rProvider resp = OpenAI.name p /\
    Forall2 (fun sc c =>
               chIndex c = OpenAI.scIndex sc /\
               chFinishReason c = OpenAI.scFinishReason sc /\
               exists m,
                 chMessage c = Some m /\
                 msgRole m = RoleAssistant /\
                 msgContent m = OpenAI.smContent (OpenAI.scMessage sc) /\
                 map tcID (msgToolCalls m)
                   = map OpenAI.stID (OpenAI.smToolCalls (OpenAI.scMessage sc)) /\
                 map (fun tc => fcName (tcFunction tc)) (msgToolCalls m)
                   = map OpenAI.stName (OpenAI.smToolCalls (OpenAI.scMessage sc)) /\
                 map (fun tc => fcArguments (tcFunction tc)) (msgToolCalls m)
                   = map OpenAI.stArguments (OpenAI.smToolCalls (OpenAI.scMessage sc)))
            (OpenAI.ccChoices cc) (rChoices resp) /\
    (rUsage resp = None <-> OpenAI.suTotalTokens (OpenAI.ccUsage cc) <= 0) /\
    (forall u, rUsage resp = Some u ->
       PromptTokens u = OpenAI.suPromptTokens (OpenAI.ccUsage cc) /\
       CompletionTokens u = OpenAI.suCompletionTokens (OpenAI.ccUsage cc) /\
       TotalTokens u = OpenAI.suTotalTokens (OpenAI.ccUsage cc)).
Proof.
  unfold OpenAI.Complete.
  destruct (OpenAI.CompletionsNew _ _ _ _) as [[cc|err] w1]; intros [= <- <-].
  exists cc. split; [reflexivity|]. split; [reflexivity|]. split.
  - simpl. induction (OpenAI.ccChoices cc) as [|sc scs IH]; simpl; constructor.
    + apply convertChoice_keeps.
    + exact IH.
  - simpl. unfold OpenAI.convertUsage.
    destruct (Z.ltb_spec 0 (OpenAI.suTotalTokens (OpenAI.ccUsage cc))).
    + split; [split; [discriminate | lia]|]. intros u [= <-]. repeat split.
    + split; [split; [intros _; lia | reflexivity]|]. intros u [=].
Qed.

Lemma OpenAI_chunkEvents_reads chunk :
  contentDeltas (OpenAI.chunkEvents chunk) = OpenAI.chunkTexts [chunk] /\
  Forall (fun e => isTerminal e = false) (OpenAI.chunkEvents chunk).
Proof.
  unfold OpenAI.chunkEvents, OpenAI.chunkTexts. simpl.
  destruct (OpenAI.chkChoices chunk) as [|choice cs]; [split; [reflexivity | constructor]|].
  destruct (String.eqb (OpenAI.cdContent (OpenAI.ckDelta choice)) "");
    destruct (0 <? length (OpenAI.cdToolCalls (OpenAI.ckDelta choice)))%nat; simpl;
    split; try reflexivity; repeat constructor.
Qed.

Lemma OpenAI_streamLoop_reads chunks :
  forall lastChunk,
    OpenAI.streamLoop chunks lastChunk =
      (match last chunks with Some c => Some c | None => lastChunk end,
       flat_map OpenAI.chunkEvents chunks).
Proof.
  induction chunks as [|chunk chunks IH]; intros lastChunk; [reflexivity|].
  cbn [OpenAI.streamLoop flat_map]. rewrite IH.
  destruct chunks as [|c2 chunks']; [reflexivity|].
  change (last (chunk :: c2 :: chunks')) with (last (c2 :: chunks')).
  destruct (last (c2 :: chunks')) eqn:Hl; [reflexivity|].
  apply last_None in Hl. discriminate.
Qed.

Lemma OpenAI_events_read chunks :
  contentDeltas (flat_map OpenAI.chunkEvents chunks) = OpenAI.chunkTexts chunks /\
  Forall (fun e => isTerminal e = false) (flat_map OpenAI.chunkEvents chunks).
Proof.
  induction chunks as [|chunk chunks [IHc IHn]]; [split; [reflexivity | constructor]|].
  destruct (OpenAI_chunkEvents_reads chunk) as [Hc Hn]. cbn [flat_map]. split.
  - rewrite contentDeltas_app, Hc, IHc. unfold OpenAI.chunkTexts. simpl.
    rewrite app_nil_r. reflexivity.
  - apply Forall_app. split; assumption.
Qed.

Lemma chunkTexts_nonempty chunks : Forall (fun t => t <> "") (OpenAI.chunkTexts chunks).
Proof.
  unfold OpenAI.chunkTexts. induction chunks as [|chunk chunks IH]; [constructor|].
  cbn [flat_map]. apply Forall_app. split; [|exact IH].
  destruct (OpenAI.chkChoices chunk) as [|choice cs]; [constructor|].
  destruct (String.eqb_spec (OpenAI.cdContent (OpenAI.ckDelta choice)) "");
    repeat constructor. assumption.
Qed.

(** X29.  What the goroutine of the OpenAI adapter's [Stream] sends, for any
    chunks and any end of the backend stream: exactly one terminal event,
    which comes last; the ContentDelta texts are the non-empty contents of
    the first-choice deltas of the chunks, in order, so no ContentDelta is
    empty.  When the stream ends without error the Done event carries the
    conversion of the last chunk (a bare response if there was no chunk at
    all), and none of its choices holds an assistant message: the text
    streamed so far is not assembled into the Done event. *)
Theorem OpenAI_stream_events (p : @OpenAI.Provider W Ctx) (model : string) (created : Z)
    (chunks : list OpenAI.ChatCompletionChunk) (streamErr : option OpenAI.SDKError) :
  let out := OpenAI.streamEvents p model created chunks streamErr in
  wellTerminated out /\
  contentDeltas out = OpenAI.chunkTexts chunks /\
  Forall (fun t => t <> "") (contentDeltas out) /\
  (streamErr = None ->
   exists resp,
     last out = Some (OpenAI.doneEvent resp) /\
     Forall (fun c => chMessage c = None) (rChoices resp) /\
     doneContent (OpenAI.doneEvent resp) = None /\
     (forall chunk, last chunks = Some chunk ->
        resp = OpenAI.convertChunkResponse chunk (OpenAI.name p))).
Proof.
  unfold OpenAI.streamEvents. rewrite OpenAI_streamLoop_reads.
  destruct (OpenAI_events_read chunks) as [Hc Hn].
  assert (Hcd : forall e, isTerminal e = true -> evType e <> EventContentDelta ->
            contentDeltas (flat_map OpenAI.chunkEvents chunks ++ [e])
            = OpenAI.chunkTexts chunks).
  { intros e _ He. rewrite contentDeltas_app, contentDeltas_cons_other by exact He.
    rewrite Hc. apply app_nil_r. }
  destruct streamErr as [err|].
  - split; [apply wellTerminated_snoc; [exact Hn | reflexivity]|].
    split; [apply Hcd; [reflexivity | discriminate]|].
    split; [|discriminate].
    rewrite Hcd by (reflexivity || discriminate). apply chunkTexts_nonempty.
  - destruct (last chunks) as [chunk|] eqn:Hl.
    + split; [apply wellTerminated_snoc; [exact Hn | reflexivity]|].
      split; [apply Hcd; [reflexivity | discriminate]|].
      split; [rewrite Hcd by (reflexivity || discriminate); apply chunkTexts_nonempty|].
      intros _. eexists. split; [apply last_snoc|].
      split; [|split].
      * simpl. apply Forall_forall. intros c Hin.
        apply list_elem_of_fmap in Hin. destruct Hin as (ck & -> & _). reflexivity.
      * unfold doneContent. simpl.
        destruct (OpenAI.chkChoices chunk); reflexivity.
      * intros chunk' [= <-]. reflexivity.
    + split; [apply wellTerminated_snoc; [exact Hn | reflexivity]|].
      split; [apply Hcd; [reflexivity | discriminate]|].
      split; [rewrite Hcd by (reflexivity || discriminate); apply chunkTexts_nonempty|].
      intros _. eexists. split; [apply last_snoc|].
      split; [constructor|]. split; [reflexivity|]. intros chunk' [=].
Qed.

Lemma HasSuffix_slash (s : string) : OpenAI.HasSuffix (s +:+ "/") "/" = true.
Proof.
  induction s as [|c s IH]; [reflexivity|].
  change (String c s +:+ "/") with (String c (s +:+ "/")).
  cbn [OpenAI.HasSuffix]. destruct (String.eqb (String c (s +:+ "/")) "/"); [reflexivity|].
  exact IH.
Qed.

(** X30.  [New] of the OpenAI adapter.  A base URL handed to the HTTP client
    is never empty and always ends with a slash.  The provider keeps the
    configured name.  For a name with a preset and no model configured, a
    request with an empty model or with the provider's name as model is sent
    with the preset's default model.  Without a preset nothing is filled in:
    the model and the model list stay as configured, possibly empty. *)
Theorem OpenAI_New_configuration (newClient : list OpenAI.RequestOption -> @OpenAI.Client W Ctx)
    (cfg : OpenAI.ProviderConfig) :
  (exists opts,
     OpenAI.client (OpenAI.New newClient cfg) = newClient opts /\
     forall url, OpenAI.WithBaseURL url ∈ opts ->
       url <> "" /\ OpenAI.HasSuffix url "/" = true) /\
  OpenAI.name (OpenAI.New newClient cfg) = OpenAI.cfgName cfg /\
  (forall pr req,
     OpenAI.Presets (OpenAI.cfgName cfg) = Some pr -> OpenAI.cfgModel cfg = "" ->
     reqModel req = "" \/ reqModel req = OpenAI.cfgName cfg ->
     OpenAI.pModel (OpenAI.buildParams (OpenAI.New newClient cfg) req)
       = OpenAI.prDefaultModel pr) /\
  (OpenAI.Presets (OpenAI.cfgName cfg) = None ->
   OpenAI.model (OpenAI.New newClient cfg) = OpenAI.cfgModel cfg /\
   OpenAI.models (OpenAI.New newClient cfg) = OpenAI.cfgModels cfg).
Proof.
  split; [|split; [reflexivity|split]].
  - unfold OpenAI.New. cbn [OpenAI.client]. eexists. split; [reflexivity|].
    intros url Hin.
    set (b0 := match OpenAI.Presets (OpenAI.cfgName cfg) with
               | Some pr => if String.eqb (OpenAI.cfgBaseURL cfg) ""
                            then OpenAI.prBaseURL pr else OpenAI.cfgBaseURL cfg
               | None => OpenAI.cfgBaseURL cfg
               end) in *.
    apply elem_of_app in Hin. destruct Hin as [Hin|Hin].
    + destruct (String.eqb_spec b0 "") as [He|He]; simpl in Hin.
      * rewrite He in Hin. simpl in Hin. inversion Hin.
      * destruct (OpenAI.HasSuffix b0 "/") eqn:Hs; simpl in Hin.
        -- destruct (String.eqb_spec b0 ""); [contradiction|]. simpl in Hin.
           apply list_elem_of_singleton in Hin. injection Hin as ->. auto.
        -- destruct (String.eqb_spec (b0 +:+ "/") "") as [He'|He']; simpl in Hin;
             [inversion Hin|].
           apply list_elem_of_singleton in Hin. injection Hin as ->.
           split; [exact He' | apply HasSuffix_slash].
    + apply elem_of_app in Hin. destruct Hin as [Hin|Hin].
      * destruct (negb _); [apply list_elem_of_singleton in Hin; discriminate | inversion Hin].
      * destruct (0 <? _); [apply list_elem_of_singleton in Hin; discriminate | inversion Hin].
  - intros pr req Hp Hm Hreq. unfold OpenAI.buildParams, OpenAI.New. simpl.
    rewrite Hp, Hm. simpl. destruct Hreq as [->| ->]; simpl; [reflexivity|].
    rewrite String.eqb_refl, orb_true_r. reflexivity.
  - intros Hp. unfold OpenAI.New. simpl. rewrite Hp. split; reflexivity.
Qed.

End OpenAIProperties.

Section RequestExamples.
Import Errors Types Runtime Spec Scenarios RequestScenarios AnthropicRequests.

(** Scenario 2 of the specification: the tool's answer is sent as a
    user-role message holding one tool-result block for "t1". *)
Example weatherChat_converted :
  convertMessages unit noObject noParts weatherChat =
    ([ NewUserMessage unit [NewTextBlock unit "weather in SF?"];
       NewAssistantMessage unit [NewToolUseBlockParam unit "t1" "get_weather" None];
       NewUserMessage unit [NewToolResultBlock unit "t1" "68" false] ],
     "Be brief." +:+ blankLine +:+ "Use the tools.").
Proof. vm_compute. reflexivity. Qed.

(** Witness of [convertMessages_system_prompt]: two system messages. *)
Lemma convertMessages_system_prompt_witness :
  snd (convertMessages unit noObject noParts weatherChat)
    = joinWith blankLine (systemContents weatherChat).
Proof.
  apply (convertMessages_system_prompt unit noObject noParts weatherChat).
  vm_compute. repeat constructor; discriminate.
Defined.

(** Witness of [OpenAI_Complete_response]: two choices, the second with a
    finish reason outside the canonical set. *)
Lemma OpenAI_Complete_response_witness :
  exists cc,
    fst (OpenAI.CompletionsNew (OpenAI.client groqAdapter) tt
           (OpenAI.buildParams groqAdapter (userSays "groq" "hi")) tt) = inl cc /\
    rProvider (OpenAI.convertResponse twoChoices "groq") = "groq".
Proof.
  destruct (OpenAI_Complete_response groqAdapter tt (userSays "groq" "hi") tt
              (OpenAI.convertResponse twoChoices "groq") tt)
    as (cc & Hcc & Hp & _).
  - reflexivity.
  - exists cc. split; [exact Hcc | exact Hp].
Defined.

End RequestExamples.

Section FurtherWitnesses.
Import Errors Types Runtime Router Middleware Spec Reading Scenarios MoreScenarios
       RequestScenarios.

(** Witness of [buildChain_composition]: the retry wrapper, registered first,
    is outermost. *)
Lemma buildChain_composition_witness :
  buildChain guardedClaudeRouter (Anthropic.asProvider quiet claudeAdapter) =
    RetryWrap quiet (fun _ _ => 0) (NewRetryMiddleware 3 Second)
      (TimeoutWrap quiet (NewTimeoutMiddleware (60 * Second))
         (Anthropic.asProvider quiet claudeAdapter)).
Proof.
  exact (proj1 (proj2 (buildChain_composition guardedClaudeRouter
                         (Anthropic.asProvider quiet claudeAdapter)))
           (RetryWrap quiet (fun _ _ => 0) (NewRetryMiddleware 3 Second))
           [TimeoutWrap quiet (NewTimeoutMiddleware (60 * Second))] eq_refl).
Defined.

(** Witness of [MapModel_resolution]: a model mapped to the registered name. *)
Lemma MapModel_resolution_witness :
  resolveProvider (MapModel claudeRouter "best" "claude")
    (map_to_list (providers claudeRouter)) "best"
  = Ok (Anthropic.asProvider quiet claudeAdapter).
Proof.
  apply (proj1 (MapModel_resolution claudeRouter (map_to_list (providers claudeRouter))
                  "best" "claude")).
  vm_compute. reflexivity.
Defined.

(** Witness of [RegisterProvider_lookup]: addressing the adapter by the name
    it was registered under. *)
Lemma RegisterProvider_lookup_witness :
  resolveProvider claudeRouter (map_to_list (providers claudeRouter)) "claude"
  = Ok (Anthropic.asProvider quiet claudeAdapter).
Proof.
  apply (proj2 (proj2 (proj2 (RegisterProvider_lookup Router.New
                                (map_to_list (providers claudeRouter)) "claude"
                                (Anthropic.asProvider quiet claudeAdapter))))).
  intros q (n & Hm & _). vm_compute in Hm. discriminate.
Defined.

(** Witness of [timeoutProvider_Stream_transparent]: no deadline in sight. *)
Lemma timeoutProvider_Stream_transparent_witness :
  fst (timeoutProvider_Stream logging
         {| tpProvider := Gemini.asProvider logging loggingGemini; tpTimeout := Second |}
         tt (userSays "" "hi") [])
  = Ok [Gemini.contentDeltaEvent "hi";
        Gemini.doneEvent
          (Gemini.finalResponse loggingGemini "gemini-1.5-flash" 1700000000 "hi" [])].
Proof.
  apply (proj2 (timeoutProvider_Stream_transparent logging
                  {| tpProvider := Gemini.asProvider logging loggingGemini;
                     tpTimeout := Second |} tt (userSays "" "hi") [])
           _ ["gemini-1.5-flash"]).
  - intros c w0. reflexivity.
  - vm_compute. reflexivity.
Defined.

(** Witness of [Anthropic_stream_tool_use_block]: the arguments arrive in two
    fragments. *)
Lemma Anthropic_stream_tool_use_block_witness :
  Anthropic.toolCalls
    (fst (Anthropic.streamLoop (toolUseEvents "t1" "f" ["{"; "}"]) Anthropic.initialState))
  = [Anthropic.toolCallOf "t1" "f" (concatAll ["{"; "}"])].
Proof.
  apply (proj1 (proj2 (proj2 (Anthropic_stream_tool_use_block Anthropic.initialState
                                "t1" "f" ["{"; "}"])))); discriminate.
Defined.

(** Witness of [convertToolChoice_mapping]: "none" is sent as the automatic
    choice. *)
Lemma convertToolChoice_mapping_witness :
  AnthropicRequests.convertToolChoice
    (Some {| AnthropicRequests.tchType := "none"; AnthropicRequests.tchFunction := None |})
  = Some AnthropicRequests.ToolChoiceAuto.
Proof.
  apply (proj1 (proj2 (convertToolChoice_mapping
                         {| AnthropicRequests.tchType := "none";
                            AnthropicRequests.tchFunction := None |}))).
  right. reflexivity.
Defined.

(** Witness of [convertHistory_splits_last]: a conversation that ends with a
    tool result leaves no text for the turn. *)
Lemma convertHistory_splits_last_witness :
  snd (GeminiRequests.convertHistory unit noObject (fun _ => tt)
         ([says RoleUser "weather in SF?"; asksWeather] ++ [weatherAnswer])) = "".
Proof.
  rewrite (proj2 (proj2 (convertHistory_splits_last unit noObject (fun _ => tt)
                           [says RoleUser "weather in SF?"; asksWeather] weatherAnswer)));
    [reflexivity | discriminate].
Defined.

(** Witness of [OpenAI_stream_events]: a backend stream without chunks. *)
Lemma OpenAI_stream_events_witness :
  exists resp,
    last (OpenAI.streamEvents groqAdapter "llama-3.3-70b-versatile" 1700000000 [] None)
      = Some (OpenAI.doneEvent resp) /\
    Forall (fun c => chMessage c = None) (rChoices resp).
Proof.
  destruct (proj2 (proj2 (proj2 (OpenAI_stream_events groqAdapter
                                   "llama-3.3-70b-versatile" 1700000000 [] None)))
              eq_refl) as (resp & Hl & Hf & _).
  exists resp. split; [exact Hl | exact Hf].
Defined.

(** Witness of [OpenAI_New_configuration]: the "groq" preset. *)
Lemma OpenAI_New_configuration_witness :
  OpenAI.pModel
    (OpenAI.buildParams
       (OpenAI.New (fun _ => OpenAI.client groqAdapter)
          {| OpenAI.cfgName := "groq"; OpenAI.cfgAPIKey := "k"; OpenAI.cfgBaseURL := "";
             OpenAI.cfgModel := ""; OpenAI.cfgModels := []; OpenAI.cfgTimeout := 0 |})
       (userSays "groq" "hi"))
  = "llama-3.3-70b-versatile".
Proof.
  refine (proj1 (proj2 (proj2 (OpenAI_New_configuration (fun _ => OpenAI.client groqAdapter)
            {| OpenAI.cfgName := "groq"; OpenAI.cfgAPIKey := "k"; OpenAI.cfgBaseURL := "";
               OpenAI.cfgModel := ""; OpenAI.cfgModels := []; OpenAI.cfgTimeout := 0 |})))
            {| OpenAI.prBaseURL := "https://api.groq.com/openai/v1/";
               OpenAI.prDefaultModel := "llama-3.3-70b-versatile";
               OpenAI.prModels := ["llama-3.3-70b-versatile"; "llama-3.1-8b-instant";
                                   "mixtral-8x7b-32768"] |}
            (userSays "groq" "hi") _ _ _).
  - reflexivity.
  - reflexivity.
  - right. reflexivity.
Defined.

End FurtherWitnesses.
